(** * classiq-library: the repository's tooling and model files

    The repository owns no algorithmic core; what it does own are
    - [.pre-commit-config.yaml]: hooks selected by a [files] regular
      expression that pre-commit hands to Python's [re.search];
    - [.github/workflows/Notification-developers-onboarding.yml]: a
      workflow of one job whose two github-script steps count the merged
      pull requests of a contributor and post a comment;
    - [.qmod] files: declarative quantum models.

    Each of them is embedded below the way it is written. *)

From Stdlib Require Import Ascii String Decimal DecimalString DecimalPos DecimalZ.
From Stdlib Require Import ZArith Lia SpecFloat.
From stdpp Require Import base decidable option list strings gmap.

Local Open Scope Z_scope.
Local Open Scope string_scope.
Local Open Scope list_scope.

(** ** Regular expressions of the [files] keys *)

Module Re.

(** A character is a Unicode code point, as in a Python [str]. *)
Abbreviation char := N.

Definition chars_of (s : string) : list char :=
  map (fun a => N_of_ascii a) (list_ascii_of_string s).

(** [\s] on a [str] pattern: the code points for which [str.isspace]
    holds. *)
Definition is_space (c : char) : bool :=
  ((9 <=? c) && (c <=? 13) || (28 <=? c) && (c <=? 32)
   || (c =? 133) || (c =? 160) || (c =? 5760)
   || (8192 <=? c) && (c <=? 8202)
   || (c =? 8232) || (c =? 8233) || (c =? 8239) || (c =? 8287)
   || (c =? 12288))%N.

(** The fragment of Python's syntax the configuration uses. *)
Inductive regex : Type :=
  | Eps                       (* the empty pattern *)
  | Bol                       (* ^  *)
  | Eol                       (* $  *)
  | Lit (c : char)            (* a literal character, escaped or not *)
  | NotSpace                  (* \S *)
  | Seq (r1 r2 : regex)
  | Alt (r1 r2 : regex)       (* r1|r2 *)
  | Plus (r : regex).         (* r+ *)

Fixpoint seq_of (rs : list regex) : regex :=
  match rs with
  | [] => Eps
  | r :: rs' => Seq r (seq_of rs')
  end.

Definition word (s : string) : list regex := map Lit (chars_of s).

(** Concrete syntax, to compare a [regex] with the text in the YAML file. *)
Definition is_meta (c : char) : bool :=
  existsb (N.eqb c) (chars_of ".^$*+?{}[]\|()").

Definition show_char (c : char) : string :=
  let a := String (ascii_of_N c) EmptyString in
  if is_meta c then "\" +:+ a else a.

Definition paren (b : bool) (s : string) : string :=
  if b then "(" +:+ s +:+ ")" else s.

Fixpoint show (prec : nat) (r : regex) : string :=
  match r with
  | Eps => ""
  | Bol => "^"
  | Eol => "$"
  | Lit c => show_char c
  | NotSpace => "\S"
  | Seq r1 r2 => paren (Nat.ltb 1 prec) (show 1 r1 +:+ show 1 r2)
  | Alt r1 r2 => paren (Nat.ltb 0 prec) (show 0 r1 +:+ "|" +:+ show 0 r2)
  | Plus r1 => show 2 r1 +:+ "+"
  end.

Definition pattern (r : regex) : string := show 0 r.

(** *** Matching

    [ends r s i] lists the positions [j] such that [r] matches the slice
    [s[i..j)].  [^] holds at position 0 only (the patterns are compiled
    without [re.MULTILINE]); [$] holds at the end of the string and just
    before a line feed that is the last character. *)

Definition at_end (s : list char) (i : nat) : bool :=
  (i =? length s)%nat
  || ((S i =? length s)%nat && bool_decide (s !! i = Some 10%N)).

Fixpoint iter_plus (f : nat -> list nat) (fuel : nat) (i : nat) : list nat :=
  let js := f i in
  js ++ match fuel with
        | O => []
        | S fuel' =>
            flat_map (iter_plus f fuel') (filter (fun j => (i < j)%nat) js)
        end.

Fixpoint ends (r : regex) (s : list char) (i : nat) : list nat :=
  match r with
  | Eps => [i]
  | Bol => if (i =? 0)%nat then [i] else []
  | Eol => if at_end s i then [i] else []
  | Lit c =>
      match s !! i with
      | Some d => if (c =? d)%N then [S i] else []
      | None => []
      end
  | NotSpace =>
      match s !! i with
      | Some d => if is_space d then [] else [S i]
      | None => []
      end
  | Seq r1 r2 => flat_map (ends r2 s) (ends r1 s i)
  | Alt r1 r2 => ends r1 s i ++ ends r2 s i
  | Plus r1 => iter_plus (ends r1 s) (length s) i
  end.

(** [re.search]: a match starting at some position of the string. *)
Definition search (r : regex) (s : list char) : bool :=
  existsb (fun i => negb (bool_decide (ends r s i = [])))
          (seq 0 (S (length s))).

End Re.

(** ** [.pre-commit-config.yaml] *)

Module PreCommit.
Import Re.

Record hook := Hook {
  id : string;
  name : option string;
  description : option string;
  entry : option string;
  language : option string;
  files : option regex;
  additional_dependencies : list string;
  require_serial : bool
}.

Record repo := Repo {
  repo_url : string;
  rev : option string;
  hooks : list hook
}.

Record config := Config {
  default_language_version : list (string * string);
  repos : list repo
}.

(** A hook of a remote repository: only its [id] is given. *)
Definition remote (i : string) : hook :=
  Hook i None None None None None [] false.

(* ^\S+\.ipynb$ *)
Definition ipynb_files : regex :=
  seq_of ([Bol; Plus NotSpace] ++ word ".ipynb" ++ [Eol]).

(* ^\S+\.qmod$ *)
Definition qmod_files : regex :=
  seq_of ([Bol; Plus NotSpace] ++ word ".qmod" ++ [Eol]).

(* ^\S+\.(qmod|ipynb|yaml)$ *)
Definition timeouts_files : regex :=
  seq_of ([Bol; Plus NotSpace] ++ word "." ++
          [Alt (seq_of (word "qmod"))
               (Alt (seq_of (word "ipynb")) (seq_of (word "yaml")));
           Eol]).

Definition notebook_pre_commit : hook :=
  Hook "notebook-pre-commit"
       (Some "Notebook pre commit collection")
       (Some "Ensure notebooks conventions")
       (Some ".internal/pre_commit_tools/notebook_pre_commit_collection.py")
       (Some "python")
       (Some ipynb_files)
       ["pyyaml==6.0"]
       true.

Definition qmod_pre_commit : hook :=
  Hook "qmod-pre-commit"
       (Some "Qmod pre commit collection")
       (Some "Ensure qmods conventions")
       (Some ".internal/pre_commit_tools/qmod_pre_commit_collection.py")
       (Some "python")
       (Some qmod_files)
       ["pyyaml==6.0"]
       true.

Definition clean_demo_timeouts : hook :=
  Hook "clean-demo-timeouts"
       (Some "Clean demo timeouts")
       (Some "Remove unexisting entries and verify unique keys")
       (Some ".internal/pre_commit_tools/clean_timeouts.py")
       (Some "python")
       (Some timeouts_files)
       ["pyyaml==6.0"]
       true.

Definition auto_add_tests : hook :=
  Hook "auto-add-tests"
       (Some "Auto add test")
       (Some "Automatically adding a test to new notebooks")
       (Some ".internal/pre_commit_tools/auto_add_tests.py")
       (Some "python")
       (Some ipynb_files)
       []
       true.

Definition pre_commit_config : config :=
  Config
    [("python", "python3.11")]
    [ Repo "https://github.com/pre-commit/pre-commit-hooks" (Some "v4.5.0")
        (map remote ["check-case-conflict"; "check-executables-have-shebangs";
                     "check-merge-conflict"; "check-symlinks"; "check-json";
                     "check-yaml"; "end-of-file-fixer"; "trailing-whitespace"]);
      Repo "https://github.com/pre-commit/mirrors-prettier" (Some "v3.1.0")
        [remote "prettier"];
      Repo "https://github.com/psf/black" (Some "24.3.0")
        [remote "black-jupyter"];
      Repo "https://github.com/nbQA-dev/nbQA" (Some "1.8.4")
        [remote "nbqa-isort"];
      Repo "local" None
        [notebook_pre_commit; qmod_pre_commit; clean_demo_timeouts;
         auto_add_tests] ].

Definition local_hooks (c : config) : list hook :=
  flat_map hooks (filter (fun r => repo_url r = "local") (repos c)).

(** pre-commit keeps a file name for a hook when [files] is found in it
    and [exclude] is not.  No hook here sets [exclude], whose default is
    [^$]; the default of [files] is the empty pattern (a remote hook takes
    both from the manifest of its own repository, which is not modelled). *)
Definition exclude_default : regex := seq_of [Bol; Eol].

Definition triggers (h : hook) (path : list char) : bool :=
  search (default Eps (files h)) path && negb (search exclude_default path).

(** Of the names so kept pre-commit hands to the hook those whose file has
    the [types] of the hook: [Classifier.filenames_for_hook] below. *)

End PreCommit.

(** ** JavaScript: the values and built-ins the two scripts use

    Strings are kept as the bytes of their UTF-8 encoding. *)

Module Js.

Definition LF : string := String (ascii_of_nat 10) EmptyString.

(** A count is an integer or [NaN]: the counts of the scripts are array
    lengths and results of [parseInt].  An integer stands for the double
    of that value, which exists for every integer up to [2 ^ 53] in
    absolute value; a number that is no count is a double, below. *)
Inductive Number : Type :=
  | NaN
  | Num (z : Z).

(** [===] and [>] on numbers: both are false as soon as one side is [NaN]. *)
Definition strict_eq (a b : Number) : bool :=
  match a, b with
  | Num x, Num y => (x =? y)%Z
  | _, _ => false
  end.

Definition gt (a b : Number) : bool :=
  match a, b with
  | Num x, Num y => (y <? x)%Z
  | _, _ => false
  end.

(** [String(n)], also what [JSON.stringify] prints for a number that is an
    integer: its decimal digits, below [10 ^ 21] in absolute value (from
    there on JavaScript prints an exponent, which is not modelled). *)
Definition number_to_string (n : Number) : string :=
  match n with
  | NaN => "NaN"
  | Num z => NilZero.string_of_int (Z.to_int z)
  end.

(** A value that may be [undefined], as a property of [process.env] is;
    [tpl] is its substitution into a template literal. *)
Definition tpl (v : option string) : string := default "undefined" v.

(** Truthiness of a string-or-[null] property. *)
Definition truthy (v : option string) : bool :=
  match v with
  | Some (String _ _) => true
  | _ => false
  end.

(** [parseInt] with no radix given.  It skips white space and line
    terminators first; a string is held in UTF-8, where they are the bytes
    9 to 13 and 32, the two bytes of U+00A0 and the three bytes of U+1680,
    U+2000 to U+200A, U+2028, U+2029, U+202F, U+205F, U+3000 and U+FEFF. *)
Definition is_white (a : ascii) : bool :=
  let n := N_of_ascii a in ((9 <=? n) && (n <=? 13) || (n =? 32))%N.

Definition is_white2 (a b : ascii) : bool :=
  ((N_of_ascii a =? 194) && (N_of_ascii b =? 160))%N.

Definition is_white3 (a b c : ascii) : bool :=
  let x := N_of_ascii a in
  let y := N_of_ascii b in
  let z := N_of_ascii c in
  ((x =? 225) && (y =? 154) && (z =? 128)
   || (x =? 226) && (y =? 128)
      && ((128 <=? z) && (z <=? 138) || (z =? 168) || (z =? 169) || (z =? 175))
   || (x =? 226) && (y =? 129) && (z =? 159)
   || (x =? 227) && (y =? 128) && (z =? 128)
   || (x =? 239) && (y =? 187) && (z =? 191))%N.

Fixpoint trim_start (s : string) : string :=
  match s with
  | String a s1 =>
      if is_white a then trim_start s1
      else
        match s1 with
        | String b s2 =>
            if is_white2 a b then trim_start s2
            else
              match s2 with
              | String c s3 => if is_white3 a b c then trim_start s3 else s
              | EmptyString => s
              end
        | EmptyString => s
        end
  | EmptyString => s
  end.

Definition digit_value (radix : Z) (a : ascii) : option Z :=
  let n := Z.of_N (N_of_ascii a) in
  let d := if ((48 <=? n) && (n <=? 57))%Z then Some (n - 48)
           else if ((97 <=? n) && (n <=? 122))%Z then Some (n - 87)
           else if ((65 <=? n) && (n <=? 90))%Z then Some (n - 55)
           else None in
  match d with
  | Some v => if (v <? radix)%Z then Some v else None
  | None => None
  end.

(** The value of the longest prefix of digits; [None] when it is empty. *)
Fixpoint scan_digits (radix : Z) (s : string) (acc : option Z) : option Z :=
  match s with
  | String a s' =>
      match digit_value radix a with
      | Some d => scan_digits radix s' (Some (default 0 acc * radix + d))
      | None => acc
      end
  | EmptyString => acc
  end.

Definition parseInt (v : option string) : Number :=
  let s := trim_start (tpl v) in
  let '(sign, s) :=
    match s with
    | String "-" r => (-1, r)
    | String "+" r => (1, r)
    | _ => (1, s)
    end in
  let '(radix, s) :=
    match s with
    | String "0" (String "x" r) => (16, r)
    | String "0" (String "X" r) => (16, r)
    | _ => (10, s)
    end in
  match scan_digits radix s None with
  | Some n => Num (sign * n)
  | None => NaN
  end.

(** An exception: only its [message] is read. *)
Record error := Error { message : string }.

(** [a[i]] for an integer index: [undefined] out of range. *)
Definition index {A} (a : list A) (i : Z) : option A :=
  if (i <? 0)%Z then None else a !! Z.to_nat i.

(** A number that is no count is an IEEE 754 double (binary64), in the
    standard library's specification of floating-point arithmetic: a
    product is the exact product rounded to the nearest double, ties to
    the even mantissa. *)
Module Double.

Definition t : Type := spec_float.

Definition prec : Z := 53.
Definition emax : Z := 1024.

(** [x * y] *)
Definition mul : t -> t -> t := SFmul prec emax.

(** The double of a length. *)
Definition of_nat (n : nat) : t :=
  binary_normalize prec emax (Z.of_nat n) 0 false.

(** [Math.floor(x)] as an integer.  Of [NaN] and of an infinity
    [Math.floor] is the number itself, which is no integer. *)
Definition floor (x : t) : option Z :=
  match x with
  | S754_zero _ => Some 0
  | S754_finite s m e => Some (Z.shiftl (cond_Zopp s (Zpos m)) e)
  | S754_infinity _ | S754_nan => None
  end.

(** What [Math.random] may return: a double from 0 up to but not
    including 1. *)
Definition is_random (x : t) : bool :=
  valid_binary prec emax x
  && SFleb (S754_zero false) x && SFltb x (of_nat 1).

End Double.

End Js.

(** ** The scripts of the workflow *)

Module Script.
Import Js.

(** What a script does that is seen outside of it: requests to the REST
    API through [github], and commands to the runner through [core]. *)
Inductive call : Type :=
  | SearchIssuesAndPullRequests (q : string) (per_page : Z)
  | IssuesCreateComment
      (owner repo : option string) (issue_number : Z) (body : string)
  | ExportVariable (name val : string)
  | SetFailed (msg : string).

(** An item of a search result: [pull_request] is there for a pull request
    and not for an issue; [merged_at] is a time stamp or [null]. *)
Record pull_request_links := { merged_at : option string }.
Record item := { pull_request : option pull_request_links }.

(** The outside world of one run: what the API answers, and the number
    [Math.random] returns. *)
Record world := {
  search_response : string -> Z -> error + list item;
  create_comment_response :
    option string -> option string -> Z -> string -> error + unit;
  math_random : Double.t
}.

(** A script computes a value or throws, and logs its calls. *)
Definition script (A : Type) : Type := list call -> (error + A) * list call.

Definition ret {A} (a : A) : script A := fun l => (inr a, l).
Definition throw {A} (e : error) : script A := fun l => (inl e, l).
Definition bind {A B} (m : script A) (k : A -> script B) : script B :=
  fun l => match m l with
           | (inr a, l') => k a l'
           | (inl e, l') => (inl e, l')
           end.
Definition try_catch {A} (m : script A) (h : error -> script A) : script A :=
  fun l => match m l with
           | (inl e, l') => h e l'
           | r => r
           end.
Definition emit (c : call) : script unit := fun l => (inr tt, l ++ [c]).
Definition lift {A} (r : error + A) : script A :=
  match r with
  | inr a => ret a
  | inl e => throw e
  end.

#[export] Instance script_ret : MRet script := @ret.
#[export] Instance script_bind : MBind script := fun A B k m => bind m k.

Definition run {A} (m : script A) : (error + A) * list call := m [].

Section Scripts.
Context (w : world).
(** [process.env] *)
Context (env : gmap string string).

(** [await github.rest.search.issuesAndPullRequests({q, per_page})] *)
Definition search_issuesAndPullRequests (q : string) (per_page : Z)
  : script (list item) :=
  emit (SearchIssuesAndPullRequests q per_page) ;;
  lift (search_response w q per_page).

(** [await github.rest.issues.createComment({owner, repo, issue_number, body})] *)
Definition issues_createComment
    (owner repo : option string) (issue_number : Z) (body : string)
  : script unit :=
  emit (IssuesCreateComment owner repo issue_number body) ;;
  lift (create_comment_response w owner repo issue_number body).

(** [core.exportVariable(name, n)] with a number [n] *)
Definition exportVariable (name : string) (n : Number) : script unit :=
  emit (ExportVariable name (number_to_string n)).

Definition setFailed (msg : string) : script unit := emit (SetFailed msg).

(** [items.filter(pr => pr.pull_request.merged_at)]: reading [merged_at]
    of an item without [pull_request] throws a [TypeError]. *)
Fixpoint filter_merged (items : list item) : script (list item) :=
  match items with
  | [] => ret []
  | pr :: rest =>
      match pull_request pr with
      | None =>
          throw (Error "Cannot read properties of undefined (reading 'merged_at')")
      | Some links =>
          kept ← filter_merged rest;
          ret (if truthy (merged_at links) then pr :: kept else kept)
      end
  end.

(** Step "Count Merged Pull Requests" *)
Definition count_merged_body : script unit :=
  let author := env !! "AUTHOR" in
  let repo := env !! "REPO" in
  let owner := env !! "OWNER" in
  items ← search_issuesAndPullRequests
            ("repo:" +:+ tpl owner +:+ "/" +:+ tpl repo +:+
             " type:pr state:closed author:" +:+ tpl author)
            1000;
  merged ← filter_merged items;
  let prCount := Num (Z.of_nat (length merged)) in
  exportVariable "PR_COUNT" prCount.

Definition count_merged_pull_requests : script unit :=
  try_catch count_merged_body
    (fun error =>
       setFailed ("Error counting merged pull requests: " +:+ message error)).

(** Step "Comment on the Merged Pull Request" *)
Definition emojis : list string :=
  ["🎉"; "🚀"; "💪"; "🌟"; "🏆"; "🎊"; "🔥"; "👏"; "🌈"; "🚂"].

(** [emojis[Math.floor(Math.random() * emojis.length)]]; an index that is
    no integer gives [undefined]. *)
Definition getRandomEmoji (random : Double.t) : option string :=
  Double.floor (Double.mul random (Double.of_nat (length emojis)))
    ≫= index emojis.

(** The template literals [getMessage] returns, one for each [return] of
    its [switch]. *)
Section Messages.
Context (emoji author repo : option string).

(* case 1 *)
Definition message_1 : string :=
  tpl emoji +:+ " **Fantastic work @" +:+ tpl author +:+ "!** Your very first PR to " +:+ tpl repo +:+ " has been merged! 🎉🥳" +:+ LF +:+ LF +:+
  "If you're feeling adventurous, why not dive into another issue and keep contributing? The Classiq community would love to see more from you! 🚀" +:+ LF +:+ LF +:+
  "Happy coding! 👩‍💻👨‍💻".

(* case 2 *)
Definition message_2 : string :=
  tpl emoji +:+ " **Well done @" +:+ tpl author +:+ "!** Two PRs merged already! 🎉🥳" +:+ LF +:+ LF +:+
  "With your second PR, you're on a roll, and your contributions are already making a difference. 🌟" +:+ LF +:+
  "Looking forward to seeing even more contributions from you. Keep up the great work! 🚀".

(* case 3 *)
Definition message_3 : string :=
  tpl emoji +:+ " **You're on fire, @" +:+ tpl author +:+ "!** Three PRs merged and counting! 🔥🎉" +:+ LF +:+ LF +:+
  "Your consistent contributions are truly impressive. You're becoming a valued member of our community! 💖" +:+ LF +:+
  "Have you considered taking on some more challenging issues? We'd love to see what you can do! 💪" +:+ LF +:+ LF.

(* case 5 *)
Definition message_5 : string :=
  tpl emoji +:+ " **High five, @" +:+ tpl author +:+ "!** You've hit the incredible milestone of 5 merged PRs! 🖐️✨" +:+ LF +:+ LF +:+
  "Your dedication to " +:+ tpl repo +:+ " is outstanding. You're not just contributing code; you're shaping the future of quantum computing! 🌠" +:+ LF +:+
  "We'd love to hear your thoughts on the project. Any ideas for new features or improvements? 🤔" +:+ LF +:+ LF +:+
  "You're a superstar! 🌟".

(* case 10 *)
Definition message_10 : string :=
  tpl emoji +:+ " **Double digits, @" +:+ tpl author +:+ "!** 10 merged PRs is a massive achievement! 🏆🎊" +:+ LF +:+ LF +:+
  "Your impact on " +:+ tpl repo +:+ " is undeniable. You've become a pillar of our community! 🏛️" +:+ LF +:+
  "You're a quantum hero! 🦸‍♀️🦸‍♂️".

(* default, count > 10 *)
Definition message_above_10 (count : Number) : string :=
  tpl emoji +:+ " **Incredible, @" +:+ tpl author +:+ "!** You've merged your " +:+ number_to_string count +:+ "th PR! 🎯🎊" +:+ LF +:+ LF +:+
  "Your ongoing commitment to " +:+ tpl repo +:+ " is truly remarkable. You're a driving force in our community! 🚀" +:+ LF +:+
  "Your contributions are helping to shape the future of quantum computing! What exciting features or improvements do you envision next? 🔮" +:+ LF +:+ LF +:+
  "We are grateful for your dedication! 💫".

(* default, otherwise *)
Definition message_default (count : Number) : string :=
  tpl emoji +:+ " **Great job, @" +:+ tpl author +:+ "!** You've merged your " +:+ number_to_string count +:+ "th PR! 🎊" +:+ LF +:+ LF +:+
  "Your contributions to " +:+ tpl repo +:+ " are making a real difference. Keep up the fantastic work! 💪" +:+ LF +:+
  "Remember, every PR counts and helps improve the project. What will you tackle next? 🤔" +:+ LF +:+ LF.

End Messages.

Definition getMessage (author repo : option string) (random : Double.t)
    (count : Number) : string :=
  let emoji := getRandomEmoji random in
  if strict_eq count (Num 1) then message_1 emoji author repo
  else if strict_eq count (Num 2) then message_2 emoji author
  else if strict_eq count (Num 3) then message_3 emoji author
  else if strict_eq count (Num 5) then message_5 emoji author repo
  else if strict_eq count (Num 10) then message_10 emoji author repo
  else if gt count (Num 10) then message_above_10 emoji author repo count
  else message_default emoji author repo count.

(** [prNumber] is [context.payload.pull_request.number]. *)
Definition comment_body (prNumber : Z) : script unit :=
  let prCount := parseInt (env !! "PR_COUNT") in
  let author := env !! "AUTHOR" in
  let mention := "amir-naveh" in
  let repo := env !! "REPO" in
  let message := getMessage author repo (math_random w) prCount in
  issues_createComment (env !! "OWNER") (env !! "REPO") prNumber message.

Definition comment_on_the_merged_pull_request (prNumber : Z) : script unit :=
  try_catch (comment_body prNumber)
    (fun error => setFailed ("Error creating comment: " +:+ message error)).

End Scripts.

End Script.

(** ** GitHub Actions: events, steps, jobs and how a runner executes them *)

Module Actions.
Import Js Script.

(** The part of the webhook payload the workflow reads. *)
Record pull_request_payload := {
  number : Z;
  merged : bool;
  user_login : string
}.

Record repository_payload := {
  repo_name : string;
  owner_login : string
}.

Record event := {
  event_name : string;
  action : string;
  pull_request : pull_request_payload;
  repository : repository_payload
}.

(** *** Shell steps

    The only commands of the workflow are of the form
    [echo "<text>" >> $<file>], where the text interpolates variables. *)
Inductive part : Type :=
  | Text (s : string)
  | Var (x : string).      (* ${x} *)

Record echo_append := Echo { words : list part; file_var : string }.

Definition expand (shell_env : gmap string string) (ps : list part) : string :=
  foldr (fun p acc =>
           match p with
           | Text s => s +:+ acc
           | Var x => default "" (shell_env !! x) +:+ acc
           end) "" ps.

(** The content of the file [$GITHUB_ENV] after the commands. *)
Definition run_commands (shell_env : gmap string string)
    (cs : list echo_append) : string :=
  foldl (fun file c =>
           if String.eqb (file_var c) "GITHUB_ENV"
           then file +:+ expand shell_env (words c) +:+ LF
           else file) "" cs.

(** *** The environment file

    After a step the runner reads [$GITHUB_ENV] line by line: an empty
    line is skipped, a line [NAME=value] sets [NAME], split at the first
    [=].  The delimiter form [NAME<<delimiter] is not modelled: a line
    whose name would hold [<<], like a line without [=] or without a name,
    is an error here, and the step fails. *)
Definition is_newline (a : ascii) : bool :=
  let n := N_of_ascii a in ((n =? 10) || (n =? 13))%N.

Fixpoint one_line (s : string) : bool :=
  match s with
  | String a s' => negb (is_newline a) && one_line s'
  | EmptyString => true
  end.

Fixpoint split_lines (s : string) : list string :=
  match s with
  | String a s' =>
      if is_newline a then EmptyString :: split_lines s'
      else match split_lines s' with
           | l :: ls => String a l :: ls
           | [] => [String a EmptyString]
           end
  | EmptyString => [EmptyString]
  end.

Fixpoint split_eq (line : string) : option (string * string) :=
  match line with
  | String a r =>
      if Ascii.eqb a "=" then Some (EmptyString, r)
      else '(k, v) ← split_eq r; Some (String a k, v)
  | EmptyString => None
  end.

Fixpoint has_heredoc (s : string) : bool :=
  match s with
  | String "<" (String "<" _) => true
  | String _ s' => has_heredoc s'
  | EmptyString => false
  end.

Definition parse_env_line (line : string) : option (string * string) :=
  '(k, v) ← split_eq line;
  if String.eqb k "" || has_heredoc k then None else Some (k, v).

Definition parse_env_file (content : string)
  : option (list (string * string)) :=
  mapM parse_env_line
       (filter (fun l => l <> EmptyString) (split_lines content)).

Definition set_all (kvs : list (string * string))
    (env : gmap string string) : gmap string string :=
  foldl (fun m kv => <[kv.1 := kv.2]> m) env kvs.

(** *** Steps *)

Inductive step_body : Type :=
  | Checkout
      (* uses: actions/checkout *)
  | Run (step_env : event -> list (string * string))
        (commands : list echo_append)
      (* env: ... run: ... *)
  | GithubScript
      (code : world -> gmap string string -> event -> script unit).
      (* uses: actions/github-script, with: script: ... *)

Record step := Step {
  step_name : string;
  step_id : option string;
  uses : option string;
  body : step_body
}.

(** What a run does that is seen outside the runner. *)
Inductive effect : Type :=
  | Fetch (owner repo : string)      (* checkout fetches the repository *)
  | Api (c : call).

Record runner_world := {
  api : world;
  checkout_response : error + unit
}.

Record state := State {
  env : gmap string string;
  log : list effect
}.

Inductive outcome : Type := Success | Failure.

(** [core.exportVariable] sets the variable for the steps that follow;
    [core.setFailed] makes the step fail, and so does an error that
    escapes the script. *)
Definition exports (cs : list call) (env : gmap string string)
  : gmap string string :=
  foldl (fun m c =>
           match c with
           | ExportVariable k v => <[k := v]> m
           | _ => m
           end) env cs.

Definition is_set_failed (c : call) : bool :=
  match c with
  | SetFailed _ => true
  | _ => false
  end.

Definition script_outcome (r : error + unit) (cs : list call) : outcome :=
  match r with
  | inr _ => if existsb is_set_failed cs then Failure else Success
  | inl _ => Failure
  end.

Definition run_step (w : runner_world) (ev : event) (s : step) (st : state)
  : outcome * state :=
  match body s with
  | Checkout =>
      (match checkout_response w with inr _ => Success | inl _ => Failure end,
       State (env st)
             (log st ++ [Fetch (owner_login (repository ev))
                               (repo_name (repository ev))]))
  | Run step_env commands =>
      let shell_env := set_all (step_env ev) (env st) in
      match parse_env_file (run_commands shell_env commands) with
      | Some kvs => (Success, State (set_all kvs (env st)) (log st))
      | None => (Failure, st)
      end
  | GithubScript code =>
      let '(r, cs) := run (code (api w) (env st) ev) in
      (script_outcome r cs,
       State (exports cs (env st)) (log st ++ map Api cs))
  end.

(** No step of the workflow has an [if] or [continue-on-error]: a step
    runs when all steps before it succeeded. *)
Fixpoint run_steps (w : runner_world) (ev : event) (ss : list step)
    (st : state) : outcome * state :=
  match ss with
  | [] => (Success, st)
  | s :: rest =>
      match run_step w ev s st with
      | (Success, st') => run_steps w ev rest st'
      | (Failure, st') => (Failure, st')
      end
  end.

(** *** Jobs and workflows *)

Record job := Job {
  job_if : event -> bool;
  runs_on : string;
  steps : list step
}.

Inductive conclusion : Type := Skipped | Succeeded | Failed.

Definition initial : state := State ∅ [].

Definition run_job (w : runner_world) (ev : event) (j : job)
  : conclusion * state :=
  if job_if j ev then
    match run_steps w ev (steps j) initial with
    | (Success, st) => (Succeeded, st)
    | (Failure, st) => (Failed, st)
    end
  else (Skipped, initial).

Inductive access : Type := AccessNone | AccessRead | AccessWrite.

Record workflow := Workflow {
  on : list (string * list string);       (* event name, activity types *)
  permissions : list (string * access);
  jobs : list (string * job)
}.

Definition triggered (wf : workflow) (ev : event) : bool :=
  existsb (fun '(n, types) =>
             String.eqb n (event_name ev)
             && existsb (String.eqb (action ev)) types)
          (on wf).

(** The jobs of the workflow do not depend on one another. *)
Definition run_workflow (w : runner_world) (ev : event) (wf : workflow)
  : option (list (string * (conclusion * state))) :=
  if triggered wf ev
  then Some (map (fun '(n, j) => (n, run_job w ev j)) (jobs wf))
  else None.

(** Of the effects, creating a comment changes the repository on GitHub;
    the fetch and the search read it, and [exportVariable] and
    [setFailed] address the runner. *)
Definition mutates (e : effect) : bool :=
  match e with
  | Api (IssuesCreateComment _ _ _ _) => true
  | _ => false
  end.

(** ** [Notification-developers-onboarding.yml] *)

Definition checkout_repository : step :=
  Step "Checkout Repository" None (Some "actions/checkout@v4") Checkout.

Definition set_environment_variables : step :=
  Step "Set Environment Variables" None None
    (Run (fun ev =>
            [("AUTHOR", user_login (pull_request ev));
             ("REPO", repo_name (repository ev));
             ("OWNER", owner_login (repository ev))])
         [Echo [Text "AUTHOR="; Var "AUTHOR"] "GITHUB_ENV";
          Echo [Text "REPO="; Var "REPO"] "GITHUB_ENV";
          Echo [Text "OWNER="; Var "OWNER"] "GITHUB_ENV"]).

Definition count_step : step :=
  Step "Count Merged Pull Requests" (Some "count_merged_pull_requests")
    (Some "actions/github-script@v6")
    (GithubScript (fun w env _ => count_merged_pull_requests w env)).

Definition comment_step : step :=
  Step "Comment on the Merged Pull Request" None
    (Some "actions/github-script@v6")
    (GithubScript
       (fun w env ev =>
          comment_on_the_merged_pull_request w env (number (pull_request ev)))).

Definition comment_on_merged_pull_request : job :=
  Job (fun ev => Bool.eqb (merged (pull_request ev)) true)
      "ubuntu-latest"
      [checkout_repository;
       set_environment_variables;
       count_step;
       comment_step].

Definition notification_developers_onboarding : workflow :=
  Workflow [("pull_request_target", ["closed"])]
           [("pull-requests", AccessWrite)]
           [("comment_on_merged_pull_request", comment_on_merged_pull_request)].

End Actions.

(** ** Qmod files *)

Module Qmod.

(** *** Syntax: the constructs the files of the repository use *)

#[local] Unset Elimination Schemes.

Inductive type : Type :=
  | TName (name : string) (args : list string) (dims : list (option string))
      (* qbit, qbit[8], real[][], qnum<3, False, 0>[2] *)
  | TFunc (array : bool) (params : list type).
      (* qfunc (int, qbit[]), qfunc[] () *)

Record param := Param {
  is_output : bool;
  param_name : string;
  param_type : type
}.

Inductive expr : Type :=
  | EVar (x : string)
  | ENum (literal : string)
  | EParen (e : expr)
  | ENeg (e : expr)
  | EBin (op : string) (l r : expr)
  | EField (e : expr) (field : string)                  (* e.field *)
  | EIndex (e i : expr)                                 (* e[i] *)
  | ECall (f : string) (args : list expr)               (* f(args) *)
  | EList (items : list expr)                           (* [a, b] *)
  | EStruct (name : string) (fields : list (string * expr))
      (* PauliTerm { pauli=..., coefficient=... } *)
  | EEnum (enum member : string)                        (* Pauli::Z *)
  | ELambda (params : list string) (body : list stmt)   (* lambda(p) { ... } *)
with stmt : Type :=
  | SDecl (x : string) (t : type)                       (* x: t; *)
  | SCall (callee : expr) (args : list expr)            (* f(args); *)
  | SBind (source : expr) (targets : list expr)         (* a -> {b, c}; *)
  | SInplace (target : expr) (op : string) (e : expr)   (* a *= e; *)
  | SAssign (target : expr) (e : expr)                  (* a = e; *)
  | SRepeat (i : string) (count : expr) (body : list stmt)
  | SPower (e : expr) (body : list stmt)
  | SControl (e : expr) (body : list stmt)
  | SWithin (compute action : list stmt)
  | SIf (cond : expr) (then_ else_ : list stmt).

#[local] Set Elimination Schemes.

Inductive decl : Type :=
  | QStruct (name : string) (fields : list (string * type))
  | QFunc (name : string) (params : list param) (body : list stmt)
  | CScope (code : string).
      (* classical execution code, kept as text *)

Definition file := list decl.

(** *** Tokens

    A file is compared with its syntax tree token by token.  White space
    separates tokens; a word is a run of letters, digits and underscores;
    [->], [**], [::], [*=] and [==] are one token each, any other
    character is a token of its own; a block between two fences of three
    backquotes is one token. *)

Definition is_word_char (a : ascii) : bool :=
  let n := N_of_ascii a in
  ((48 <=? n) && (n <=? 57) || (65 <=? n) && (n <=? 90)
   || (97 <=? n) && (n <=? 122) || (n =? 95))%N.

Definition is_blank (a : ascii) : bool :=
  let n := N_of_ascii a in ((n =? 32) || (n =? 10) || (n =? 13) || (n =? 9))%N.

Definition is_pair (a b : ascii) : bool :=
  existsb (String.eqb (String a (String b EmptyString)))
          ["->"; "**"; "::"; "*="; "=="].

Definition flush (word : string) (acc : list string) : list string :=
  if String.eqb word "" then acc else String.rev word :: acc.

(** [word] is the word being read and [acc] the tokens read, both in
    reverse; [fence] counts the backquotes of a block being read. *)
Fixpoint lex (s : string) (fence : nat) (word : string) (acc : list string)
  : list string :=
  match s with
  | EmptyString => rev (flush word acc)
  | String a s' =>
      if (0 <? fence)%nat then
        let fence' := if Ascii.eqb a "`" then S fence else fence in
        if (fence' =? 6)%nat
        then lex s' 0 EmptyString (String.rev (String a word) :: acc)
        else lex s' fence' (String a word) acc
      else if Ascii.eqb a "`" then
        lex s' 1 (String a EmptyString) (flush word acc)
      else if is_word_char a then lex s' 0 (String a word) acc
      else if is_blank a then lex s' 0 EmptyString (flush word acc)
      else
        match s' with
        | String b s'' =>
            if is_pair a b
            then lex s'' 0 EmptyString
                     (String a (String b EmptyString) :: flush word acc)
            else lex s' 0 EmptyString
                     (String a EmptyString :: flush word acc)
        | EmptyString => rev (String a EmptyString :: flush word acc)
        end
  end.

Definition tokenize (s : string) : list string := lex s 0 EmptyString [].

(** The tokens of a syntax tree. *)
Fixpoint sep_by {A} (f : A -> list string) (xs : list A) : list string :=
  match xs with
  | [] => []
  | [x] => f x
  | x :: xs' => f x ++ "," :: sep_by f xs'
  end.

Definition dim_tokens (d : option string) : list string :=
  "[" :: from_option tokenize [] d ++ ["]"].

Fixpoint type_tokens (t : type) : list string :=
  match t with
  | TName n args dims =>
      n :: (match args with
            | [] => []
            | _ => "<" :: sep_by tokenize args ++ [">"]
            end)
        ++ flat_map dim_tokens dims
  | TFunc array params =>
      "qfunc" :: (if array then ["["; "]"] else [])
        ++ "(" :: sep_by type_tokens params ++ [")"]
  end.

Definition param_tokens (p : param) : list string :=
  (if is_output p then ["output"] else [])
    ++ param_name p :: ":" :: type_tokens (param_type p).

Fixpoint expr_tokens (e : expr) : list string :=
  match e with
  | EVar x => [x]
  | ENum lit => tokenize lit
  | EParen e1 => "(" :: expr_tokens e1 ++ [")"]
  | ENeg e1 => "-" :: expr_tokens e1
  | EBin op l r => expr_tokens l ++ op :: expr_tokens r
  | EField e1 f => expr_tokens e1 ++ ["."; f]
  | EIndex e1 i => expr_tokens e1 ++ "[" :: expr_tokens i ++ ["]"]
  | ECall f args => f :: "(" :: sep_by expr_tokens args ++ [")"]
  | EList items => "[" :: sep_by expr_tokens items ++ ["]"]
  | EStruct n fields =>
      n :: "{" :: sep_by (fun fe => fe.1 :: "=" :: expr_tokens fe.2) fields
        ++ ["}"]
  | EEnum t m => [t; "::"; m]
  | ELambda ps body =>
      "lambda" :: "(" :: sep_by (fun p => [p]) ps
        ++ ")" :: "{" :: flat_map stmt_tokens body ++ ["}"]
  end
with stmt_tokens (s : stmt) : list string :=
  match s with
  | SDecl x t => x :: ":" :: type_tokens t ++ [";"]
  | SCall c args =>
      expr_tokens c ++ "(" :: sep_by expr_tokens args ++ [")"; ";"]
  | SBind src targets =>
      expr_tokens src ++ "->" :: "{" :: sep_by expr_tokens targets
        ++ ["}"; ";"]
  | SInplace t op e => expr_tokens t ++ op :: expr_tokens e ++ [";"]
  | SAssign t e => expr_tokens t ++ "=" :: expr_tokens e ++ [";"]
  | SRepeat i n body =>
      "repeat" :: "(" :: i :: ":" :: expr_tokens n
        ++ ")" :: "{" :: flat_map stmt_tokens body ++ ["}"]
  | SPower e body =>
      "power" :: "(" :: expr_tokens e
        ++ ")" :: "{" :: flat_map stmt_tokens body ++ ["}"]
  | SControl e body =>
      "control" :: "(" :: expr_tokens e
        ++ ")" :: "{" :: flat_map stmt_tokens body ++ ["}"]
  | SWithin a b =>
      "within" :: "{" :: flat_map stmt_tokens a
        ++ "}" :: "apply" :: "{" :: flat_map stmt_tokens b ++ ["}"]
  | SIf c t e =>
      "if" :: "(" :: expr_tokens c ++ ")" :: "{" :: flat_map stmt_tokens t
        ++ "}" :: "else" :: "{" :: flat_map stmt_tokens e ++ ["}"]
  end.

Definition decl_tokens (d : decl) : list string :=
  match d with
  | QStruct n fields =>
      "qstruct" :: n :: "{"
        :: flat_map (fun ft => ft.1 :: ":" :: type_tokens ft.2 ++ [";"]) fields
        ++ ["}"]
  | QFunc n ps body =>
      "qfunc" :: n :: "(" :: sep_by param_tokens ps
        ++ ")" :: "{" :: flat_map stmt_tokens body ++ ["}"]
  | CScope code => ["cscope"; "```" +:+ code +:+ "```"]
  end.

Definition file_tokens (f : file) : list string := flat_map decl_tokens f.

(** *** The files *)

(** [applications/optimization/set_cover/set_cover.qmod] *)
Definition set_cover_text : string :=
"qstruct QAOAVars {
  x: qbit[8];
  independent_rule_1_slack_var: qbit[1];
  independent_rule_2_slack_var: qbit[2];
  independent_rule_3_slack_var: qbit[2];
  independent_rule_4_slack_var: qbit[2];
  independent_rule_5_slack_var: qbit[1];
  independent_rule_6_slack_var: qbit[1];
  independent_rule_7_slack_var: qbit[2];
  independent_rule_8_slack_var: qbit[2];
  independent_rule_9_slack_var: qbit[1];
  independent_rule_10_slack_var: qbit[1];
}

qfunc main(params: real[6], output v: QAOAVars) {
  allocate(v.size, v);
  hadamard_transform(v);
  repeat (i: 3) {
    phase (-(((((((((((((((((v.x[0] + v.x[1]) + v.x[2]) + v.x[3]) + v.x[4]) + v.x[5]) + v.x[6]) + v.x[7]) + (20 * ((((v.independent_rule_10_slack_var[0] - v.x[3]) - v.x[6]) + 1.0) ** 2))) + (20 * ((((v.independent_rule_1_slack_var[0] - v.x[0]) - v.x[4]) + 1.0) ** 2))) + (20 * ((((v.independent_rule_5_slack_var[0] - v.x[1]) - v.x[7]) + 1.0) ** 2))) + (20 * ((((v.independent_rule_6_slack_var[0] - v.x[2]) - v.x[4]) + 1.0) ** 2))) + (20 * ((((v.independent_rule_9_slack_var[0] - v.x[3]) - v.x[5]) + 1.0) ** 2))) + (20 * ((((((v.independent_rule_2_slack_var[0] + v.independent_rule_2_slack_var[1]) - v.x[0]) - v.x[1]) - v.x[7]) + 1.0) ** 2))) + (20 * ((((((v.independent_rule_3_slack_var[0] + v.independent_rule_3_slack_var[1]) - v.x[0]) - v.x[1]) - v.x[5]) + 1.0) ** 2))) + (20 * ((((((v.independent_rule_4_slack_var[0] + v.independent_rule_4_slack_var[1]) - v.x[0]) - v.x[1]) - v.x[6]) + 1.0) ** 2))) + (20 * ((((((v.independent_rule_7_slack_var[0] + v.independent_rule_7_slack_var[1]) - v.x[2]) - v.x[5]) - v.x[6]) + 1.0) ** 2))) + (20 * ((((((v.independent_rule_8_slack_var[0] + v.independent_rule_8_slack_var[1]) - v.x[3]) - v.x[4]) - v.x[7]) + 1.0) ** 2))), params[i]);
    apply_to_all(lambda(q) {
      RX(params[3 + i], q);
    }, v);
  }
}".

Definition set_cover : file :=
  [QStruct "QAOAVars"
    [("x", TName "qbit" [] [Some "8"]);
     ("independent_rule_1_slack_var", TName "qbit" [] [Some "1"]);
     ("independent_rule_2_slack_var", TName "qbit" [] [Some "2"]);
     ("independent_rule_3_slack_var", TName "qbit" [] [Some "2"]);
     ("independent_rule_4_slack_var", TName "qbit" [] [Some "2"]);
     ("independent_rule_5_slack_var", TName "qbit" [] [Some "1"]);
     ("independent_rule_6_slack_var", TName "qbit" [] [Some "1"]);
     ("independent_rule_7_slack_var", TName "qbit" [] [Some "2"]);
     ("independent_rule_8_slack_var", TName "qbit" [] [Some "2"]);
     ("independent_rule_9_slack_var", TName "qbit" [] [Some "1"]);
     ("independent_rule_10_slack_var", TName "qbit" [] [Some "1"])];
   QFunc "main"
    [Param false "params" (TName "real" [] [Some "6"]);
     Param true "v" (TName "QAOAVars" [] [])]
    [SCall (EVar "allocate")
       [EField (EVar "v") "size"; EVar "v"];
     SCall (EVar "hadamard_transform")
       [EVar "v"];
     SRepeat "i" (ENum "3")
       [SCall (EVar "phase")
          [ENeg (EParen (EBin "+" (EParen (EBin "+" (EParen (EBin "+" (EParen
            (EBin "+" (EParen (EBin "+" (EParen (EBin "+" (EParen (EBin "+"
            (EParen (EBin "+" (EParen (EBin "+" (EParen (EBin "+" (EParen
            (EBin "+" (EParen (EBin "+" (EParen (EBin "+" (EParen (EBin "+"
            (EParen (EBin "+" (EParen (EBin "+" (EParen (EBin "+" (EIndex
            (EField (EVar "v") "x") (ENum "0")) (EIndex (EField (EVar "v")
            "x") (ENum "1")))) (EIndex (EField (EVar "v") "x") (ENum "2"))))
            (EIndex (EField (EVar "v") "x") (ENum "3")))) (EIndex (EField
            (EVar "v") "x") (ENum "4")))) (EIndex (EField (EVar "v") "x")
            (ENum "5")))) (EIndex (EField (EVar "v") "x") (ENum "6"))))
            (EIndex (EField (EVar "v") "x") (ENum "7")))) (EParen (EBin "*"
            (ENum "20") (EParen (EBin "**" (EParen (EBin "+" (EParen (EBin "-"
            (EParen (EBin "-" (EIndex (EField (EVar "v")
            "independent_rule_10_slack_var") (ENum "0")) (EIndex (EField (EVar
            "v") "x") (ENum "3")))) (EIndex (EField (EVar "v") "x") (ENum
            "6")))) (ENum "1.0"))) (ENum "2"))))))) (EParen (EBin "*" (ENum
            "20") (EParen (EBin "**" (EParen (EBin "+" (EParen (EBin "-"
            (EParen (EBin "-" (EIndex (EField (EVar "v")
            "independent_rule_1_slack_var") (ENum "0")) (EIndex (EField (EVar
            "v") "x") (ENum "0")))) (EIndex (EField (EVar "v") "x") (ENum
            "4")))) (ENum "1.0"))) (ENum "2"))))))) (EParen (EBin "*" (ENum
            "20") (EParen (EBin "**" (EParen (EBin "+" (EParen (EBin "-"
            (EParen (EBin "-" (EIndex (EField (EVar "v")
            "independent_rule_5_slack_var") (ENum "0")) (EIndex (EField (EVar
            "v") "x") (ENum "1")))) (EIndex (EField (EVar "v") "x") (ENum
            "7")))) (ENum "1.0"))) (ENum "2"))))))) (EParen (EBin "*" (ENum
            "20") (EParen (EBin "**" (EParen (EBin "+" (EParen (EBin "-"
            (EParen (EBin "-" (EIndex (EField (EVar "v")
            "independent_rule_6_slack_var") (ENum "0")) (EIndex (EField (EVar
            "v") "x") (ENum "2")))) (EIndex (EField (EVar "v") "x") (ENum
            "4")))) (ENum "1.0"))) (ENum "2"))))))) (EParen (EBin "*" (ENum
            "20") (EParen (EBin "**" (EParen (EBin "+" (EParen (EBin "-"
            (EParen (EBin "-" (EIndex (EField (EVar "v")
            "independent_rule_9_slack_var") (ENum "0")) (EIndex (EField (EVar
            "v") "x") (ENum "3")))) (EIndex (EField (EVar "v") "x") (ENum
            "5")))) (ENum "1.0"))) (ENum "2"))))))) (EParen (EBin "*" (ENum
            "20") (EParen (EBin "**" (EParen (EBin "+" (EParen (EBin "-"
            (EParen (EBin "-" (EParen (EBin "-" (EParen (EBin "+" (EIndex
            (EField (EVar "v") "independent_rule_2_slack_var") (ENum "0"))
            (EIndex (EField (EVar "v") "independent_rule_2_slack_var") (ENum
            "1")))) (EIndex (EField (EVar "v") "x") (ENum "0")))) (EIndex
            (EField (EVar "v") "x") (ENum "1")))) (EIndex (EField (EVar "v")
            "x") (ENum "7")))) (ENum "1.0"))) (ENum "2"))))))) (EParen (EBin
            "*" (ENum "20") (EParen (EBin "**" (EParen (EBin "+" (EParen (EBin
            "-" (EParen (EBin "-" (EParen (EBin "-" (EParen (EBin "+" (EIndex
            (EField (EVar "v") "independent_rule_3_slack_var") (ENum "0"))
            (EIndex (EField (EVar "v") "independent_rule_3_slack_var") (ENum
            "1")))) (EIndex (EField (EVar "v") "x") (ENum "0")))) (EIndex
            (EField (EVar "v") "x") (ENum "1")))) (EIndex (EField (EVar "v")
            "x") (ENum "5")))) (ENum "1.0"))) (ENum "2"))))))) (EParen (EBin
            "*" (ENum "20") (EParen (EBin "**" (EParen (EBin "+" (EParen (EBin
            "-" (EParen (EBin "-" (EParen (EBin "-" (EParen (EBin "+" (EIndex
            (EField (EVar "v") "independent_rule_4_slack_var") (ENum "0"))
            (EIndex (EField (EVar "v") "independent_rule_4_slack_var") (ENum
            "1")))) (EIndex (EField (EVar "v") "x") (ENum "0")))) (EIndex
            (EField (EVar "v") "x") (ENum "1")))) (EIndex (EField (EVar "v")
            "x") (ENum "6")))) (ENum "1.0"))) (ENum "2"))))))) (EParen (EBin
            "*" (ENum "20") (EParen (EBin "**" (EParen (EBin "+" (EParen (EBin
            "-" (EParen (EBin "-" (EParen (EBin "-" (EParen (EBin "+" (EIndex
            (EField (EVar "v") "independent_rule_7_slack_var") (ENum "0"))
            (EIndex (EField (EVar "v") "independent_rule_7_slack_var") (ENum
            "1")))) (EIndex (EField (EVar "v") "x") (ENum "2")))) (EIndex
            (EField (EVar "v") "x") (ENum "5")))) (EIndex (EField (EVar "v")
            "x") (ENum "6")))) (ENum "1.0"))) (ENum "2"))))))) (EParen (EBin
            "*" (ENum "20") (EParen (EBin "**" (EParen (EBin "+" (EParen (EBin
            "-" (EParen (EBin "-" (EParen (EBin "-" (EParen (EBin "+" (EIndex
            (EField (EVar "v") "independent_rule_8_slack_var") (ENum "0"))
            (EIndex (EField (EVar "v") "independent_rule_8_slack_var") (ENum
            "1")))) (EIndex (EField (EVar "v") "x") (ENum "3")))) (EIndex
            (EField (EVar "v") "x") (ENum "4")))) (EIndex (EField (EVar "v")
            "x") (ENum "7")))) (ENum "1.0"))) (ENum "2")))))));
           EIndex (EVar "params") (EVar "i")];
        SCall (EVar "apply_to_all")
          [ELambda ["q"]
             [SCall (EVar "RX")
                [EIndex (EVar "params") (EBin "+" (ENum "3") (EVar "i"));
                 EVar "q"]];
           EVar "v"]]]].

(** [algorithms/qpe/qpe_for_matrix/qpe_for_matrix.qmod] *)
Definition qpe_for_matrix_text : string :=
"qfunc unitary_with_power_logic(pw: int, matrix: real[][], target: qbit[]) {
  power (pw) {
    unitary(matrix, target);
  }
}

qfunc suzuki_trotter1_with_power_logic(hamiltonian: PauliTerm[], pw: int, r0: int, reps_scaling_factor: real, evolution_coefficient: real, target: qbit[]) {
  suzuki_trotter(hamiltonian, evolution_coefficient * pw, 1, r0 * ceiling(reps_scaling_factor ** log(pw, 2)), target);
}

qfunc main(output phase_result: qnum<8, False, 8>) {
  state: qbit[];
  prepare_amplitudes([
    0.667440796614848,
    0.024885482173617,
    0.368323359032267,
    0.646715856448805
  ], 0.0, state);
  allocate(8, False, 8, phase_result);
  qpe_flexible(lambda(pw) {
    if (True) {
      unitary_with_power_logic(pw, [
        [
          ((-0.800994193328528) - 0.432184369481798j),
          (0.18481604491471 - 0.230641913600945j),
          (0.182066604712991 - 0.208198484698175j),
          (0.010207121446984 - 0.087597188034849j)
        ],
        [
          (0.18481604491471 - 0.230641913600945j),
          ((-0.74259258995001) - 0.478111274957735j),
          (0.212289111070001 - 0.243461671831465j),
          ((-0.07305797727484) + 0.151444613535273j)
        ],
        [
          (0.18206660471299 - 0.208198484698175j),
          (0.212289111070001 - 0.243461671831465j),
          ((-0.763886162414103) - 0.484576516522355j),
          ((-0.026023894036146) + 0.012295427374176j)
        ],
        [
          (0.010207121446984 - 0.087597188034849j),
          ((-0.073057977274841) + 0.151444613535273j),
          ((-0.026023894036146) + 0.012295427374176j),
          ((-0.895413431349899) - 0.401691392328609j)
        ]
      ], state);
    } else {
      suzuki_trotter1_with_power_logic([
        PauliTerm {
          pauli=[Pauli::I, Pauli::I],
          coefficient=0.4
        },
        PauliTerm {
          pauli=[Pauli::I, Pauli::Z],
          coefficient=0.01504032
        },
        PauliTerm {
          pauli=[Pauli::Z, Pauli::I],
          coefficient=0.016634415
        },
        PauliTerm {
          pauli=[Pauli::Z, Pauli::Z],
          coefficient=-0.042759185
        },
        PauliTerm {
          pauli=[Pauli::I, Pauli::X],
          coefficient=0.10676978
        },
        PauliTerm {
          pauli=[Pauli::Z, Pauli::X],
          coefficient=0.12638833
        },
        PauliTerm {
          pauli=[Pauli::X, Pauli::I],
          coefficient=0.042057265
        },
        PauliTerm {
          pauli=[Pauli::X, Pauli::Z],
          coefficient=0.172936455
        },
        PauliTerm {
          pauli=[Pauli::X, Pauli::X],
          coefficient=0.15658719
        },
        PauliTerm {
          pauli=[Pauli::Y, Pauli::Y],
          coefficient=0.09539162
        }
      ], pw, 2, 1.8, -6.283185307179586, state);
    }
  }, phase_result);
}
".

Definition qpe_for_matrix : file :=
  [QFunc "unitary_with_power_logic"
    [Param false "pw" (TName "int" [] []);
     Param false "matrix" (TName "real" [] [None; None]);
     Param false "target" (TName "qbit" [] [None])]
    [SPower (EVar "pw")
       [SCall (EVar "unitary")
          [EVar "matrix"; EVar "target"]]];
   QFunc "suzuki_trotter1_with_power_logic"
    [Param false "hamiltonian" (TName "PauliTerm" [] [None]);
     Param false "pw" (TName "int" [] []);
     Param false "r0" (TName "int" [] []);
     Param false "reps_scaling_factor" (TName "real" [] []);
     Param false "evolution_coefficient" (TName "real" [] []);
     Param false "target" (TName "qbit" [] [None])]
    [SCall (EVar "suzuki_trotter")
       [EVar "hamiltonian";
        EBin "*" (EVar "evolution_coefficient") (EVar "pw");
        ENum "1";
        EBin "*" (EVar "r0") (ECall "ceiling" [EBin "**" (EVar
          "reps_scaling_factor") (ECall "log" [EVar "pw"; ENum "2"])]);
        EVar "target"]];
   QFunc "main"
    [Param true "phase_result" (TName "qnum" ["8"; "False"; "8"] [])]
    [SDecl "state" (TName "qbit" [] [None]);
     SCall (EVar "prepare_amplitudes")
       [EList [ENum "0.667440796614848";
               ENum "0.024885482173617";
               ENum "0.368323359032267";
               ENum "0.646715856448805"];
        ENum "0.0";
        EVar "state"];
     SCall (EVar "allocate")
       [ENum "8"; EVar "False"; ENum "8"; EVar "phase_result"];
     SCall (EVar "qpe_flexible")
       [ELambda ["pw"]
          [SIf (EVar "True")
             [SCall (EVar "unitary_with_power_logic")
                [EVar "pw";
                 EList [EList [EParen (EBin "-" (EParen (ENeg (ENum
                   "0.800994193328528"))) (ENum "0.432184369481798j"));
                         EParen (EBin "-" (ENum "0.18481604491471") (ENum
                           "0.230641913600945j"));
                         EParen (EBin "-" (ENum "0.182066604712991") (ENum
                           "0.208198484698175j"));
                         EParen (EBin "-" (ENum "0.010207121446984") (ENum
                           "0.087597188034849j"))];
                        EList [EParen (EBin "-" (ENum "0.18481604491471")
                          (ENum "0.230641913600945j"));
                         EParen (EBin "-" (EParen (ENeg (ENum
                           "0.74259258995001"))) (ENum "0.478111274957735j"));
                         EParen (EBin "-" (ENum "0.212289111070001") (ENum
                           "0.243461671831465j"));
                         EParen (EBin "+" (EParen (ENeg (ENum
                           "0.07305797727484"))) (ENum
                           "0.151444613535273j"))];
                        EList [EParen (EBin "-" (ENum "0.18206660471299")
                          (ENum "0.208198484698175j"));
                         EParen (EBin "-" (ENum "0.212289111070001") (ENum
                           "0.243461671831465j"));
                         EParen (EBin "-" (EParen (ENeg (ENum
                           "0.763886162414103"))) (ENum
                           "0.484576516522355j"));
                         EParen (EBin "+" (EParen (ENeg (ENum
                           "0.026023894036146"))) (ENum
                           "0.012295427374176j"))];
                        EList [EParen (EBin "-" (ENum "0.010207121446984")
                          (ENum "0.087597188034849j"));
                         EParen (EBin "+" (EParen (ENeg (ENum
                           "0.073057977274841"))) (ENum
                           "0.151444613535273j"));
                         EParen (EBin "+" (EParen (ENeg (ENum
                           "0.026023894036146"))) (ENum
                           "0.012295427374176j"));
                         EParen (EBin "-" (EParen (ENeg (ENum
                           "0.895413431349899"))) (ENum
                           "0.401691392328609j"))]];
                 EVar "state"]]
             [SCall (EVar "suzuki_trotter1_with_power_logic")
                [EList [EStruct "PauliTerm"
                    [("pauli", EList [EEnum "Pauli" "I"; EEnum "Pauli" "I"]);
                     ("coefficient", ENum "0.4")];
                        EStruct "PauliTerm"
                    [("pauli", EList [EEnum "Pauli" "I"; EEnum "Pauli" "Z"]);
                     ("coefficient", ENum "0.01504032")];
                        EStruct "PauliTerm"
                    [("pauli", EList [EEnum "Pauli" "Z"; EEnum "Pauli" "I"]);
                     ("coefficient", ENum "0.016634415")];
                        EStruct "PauliTerm"
                    [("pauli", EList [EEnum "Pauli" "Z"; EEnum "Pauli" "Z"]);
                     ("coefficient", ENeg (ENum "0.042759185"))];
                        EStruct "PauliTerm"
                    [("pauli", EList [EEnum "Pauli" "I"; EEnum "Pauli" "X"]);
                     ("coefficient", ENum "0.10676978")];
                        EStruct "PauliTerm"
                    [("pauli", EList [EEnum "Pauli" "Z"; EEnum "Pauli" "X"]);
                     ("coefficient", ENum "0.12638833")];
                        EStruct "PauliTerm"
                    [("pauli", EList [EEnum "Pauli" "X"; EEnum "Pauli" "I"]);
                     ("coefficient", ENum "0.042057265")];
                        EStruct "PauliTerm"
                    [("pauli", EList [EEnum "Pauli" "X"; EEnum "Pauli" "Z"]);
                     ("coefficient", ENum "0.172936455")];
                        EStruct "PauliTerm"
                    [("pauli", EList [EEnum "Pauli" "X"; EEnum "Pauli" "X"]);
                     ("coefficient", ENum "0.15658719")];
                        EStruct "PauliTerm"
                    [("pauli", EList [EEnum "Pauli" "Y"; EEnum "Pauli" "Y"]);
                     ("coefficient", ENum "0.09539162")]];
                 EVar "pw";
                 ENum "2";
                 ENum "1.8";
                 ENeg (ENum "6.283185307179586");
                 EVar "state"]]];
        EVar "phase_result"]]].

(** [unnamed/part_001] *)
Definition unnamed_part_001_text : string :=
"qfunc qsct_2d(xy_variable: qnum[2]) {
  qst_type2(xy_variable[0]);
  qct_type2(xy_variable[1]);
}

qfunc inverse_amplitude_load(prefactor: real, phase: qnum, ind: qbit) {
  ind *= prefactor / phase;
}

qfunc matrix_inversion_HHL(prefactor: real, my_unitary: qfunc (int, qbit[]), state: qbit[], phase: qnum, output indicator: qbit) {
  allocate(1, indicator);
  within {
    qpe_flexible(lambda(power) {
      my_unitary(power, state);
    }, phase);
  } apply {
    inverse_amplitude_load(prefactor, phase, indicator);
  }
}

qfunc powered_hamiltonian_evolution(hamiltonian: PauliTerm[], scaling: real, p: int, qba: qbit[]) {
  suzuki_trotter(hamiltonian, p * ((-6.28318530718) * scaling), 1, 1, qba);
}

qfunc main(output x_variable: qnum<3, False, 0>, output y_variable: qnum<3, False, 0>, output phase: qnum, output indicator: qbit) {
  xy_variable: qnum<3, False, 0>[2];
  prepare_amplitudes([
    0.000929993206,
    0.006286469531,
    0.012502019419,
    0.01640293531,
    0.01640293531,
    0.012502019419,
    0.006286469531,
    0.000929993206,
    0.006286469531,
    0.042483535101,
    0.084462252894,
    0.110795378713,
    0.110795378713,
    0.084462252894,
    0.042483535101,
    0.006286469531,
    0.012502019419,
    0.084462252894,
    0.167861987331,
    0.220148535874,
    0.220148535874,
    0.167861987331,
    0.084462252894,
    0.012502019419,
    0.01640293531,
    0.110795378713,
    0.220148535874,
    0.288681749865,
    0.288681749865,
    0.220148535874,
    0.110795378713,
    0.01640293531,
    0.01640293531,
    0.110795378713,
    0.220148535874,
    0.288681749865,
    0.288681749865,
    0.220148535874,
    0.110795378713,
    0.01640293531,
    0.012502019419,
    0.084462252894,
    0.167861987331,
    0.220148535874,
    0.220148535874,
    0.167861987331,
    0.084462252894,
    0.012502019419,
    0.006286469531,
    0.042483535101,
    0.084462252894,
    0.110795378713,
    0.110795378713,
    0.084462252894,
    0.042483535101,
    0.006286469531,
    0.000929993206,
    0.006286469531,
    0.012502019419,
    0.01640293531,
    0.01640293531,
    0.012502019419,
    0.006286469531,
    0.000929993206
  ], 0.0, xy_variable);
  allocate(6, phase);
  within {
    qsct_2d(xy_variable);
  } apply {
    matrix_inversion_HHL(0.015625, lambda(p, target) {
      powered_hamiltonian_evolution([
        PauliTerm {
          pauli=[
            Pauli::I,
            Pauli::I,
            Pauli::I,
            Pauli::I,
            Pauli::I,
            Pauli::I
          ],
          coefficient=2.25
        },
        PauliTerm {
          pauli=[
            Pauli::I,
            Pauli::I,
            Pauli::I,
            Pauli::I,
            Pauli::I,
            Pauli::Z
          ],
          coefficient=-0.25
        },
        PauliTerm {
          pauli=[
            Pauli::I,
            Pauli::I,
            Pauli::I,
            Pauli::I,
            Pauli::Z,
            Pauli::I
          ],
          coefficient=-0.520598050073
        },
        PauliTerm {
          pauli=[
            Pauli::I,
            Pauli::I,
            Pauli::I,
            Pauli::I,
            Pauli::Z,
            Pauli::Z
          ],
          coefficient=-0.020598050073
        },
        PauliTerm {
          pauli=[
            Pauli::I,
            Pauli::I,
            Pauli::I,
            Pauli::Z,
            Pauli::I,
            Pauli::I
          ],
          coefficient=-1.256834873031
        },
        PauliTerm {
          pauli=[
            Pauli::I,
            Pauli::I,
            Pauli::I,
            Pauli::Z,
            Pauli::I,
            Pauli::Z
          ],
          coefficient=-0.049728091845
        },
        PauliTerm {
          pauli=[
            Pauli::I,
            Pauli::I,
            Pauli::I,
            Pauli::Z,
            Pauli::Z,
            Pauli::I
          ],
          coefficient=-0.103553390593
        },
        PauliTerm {
          pauli=[
            Pauli::I,
            Pauli::I,
            Pauli::I,
            Pauli::Z,
            Pauli::Z,
            Pauli::Z
          ],
          coefficient=0.103553390593
        },
        PauliTerm {
          pauli=[
            Pauli::I,
            Pauli::I,
            Pauli::I,
            Pauli::I,
            Pauli::I,
            Pauli::I
          ],
          coefficient=1.75
        },
        PauliTerm {
          pauli=[
            Pauli::I,
            Pauli::I,
            Pauli::Z,
            Pauli::I,
            Pauli::I,
            Pauli::I
          ],
          coefficient=-0.25
        },
        PauliTerm {
          pauli=[
            Pauli::I,
            Pauli::Z,
            Pauli::I,
            Pauli::I,
            Pauli::I,
            Pauli::I
          ],
          coefficient=-0.520598050073
        },
        PauliTerm {
          pauli=[
            Pauli::I,
            Pauli::Z,
            Pauli::Z,
            Pauli::I,
            Pauli::I,
            Pauli::I
          ],
          coefficient=0.020598050073
        },
        PauliTerm {
          pauli=[
            Pauli::Z,
            Pauli::I,
            Pauli::I,
            Pauli::I,
            Pauli::I,
            Pauli::I
          ],
          coefficient=-1.256834873031
        },
        PauliTerm {
          pauli=[
            Pauli::Z,
            Pauli::I,
            Pauli::Z,
            Pauli::I,
            Pauli::I,
            Pauli::I
          ],
          coefficient=0.049728091845
        },
        PauliTerm {
          pauli=[
            Pauli::Z,
            Pauli::Z,
            Pauli::I,
            Pauli::I,
            Pauli::I,
            Pauli::I
          ],
          coefficient=0.103553390593
        },
        PauliTerm {
          pauli=[
            Pauli::Z,
            Pauli::Z,
            Pauli::Z,
            Pauli::I,
            Pauli::I,
            Pauli::I
          ],
          coefficient=0.103553390593
        }
      ], 0.101321183642, p, target);
    }, xy_variable, phase, indicator);
  }
  xy_variable -> {x_variable, y_variable};
}
".

Definition unnamed_part_001 : file :=
  [QFunc "qsct_2d"
    [Param false "xy_variable" (TName "qnum" [] [Some "2"])]
    [SCall (EVar "qst_type2")
       [EIndex (EVar "xy_variable") (ENum "0")];
     SCall (EVar "qct_type2")
       [EIndex (EVar "xy_variable") (ENum "1")]];
   QFunc "inverse_amplitude_load"
    [Param false "prefactor" (TName "real" [] []);
     Param false "phase" (TName "qnum" [] []);
     Param false "ind" (TName "qbit" [] [])]
    [SInplace (EVar "ind") "*=" (EBin "/" (EVar "prefactor") (EVar "phase"))];
   QFunc "matrix_inversion_HHL"
    [Param false "prefactor" (TName "real" [] []);
     Param false "my_unitary" (TFunc false [TName "int" [] []; TName "qbit" []
       [None]]);
     Param false "state" (TName "qbit" [] [None]);
     Param false "phase" (TName "qnum" [] []);
     Param true "indicator" (TName "qbit" [] [])]
    [SCall (EVar "allocate")
       [ENum "1"; EVar "indicator"];
     SWithin
       [SCall (EVar "qpe_flexible")
          [ELambda ["power"]
             [SCall (EVar "my_unitary")
                [EVar "power"; EVar "state"]];
           EVar "phase"]]
       [SCall (EVar "inverse_amplitude_load")
          [EVar "prefactor"; EVar "phase"; EVar "indicator"]]];
   QFunc "powered_hamiltonian_evolution"
    [Param false "hamiltonian" (TName "PauliTerm" [] [None]);
     Param false "scaling" (TName "real" [] []);
     Param false "p" (TName "int" [] []);
     Param false "qba" (TName "qbit" [] [None])]
    [SCall (EVar "suzuki_trotter")
       [EVar "hamiltonian";
        EBin "*" (EVar "p") (EParen (EBin "*" (EParen (ENeg (ENum
          "6.28318530718"))) (EVar "scaling")));
        ENum "1";
        ENum "1";
        EVar "qba"]];
   QFunc "main"
    [Param true "x_variable" (TName "qnum" ["3"; "False"; "0"] []);
     Param true "y_variable" (TName "qnum" ["3"; "False"; "0"] []);
     Param true "phase" (TName "qnum" [] []);
     Param true "indicator" (TName "qbit" [] [])]
    [SDecl "xy_variable" (TName "qnum" ["3"; "False"; "0"] [Some "2"]);
     SCall (EVar "prepare_amplitudes")
       [EList [ENum "0.000929993206";
               ENum "0.006286469531";
               ENum "0.012502019419";
               ENum "0.01640293531";
               ENum "0.01640293531";
               ENum "0.012502019419";
               ENum "0.006286469531";
               ENum "0.000929993206";
               ENum "0.006286469531";
               ENum "0.042483535101";
               ENum "0.084462252894";
               ENum "0.110795378713";
               ENum "0.110795378713";
               ENum "0.084462252894";
               ENum "0.042483535101";
               ENum "0.006286469531";
               ENum "0.012502019419";
               ENum "0.084462252894";
               ENum "0.167861987331";
               ENum "0.220148535874";
               ENum "0.220148535874";
               ENum "0.167861987331";
               ENum "0.084462252894";
               ENum "0.012502019419";
               ENum "0.01640293531";
               ENum "0.110795378713";
               ENum "0.220148535874";
               ENum "0.288681749865";
               ENum "0.288681749865";
               ENum "0.220148535874";
               ENum "0.110795378713";
               ENum "0.01640293531";
               ENum "0.01640293531";
               ENum "0.110795378713";
               ENum "0.220148535874";
               ENum "0.288681749865";
               ENum "0.288681749865";
               ENum "0.220148535874";
               ENum "0.110795378713";
               ENum "0.01640293531";
               ENum "0.012502019419";
               ENum "0.084462252894";
               ENum "0.167861987331";
               ENum "0.220148535874";
               ENum "0.220148535874";
               ENum "0.167861987331";
               ENum "0.084462252894";
               ENum "0.012502019419";
               ENum "0.006286469531";
               ENum "0.042483535101";
               ENum "0.084462252894";
               ENum "0.110795378713";
               ENum "0.110795378713";
               ENum "0.084462252894";
               ENum "0.042483535101";
               ENum "0.006286469531";
               ENum "0.000929993206";
               ENum "0.006286469531";
               ENum "0.012502019419";
               ENum "0.01640293531";
               ENum "0.01640293531";
               ENum "0.012502019419";
               ENum "0.006286469531";
               ENum "0.000929993206"];
        ENum "0.0";
        EVar "xy_variable"];
     SCall (EVar "allocate")
       [ENum "6"; EVar "phase"];
     SWithin
       [SCall (EVar "qsct_2d")
          [EVar "xy_variable"]]
       [SCall (EVar "matrix_inversion_HHL")
          [ENum "0.015625";
           ELambda ["p"; "target"]
             [SCall (EVar "powered_hamiltonian_evolution")
                [EList [EStruct "PauliTerm"
                    [("pauli", EList [EEnum "Pauli" "I";
                           EEnum "Pauli" "I";
                           EEnum "Pauli" "I";
                           EEnum "Pauli" "I";
                           EEnum "Pauli" "I";
                           EEnum "Pauli" "I"]);
                     ("coefficient", ENum "2.25")];
                        EStruct "PauliTerm"
                    [("pauli", EList [EEnum "Pauli" "I";
                           EEnum "Pauli" "I";
                           EEnum "Pauli" "I";
                           EEnum "Pauli" "I";
                           EEnum "Pauli" "I";
                           EEnum "Pauli" "Z"]);
                     ("coefficient", ENeg (ENum "0.25"))];
                        EStruct "PauliTerm"
                    [("pauli", EList [EEnum "Pauli" "I";
                           EEnum "Pauli" "I";
                           EEnum "Pauli" "I";
                           EEnum "Pauli" "I";
                           EEnum "Pauli" "Z";
                           EEnum "Pauli" "I"]);
                     ("coefficient", ENeg (ENum "0.520598050073"))];
                        EStruct "PauliTerm"
                    [("pauli", EList [EEnum "Pauli" "I";
                           EEnum "Pauli" "I";
                           EEnum "Pauli" "I";
                           EEnum "Pauli" "I";
                           EEnum "Pauli" "Z";
                           EEnum "Pauli" "Z"]);
                     ("coefficient", ENeg (ENum "0.020598050073"))];
                        EStruct "PauliTerm"
                    [("pauli", EList [EEnum "Pauli" "I";
                           EEnum "Pauli" "I";
                           EEnum "Pauli" "I";
                           EEnum "Pauli" "Z";
                           EEnum "Pauli" "I";
                           EEnum "Pauli" "I"]);
                     ("coefficient", ENeg (ENum "1.256834873031"))];
                        EStruct "PauliTerm"
                    [("pauli", EList [EEnum "Pauli" "I";
                           EEnum "Pauli" "I";
                           EEnum "Pauli" "I";
                           EEnum "Pauli" "Z";
                           EEnum "Pauli" "I";
                           EEnum "Pauli" "Z"]);
                     ("coefficient", ENeg (ENum "0.049728091845"))];
                        EStruct "PauliTerm"
                    [("pauli", EList [EEnum "Pauli" "I";
                           EEnum "Pauli" "I";
                           EEnum "Pauli" "I";
                           EEnum "Pauli" "Z";
                           EEnum "Pauli" "Z";
                           EEnum "Pauli" "I"]);
                     ("coefficient", ENeg (ENum "0.103553390593"))];
                        EStruct "PauliTerm"
                    [("pauli", EList [EEnum "Pauli" "I";
                           EEnum "Pauli" "I";
                           EEnum "Pauli" "I";
                           EEnum "Pauli" "Z";
                           EEnum "Pauli" "Z";
                           EEnum "Pauli" "Z"]);
                     ("coefficient", ENum "0.103553390593")];
                        EStruct "PauliTerm"
                    [("pauli", EList [EEnum "Pauli" "I";
                           EEnum "Pauli" "I";
                           EEnum "Pauli" "I";
                           EEnum "Pauli" "I";
                           EEnum "Pauli" "I";
                           EEnum "Pauli" "I"]);
                     ("coefficient", ENum "1.75")];
                        EStruct "PauliTerm"
                    [("pauli", EList [EEnum "Pauli" "I";
                           EEnum "Pauli" "I";
                           EEnum "Pauli" "Z";
                           EEnum "Pauli" "I";
                           EEnum "Pauli" "I";
                           EEnum "Pauli" "I"]);
                     ("coefficient", ENeg (ENum "0.25"))];
                        EStruct "PauliTerm"
                    [("pauli", EList [EEnum "Pauli" "I";
                           EEnum "Pauli" "Z";
                           EEnum "Pauli" "I";
                           EEnum "Pauli" "I";
                           EEnum "Pauli" "I";
                           EEnum "Pauli" "I"]);
                     ("coefficient", ENeg (ENum "0.520598050073"))];
                        EStruct "PauliTerm"
                    [("pauli", EList [EEnum "Pauli" "I";
                           EEnum "Pauli" "Z";
                           EEnum "Pauli" "Z";
                           EEnum "Pauli" "I";
                           EEnum "Pauli" "I";
                           EEnum "Pauli" "I"]);
                     ("coefficient", ENum "0.020598050073")];
                        EStruct "PauliTerm"
                    [("pauli", EList [EEnum "Pauli" "Z";
                           EEnum "Pauli" "I";
                           EEnum "Pauli" "I";
                           EEnum "Pauli" "I";
                           EEnum "Pauli" "I";
                           EEnum "Pauli" "I"]);
                     ("coefficient", ENeg (ENum "1.256834873031"))];
                        EStruct "PauliTerm"
                    [("pauli", EList [EEnum "Pauli" "Z";
                           EEnum "Pauli" "I";
                           EEnum "Pauli" "Z";
                           EEnum "Pauli" "I";
                           EEnum "Pauli" "I";
                           EEnum "Pauli" "I"]);
                     ("coefficient", ENum "0.049728091845")];
                        EStruct "PauliTerm"
                    [("pauli", EList [EEnum "Pauli" "Z";
                           EEnum "Pauli" "Z";
                           EEnum "Pauli" "I";
                           EEnum "Pauli" "I";
                           EEnum "Pauli" "I";
                           EEnum "Pauli" "I"]);
                     ("coefficient", ENum "0.103553390593")];
                        EStruct "PauliTerm"
                    [("pauli", EList [EEnum "Pauli" "Z";
                           EEnum "Pauli" "Z";
                           EEnum "Pauli" "Z";
                           EEnum "Pauli" "I";
                           EEnum "Pauli" "I";
                           EEnum "Pauli" "I"]);
                     ("coefficient", ENum "0.103553390593")]];
                 ENum "0.101321183642";
                 EVar "p";
                 EVar "target"]];
           EVar "xy_variable";
           EVar "phase";
           EVar "indicator"]];
     SBind (EVar "xy_variable") [EVar "x_variable"; EVar "y_variable"]]].

(** [unnamed/part_003] *)
Definition unnamed_part_003_text : string :=
"qfunc discrete_quantum_walk(time: int, coin_flip_qfunc: qfunc (qnum), walks_qfuncs: qfunc[] (), coin_state: qnum) {
  power (time) {
    coin_flip_qfunc(coin_state);
    repeat (i: walks_qfuncs.len) {
      control (coin_state == i) {
        walks_qfuncs[i]();
      }
    }
  }
}

qfunc moving_one_hamming_dist(pos: int, x: qbit[]) {
  X(x[pos]);
}

qfunc main(t: int, output x: qbit[]) {
  allocate(4, x);
  coin: qbit[];
  prepare_state([0.25, 0.25, 0.25, 0.25], 0.0, coin);
  discrete_quantum_walk(t, lambda(coin) {
    grover_diffuser(lambda(coin) {
      inplace_prepare_state([0.25, 0.25, 0.25, 0.25], 0.0, coin);
    }, coin);
  }, [lambda() {
    moving_one_hamming_dist(0, x);
  }, lambda() {
    moving_one_hamming_dist(1, x);
  }, lambda() {
    moving_one_hamming_dist(2, x);
  }, lambda() {
    moving_one_hamming_dist(3, x);
  }], coin);
}

cscope ```
save({'run': sample({'t': 4})})
```
".

Definition unnamed_part_003 : file :=
  [QFunc "discrete_quantum_walk"
    [Param false "time" (TName "int" [] []);
     Param false "coin_flip_qfunc" (TFunc false [TName "qnum" [] []]);
     Param false "walks_qfuncs" (TFunc true []);
     Param false "coin_state" (TName "qnum" [] [])]
    [SPower (EVar "time")
       [SCall (EVar "coin_flip_qfunc")
          [EVar "coin_state"];
        SRepeat "i" (EField (EVar "walks_qfuncs") "len")
          [SControl (EBin "==" (EVar "coin_state") (EVar "i"))
             [SCall (EIndex (EVar "walks_qfuncs") (EVar "i"))
                []]]]];
   QFunc "moving_one_hamming_dist"
    [Param false "pos" (TName "int" [] []);
     Param false "x" (TName "qbit" [] [None])]
    [SCall (EVar "X")
       [EIndex (EVar "x") (EVar "pos")]];
   QFunc "main"
    [Param false "t" (TName "int" [] []);
     Param true "x" (TName "qbit" [] [None])]
    [SCall (EVar "allocate")
       [ENum "4"; EVar "x"];
     SDecl "coin" (TName "qbit" [] [None]);
     SCall (EVar "prepare_state")
       [EList [ENum "0.25"; ENum "0.25"; ENum "0.25"; ENum "0.25"];
        ENum "0.0";
        EVar "coin"];
     SCall (EVar "discrete_quantum_walk")
       [EVar "t";
        ELambda ["coin"]
          [SCall (EVar "grover_diffuser")
             [ELambda ["coin"]
                [SCall (EVar "inplace_prepare_state")
                   [EList [ENum "0.25"; ENum "0.25"; ENum "0.25"; ENum
                     "0.25"];
                    ENum "0.0";
                    EVar "coin"]];
              EVar "coin"]];
        EList [ELambda []
           [SCall (EVar "moving_one_hamming_dist")
              [ENum "0"; EVar "x"]];
               ELambda []
           [SCall (EVar "moving_one_hamming_dist")
              [ENum "1"; EVar "x"]];
               ELambda []
           [SCall (EVar "moving_one_hamming_dist")
              [ENum "2"; EVar "x"]];
               ELambda []
           [SCall (EVar "moving_one_hamming_dist")
              [ENum "3"; EVar "x"]]];
        EVar "coin"]];
   CScope "
save({'run': sample({'t': 4})})
"].


(** *** Variables

    The variables an expression or a statement mentions, those bound
    inside it (the parameters of a lambda, the index of [repeat], a
    variable declared in a block) left out. *)

Definition mem (x : string) (xs : list string) : bool :=
  existsb (String.eqb x) xs.

Definition without (xs ys : list string) : list string :=
  List.filter (fun y => negb (mem y xs)) ys.

Definition block_vars_with (stmt_vars : stmt -> list string)
  : list stmt -> list string :=
  fix block (ss : list stmt) : list string :=
    match ss with
    | [] => []
    | s :: rest =>
        stmt_vars s ++
        match s with
        | SDecl x _ => without [x] (block rest)
        | _ => block rest
        end
    end.

Fixpoint expr_vars (e : expr) : list string :=
  match e with
  | EVar x => [x]
  | ENum _ | EEnum _ _ => []
  | EParen e1 | ENeg e1 | EField e1 _ => expr_vars e1
  | EBin _ l r => expr_vars l ++ expr_vars r
  | EIndex e1 i => expr_vars e1 ++ expr_vars i
  | ECall _ args => flat_map expr_vars args
  | EList items => flat_map expr_vars items
  | EStruct _ fields => flat_map (fun fe => expr_vars fe.2) fields
  | ELambda ps body => without ps (block_vars_with stmt_vars body)
  end
with stmt_vars (s : stmt) : list string :=
  match s with
  | SDecl _ _ => []
  | SCall c args => expr_vars c ++ flat_map expr_vars args
  | SBind src targets => expr_vars src ++ flat_map expr_vars targets
  | SInplace t _ e | SAssign t e => expr_vars t ++ expr_vars e
  | SRepeat i n body =>
      expr_vars n ++ without [i] (block_vars_with stmt_vars body)
  | SPower e body | SControl e body =>
      expr_vars e ++ block_vars_with stmt_vars body
  | SWithin a b =>
      block_vars_with stmt_vars a ++ block_vars_with stmt_vars b
  | SIf c t e =>
      expr_vars c ++ block_vars_with stmt_vars t
        ++ block_vars_with stmt_vars e
  end.

(** *** Initialisation

    A call initialises the variables it passes for a parameter declared
    [output]: the [output] parameters of a function of the file, and the
    last parameter of the library functions [allocate], [prepare_state] and
    [prepare_amplitudes], and of [encode_in_angle] and [encode_on_bloch],
    which the notebook that calls them documents as
    [qba: Output[QArray[QBit]]]. *)

Fixpoint find_qfunc (f : file) (name : string)
  : option (list param * list stmt) :=
  match f with
  | [] => None
  | QFunc n ps body :: rest =>
      if String.eqb n name then Some (ps, body) else find_qfunc rest name
  | _ :: rest => find_qfunc rest name
  end.

Definition library_initialisers : list string :=
  ["allocate"; "prepare_state"; "prepare_amplitudes";
   "encode_in_angle"; "encode_on_bloch"].

Definition positions_of_outputs (ps : list param) : list nat :=
  (fun ip => ip.1) <$> List.filter (fun ip => is_output ip.2) (imap pair ps).

Definition output_positions (f : file) (name : string) (arity : nat)
  : list nat :=
  match find_qfunc f name with
  | Some (ps, _) => positions_of_outputs ps
  | None => if mem name library_initialisers then [pred arity] else []
  end.

Definition variable_of (e : expr) : list string :=
  match e with
  | EVar x => [x]
  | _ => []
  end.

Definition call_initialises (f : file) (callee : expr) (args : list expr)
  : list string :=
  match callee with
  | EVar name =>
      flat_map (fun i => from_option variable_of [] (args !! i))
               (output_positions f name (length args))
  | _ => []
  end.

Section Check.
(** The file, and whether a bind [->] counts as initialising its targets
    and a numeric assignment [=] as initialising its target. *)
Context (f : file) (bind_initialises assignment_initialises : bool).

(** No variable of [pending], the declared variables not yet initialised,
    is mentioned unless the statement initialises it. *)
Definition mentions_ok (pending mentions inits : list string) : bool :=
  forallb (fun x => negb (mem x pending) || mem x inits) mentions.

Definition check_block_with
    (check_stmt : stmt -> list string -> option (list string))
  : list stmt -> list string -> option (list string) :=
  fix block (ss : list stmt) (pending : list string) :=
    match ss with
    | [] => Some pending
    | s :: rest => check_stmt s pending ≫= block rest
    end.

(** [check_stmt s pending] is what is pending after [s], or [None] when
    [s] mentions a pending variable it does not initialise. *)
Fixpoint check_stmt (s : stmt) (pending : list string)
  : option (list string) :=
  let simple inits :=
    if mentions_ok pending (stmt_vars s) inits
    then Some (without inits pending) else None in
  let header e body :=
    if mentions_ok pending (expr_vars e) []
    then check_block_with check_stmt body pending else None in
  match s with
  | SDecl x _ => Some (x :: pending)
  | SCall c args => simple (call_initialises f c args)
  | SBind _ targets =>
      simple (if bind_initialises then flat_map variable_of targets else [])
  | SInplace _ _ _ => simple []
  | SAssign target _ =>
      simple (if assignment_initialises then variable_of target else [])
  | SRepeat i n body =>
      '(p) ← header n body;
      Some (if mem i pending then i :: without [i] p else p)
  | SPower e body | SControl e body => header e body
  | SWithin a b =>
      check_block_with check_stmt a pending
        ≫= check_block_with check_stmt b
  | SIf c t e =>
      p1 ← header c t; p2 ← header c e; Some (p1 ++ without p1 p2)
  end.

(** The check of [main]: its [output] parameters are pending at the
    start, and nothing is at the end. *)
Definition check_main : option (list string) :=
  '(ps, body) ← find_qfunc f "main";
  check_block_with check_stmt body
    (param_name <$> List.filter is_output ps).

End Check.

Definition declares_main (f : file) : bool :=
  bool_decide (is_Some (find_qfunc f "main")).

Definition is_cscope (d : decl) : bool :=
  match d with
  | CScope _ => true
  | _ => false
  end.

(** *** Execution directives

    The code of a [cscope] block that only runs the model and saves the
    result: [save({'key': primitive({'name': number, ...})})], one call of
    an execution primitive on constant arguments, handed to one call of
    [save]. *)

Record directive := Directive {
  saved_as : string;
  primitive : string;
  arguments : list (string * string)
}.

Definition execution_primitives : list string := ["sample"].

Definition quoted (w : string) : list string := ["'"; w; "'"].

Definition directive_tokens (d : directive) : list string :=
  ["save"; "("; "{"] ++ quoted (saved_as d)
    ++ [":"; primitive d; "("; "{"]
    ++ sep_by (fun kv => quoted kv.1 ++ [":"; kv.2]) (arguments d)
    ++ ["}"; ")"; "}"; ")"].

Definition is_digit (a : ascii) : bool :=
  let n := N_of_ascii a in ((48 <=? n) && (n <=? 57))%N.

Definition all_chars (p : ascii -> bool) (s : string) : bool :=
  negb (String.eqb s "") && forallb p (list_ascii_of_string s).

(** The key and the names are words, the arguments whole numbers. *)
Definition is_execution_directive (d : directive) : bool :=
  mem (primitive d) execution_primitives
  && all_chars is_word_char (saved_as d)
  && forallb (fun kv => all_chars is_word_char kv.1 && all_chars is_digit kv.2)
             (arguments d).

(** A declaration that is a [cscope] block holds an execution directive
    and nothing else. *)
Definition only_directs (d : decl) : Prop :=
  forall code, d = CScope code ->
    exists dir, is_execution_directive dir = true /\
                tokenize code = directive_tokens dir.

(** The files of the repository, each with its text. *)
Definition repository_files : list (string * file) :=
  [(set_cover_text, set_cover);
   (qpe_for_matrix_text, qpe_for_matrix);
   (unnamed_part_001_text, unnamed_part_001);
   (unnamed_part_003_text, unnamed_part_003)].

(** *** Models that notebooks write to Qmod files

    Three notebooks build a model in Python and write it to a [.qmod] file
    that is not among the sources.  Each model is here the Python function
    in the syntax tree of the native syntax, statement by statement, and
    is compared with the Python text token by token: a parameter
    [x: Output[QNum]] is [output x: qnum], [CArray[CReal, 4]] is [real[4]],
    [QArray[QBit]] is [qbit[]], and [y |= e] is the numeric assignment
    [y = e]. *)

(** The text less its comments, each from [#] to the end of its line. *)
Fixpoint strip_comments (s : string) (in_comment : bool) : string :=
  match s with
  | EmptyString => EmptyString
  | String a s' =>
      if Ascii.eqb a (ascii_of_nat 10) then String a (strip_comments s' false)
      else if in_comment then strip_comments s' true
      else if Ascii.eqb a "#" then strip_comments s' true
      else String a (strip_comments s' false)
  end.

Definition python_scalar (n : string) : option string :=
  if String.eqb n "qnum" then Some "QNum"
  else if String.eqb n "qbit" then Some "QBit"
  else if String.eqb n "real" then Some "CReal"
  else None.

Definition python_type_tokens (t : type) : option (list string) :=
  match t with
  | TName n [] [] => c ← python_scalar n; Some [c]
  | TName n [] [d] =>
      c ← python_scalar n;
      Some ((if String.eqb n "real" then "CArray" else "QArray")
              :: "[" :: c :: from_option (fun k => [","; k]) [] d ++ ["]"])
  | _ => None
  end.

Definition python_param_tokens (p : param) : option (list string) :=
  t ← python_type_tokens (param_type p);
  Some (param_name p :: ":" ::
        (if is_output p then "Output" :: "[" :: t ++ ["]"] else t)).

(** The statements the three functions are made of; [None] for any
    other. *)
Definition python_stmt_tokens (s : stmt) : option (list string) :=
  match s with
  | SCall c args =>
      Some (expr_tokens c ++ "(" :: sep_by expr_tokens args ++ [")"])
  | SAssign t e => Some (expr_tokens t ++ "|" :: "=" :: expr_tokens e)
  | _ => None
  end.

Definition python_decl_tokens (d : decl) : option (list string) :=
  match d with
  | QFunc n ps body =>
      pts ← mapM python_param_tokens ps;
      sts ← mapM python_stmt_tokens body;
      Some ("@" :: "qfunc" :: "def" :: n :: "(" :: sep_by id pts
              ++ ")" :: ":" :: mjoin sts)
  | _ => None
  end.

Definition python_tokens (f : file) : option (list string) :=
  mjoin <$> mapM python_decl_tokens f.

(** [tutorials/classiq_101/classiq_concepts/design/design/design.ipynb],
    written by [create_model(main, out_file="design")]. *)
Definition design_source : string :=
"@qfunc
def main(x: Output[QNum], y: Output[QNum]):
    allocate(3, x)
    hadamard_transform(x)  # creates a uniform superposition
    y |= x**2 + 1
".

Definition design : file :=
  [QFunc "main"
     [Param true "x" (TName "qnum" [] []);
      Param true "y" (TName "qnum" [] [])]
     [SCall (EVar "allocate") [ENum "3"; EVar "x"];
      SCall (EVar "hadamard_transform") [EVar "x"];
      SAssign (EVar "y")
              (EBin "+" (EBin "**" (EVar "x") (ENum "2")) (ENum "1"))]].

(** The first model of the notebook on variational data encoding, written
    by [write_qmod(qmod, "encode_in_angle")]. *)
Definition encode_in_angle_source : string :=
"@qfunc
def main(data: CArray[CReal, 4], x: Output[QArray[QBit]]):
    encode_in_angle(data, x)
".

Definition encode_in_angle : file :=
  [QFunc "main"
     [Param false "data" (TName "real" [] [Some "4"]);
      Param true "x" (TName "qbit" [] [None])]
     [SCall (EVar "encode_in_angle") [EVar "data"; EVar "x"]]].

(** Its second model, written by [write_qmod(qmod, "encode_on_bloch")]. *)
Definition encode_on_bloch_source : string :=
"@qfunc
def main(data: CArray[CReal, 7], x: Output[QArray[QBit]]):
    encode_on_bloch(data, x)
".

Definition encode_on_bloch : file :=
  [QFunc "main"
     [Param false "data" (TName "real" [] [Some "7"]);
      Param true "x" (TName "qbit" [] [None])]
     [SCall (EVar "encode_on_bloch") [EVar "data"; EVar "x"]]].

(** The written models, each with the text of its Python function. *)
Definition written_models : list (string * file) :=
  [(design_source, design);
   (encode_in_angle_source, encode_in_angle);
   (encode_on_bloch_source, encode_on_bloch)].

End Qmod.

(** ** Vocabulary of the statements *)

Section Paths.
Import Re.

(** The path ends in the extension [ext], which includes the dot. *)
Definition has_extension (ext : string) (p : list char) : Prop :=
  chars_of ext `suffix_of` p.

(** The same, up to one final line feed. *)
Definition has_extension_lf (ext : string) (p : list char) : Prop :=
  has_extension ext p \/ (chars_of ext ++ [10%N]) `suffix_of` p.

Definition has_space (p : list char) : Prop :=
  Exists (fun c => is_space c = true) p.

(** The characters of [w] stand in [s] from position [i] on. *)
Definition lits_at (s w : list char) (i : nat) : Prop :=
  exists rest, drop i s = w ++ rest.

(** Every position of [[i, j)] holds a character that is no white space. *)
Definition no_space_in (s : list char) (i j : nat) : Prop :=
  forall k, (i <= k < j)%nat -> exists d, s !! k = Some d /\ is_space d = false.

Definition no_space (c : char) : Prop := is_space c = false.

(** The shape [^\S+<w>$] describes: a non-empty run without white space,
    then [w], then nothing or one final line feed. *)
Definition run_then (w : list char) (s : list char) : Prop :=
  exists pre tail,
    s = pre ++ w ++ tail /\ pre <> [] /\ Forall no_space pre /\
    (tail = [] \/ tail = [10%N]).

End Paths.

Section Runs.
Import Js Script Actions.

Definition job_name : string := "comment_on_merged_pull_request".

(** The event the workflow is registered for. *)
Definition closed_pull_request (ev : event) : Prop :=
  event_name ev = "pull_request_target" /\ action ev = "closed".

(** Events whose names hold no line break; GitHub admits no other login or
    repository name. *)
Definition well_formed (ev : event) : bool :=
  one_line (user_login (pull_request ev))
  && one_line (repo_name (repository ev))
  && one_line (owner_login (repository ev)).

(** The environment once "Set Environment Variables" has run. *)
Definition env_of (ev : event) (env : gmap string string)
  : gmap string string :=
  <["OWNER" := owner_login (repository ev)]>
    (<["REPO" := repo_name (repository ev)]>
       (<["AUTHOR" := user_login (pull_request ev)]> env)).

(** The search for the closed pull requests of the author of the event in
    the repository of the event. *)
Definition query_of (ev : event) : string :=
  "repo:" +:+ owner_login (repository ev) +:+ "/" +:+
  repo_name (repository ev) +:+ " type:pr state:closed author:" +:+
  user_login (pull_request ev).

(** The query the counting step sends, from the variables it reads. *)
Definition count_query (env : gmap string string) : string :=
  "repo:" +:+ tpl (env !! "OWNER") +:+ "/" +:+ tpl (env !! "REPO") +:+
  " type:pr state:closed author:" +:+ tpl (env !! "AUTHOR").

(** An item whose [pull_request.merged_at] is set. *)
Definition merged_at_set (it : item) : bool :=
  match Script.pull_request it with
  | Some links => bool_decide (is_Some (merged_at links))
  | None => false
  end.

(** What the search returns for [type:pr]: every item is a pull request,
    and a time stamp is not the empty string. *)
Definition pr_item (it : item) : Prop :=
  exists links,
    Script.pull_request it = Some links /\ merged_at links <> Some "".

(** The text holds [@login]. *)
Definition mentions (login text : string) : Prop :=
  exists pre post, text = pre +:+ "@" +:+ login +:+ post.

(** Requests to the REST API, as opposed to commands to the runner. *)
Definition is_request (c : call) : bool :=
  match c with
  | SearchIssuesAndPullRequests _ _ | IssuesCreateComment _ _ _ _ => true
  | ExportVariable _ _ | SetFailed _ => false
  end.

(** All effects of a run of the workflow; none when the event does not
    trigger it. *)
Definition effects (w : runner_world) (ev : event) (wf : workflow)
  : list effect :=
  match run_workflow w ev wf with
  | Some results => flat_map (fun r => log r.2.2) results
  | None => []
  end.

End Runs.

(** ** A run to evaluate the statements on *)

Section Sample.
Import Js Script Actions.

Definition sample_event (is_merged : bool) : event :=
  {| event_name := "pull_request_target";
     action := "closed";
     pull_request :=
       {| number := 17; merged := is_merged; user_login := "octocat" |};
     repository :=
       {| repo_name := "classiq-library"; owner_login := "Classiq" |} |}.

Definition sample_item (stamp : option string) : item :=
  {| Script.pull_request := Some {| merged_at := stamp |} |}.

Definition sample_items : list item :=
  [sample_item (Some "2024-05-02T09:30:00Z"); sample_item None;
   sample_item (Some "2024-06-11T16:04:51Z")].

(** The double written [0.7]. *)
Definition sample_random : Double.t :=
  S754_finite false 6305039478318694 (-53).

Definition sample_world : runner_world :=
  {| api :=
       {| search_response := fun q _ =>
            if String.eqb q
                 "repo:Classiq/classiq-library type:pr state:closed author:octocat"
            then inr sample_items
            else inl (Error "Validation Failed");
          create_comment_response := fun _ _ _ _ => inr tt;
          math_random := sample_random |};
     checkout_response := inr tt |}.

End Sample.

(** ** The file names a hook is run on *)

Module Classifier.
Import Re PreCommit.

(** A file name pre-commit considers, with the tags [identify] gives the
    file: [file] for a regular file, [symlink] or [directory] for the
    others, and tags such as [text] or [executable] beside [file]. *)
Record tagged := Tagged {
  filename : list char;
  tags : list string
}.

(** The keys [types], [types_or] and [exclude_types] of a local hook: none
    of the four sets one, so that each has the default of pre-commit.  (A
    remote hook takes them from the manifest of its own repository, which
    is not modelled.) *)
Definition default_types : list string := ["file"].
Definition default_types_or : list string := [].
Definition default_exclude_types : list string := [].

Definition has (tag : string) (ts : list string) : bool :=
  existsb (String.eqb tag) ts.

(** [by_types]: the tags hold all of [types], one of [types_or] unless it
    is empty, and none of [exclude_types]. *)
Definition by_types (ts types types_or exclude_types : list string) : bool :=
  forallb (fun t => has t ts) types
  && (match types_or with
      | [] => true
      | _ => existsb (fun t => has t types_or) ts
      end)
  && negb (existsb (fun t => has t exclude_types) ts).

(** [filenames_for_hook], for a local hook: the names the patterns keep,
    then those the types keep. *)
Definition filenames_for_hook (h : hook) (names : list tagged) : list tagged :=
  List.filter
    (fun f => by_types (tags f) default_types default_types_or
                       default_exclude_types)
    (List.filter (fun f => triggers h (filename f)) names).

End Classifier.

(** ** Checks on the Qmod files *)

Module QmodLint.
Import Qmod.

(** *** Every function, not [main] alone *)

Definition check_qfunc (f : file) (ps : list param) (body : list stmt)
  : option (list string) :=
  check_block_with (check_stmt f true true) body
    (param_name <$> List.filter is_output ps).

Definition functions_initialise (f : file) : bool :=
  forallb (fun d => match d with
                    | QFunc _ ps body =>
                        match check_qfunc f ps body with
                        | Some [] => true
                        | _ => false
                        end
                    | _ => true
                    end) f.

(** *** Sites

    Every statement and every expression of a body, each with the binders
    around it, the innermost first: the index of a [repeat] with its
    count, and the names a lambda or a declaration binds. *)

Inductive binder : Type :=
  | Loop (i : string) (count : expr)
  | Local (x : string).

Definition binder_name (b : binder) : string :=
  match b with
  | Loop i _ => i
  | Local x => x
  end.

Definition context := list binder.

Definition site : Type := context * (expr + stmt).

Definition block_sites_with (stmt_sites : context -> stmt -> list site)
  : context -> list stmt -> list site :=
  fix block (ctx : context) (ss : list stmt) : list site :=
    match ss with
    | [] => []
    | s :: rest =>
        stmt_sites ctx s ++
        block (match s with
               | SDecl x _ => Local x :: ctx
               | _ => ctx
               end) rest
    end.

Fixpoint expr_sites (ctx : context) (e : expr) : list site :=
  (ctx, inl e) ::
  match e with
  | EVar _ | ENum _ | EEnum _ _ => []
  | EParen e1 | ENeg e1 | EField e1 _ => expr_sites ctx e1
  | EBin _ l r => expr_sites ctx l ++ expr_sites ctx r
  | EIndex e1 i => expr_sites ctx e1 ++ expr_sites ctx i
  | ECall _ args => flat_map (expr_sites ctx) args
  | EList items => flat_map (expr_sites ctx) items
  | EStruct _ fields => flat_map (fun fe => expr_sites ctx fe.2) fields
  | ELambda ps body =>
      block_sites_with stmt_sites (rev (Local <$> ps) ++ ctx) body
  end
with stmt_sites (ctx : context) (s : stmt) : list site :=
  (ctx, inr s) ::
  match s with
  | SDecl _ _ => []
  | SCall c args => expr_sites ctx c ++ flat_map (expr_sites ctx) args
  | SBind src targets =>
      expr_sites ctx src ++ flat_map (expr_sites ctx) targets
  | SInplace t _ e | SAssign t e => expr_sites ctx t ++ expr_sites ctx e
  | SRepeat i n body =>
      expr_sites ctx n ++ block_sites_with stmt_sites (Loop i n :: ctx) body
  | SPower e body | SControl e body =>
      expr_sites ctx e ++ block_sites_with stmt_sites ctx body
  | SWithin a b =>
      block_sites_with stmt_sites ctx a ++ block_sites_with stmt_sites ctx b
  | SIf c t e =>
      expr_sites ctx c ++ block_sites_with stmt_sites ctx t
        ++ block_sites_with stmt_sites ctx e
  end.

Definition body_sites : list stmt -> list site :=
  block_sites_with stmt_sites [].

(** The name is that of a parameter of the function: nothing around the
    site binds it again. *)
Definition free_in (ctx : context) (x : string) : bool :=
  negb (mem x (binder_name <$> ctx)).

Definition find_param (ps : list param) (x : string) : option type :=
  param_type <$> List.find (fun p => String.eqb (param_name p) x) ps.

(** *** Calls agree with declarations *)

(** An argument handed to a parameter of a function type: a lambda takes
    as many parameters as the type has, and so does every lambda of a list
    handed to an array of functions. *)
Definition lambda_fits (t : type) (arg : expr) : bool :=
  match t, arg with
  | TFunc false tys, ELambda lps _ => (length lps =? length tys)%nat
  | TFunc true tys, EList items =>
      forallb (fun it => match it with
                         | ELambda lps _ => (length lps =? length tys)%nat
                         | _ => true
                         end) items
  | _, _ => true
  end.

Definition args_fit (ps : list param) (args : list expr) : bool :=
  (length args =? length ps)%nat
  && forallb (fun pa => lambda_fits (param_type pa.1) pa.2) (zip ps args).

(** A call of a parameter of a function type, of an element of a parameter
    that is an array of functions, or of a function of the file; a call of
    anything else, a library function, is not checked. *)
Definition call_fits (f : file) (ps : list param) (s : site) : option bool :=
  match s with
  | (ctx, inr (SCall (EVar name) args)) =>
      match (if free_in ctx name then find_param ps name else None) with
      | Some (TFunc false tys) => Some (length args =? length tys)%nat
      | Some _ => Some false
      | None =>
          match find_qfunc f name with
          | Some (qs, _) => Some (args_fit qs args)
          | None => None
          end
      end
  | (ctx, inr (SCall (EIndex (EVar name) _) args)) =>
      match (if free_in ctx name then find_param ps name else None) with
      | Some (TFunc true tys) => Some (length args =? length tys)%nat
      | _ => Some false
      end
  | _ => None
  end.

Definition functions_of (f : file) : list (list param * list stmt) :=
  flat_map (fun d => match d with
                     | QFunc _ ps body => [(ps, body)]
                     | _ => []
                     end) f.

(** The verdict on every checked call of the file. *)
Definition checked_calls (f : file) : list bool :=
  flat_map (fun pb => omap (call_fits f pb.1) (body_sites pb.2))
           (functions_of f).

(** *** Indices stay below the declared length *)

Fixpoint digits_value (s : string) (acc : nat) : option nat :=
  match s with
  | EmptyString => Some acc
  | String a s' =>
      let n := nat_of_ascii a in
      if ((48 <=? n) && (n <=? 57))%nat
      then digits_value s' (10 * acc + (n - 48))
      else None
  end.

Definition natural (lit : string) : option nat :=
  match lit with
  | EmptyString => None
  | _ => digits_value lit 0
  end.

(** What is known of a length or of the largest value of an index: a
    number, or the length of a named array. *)
Inductive extent : Type :=
  | Known (n : nat)
  | LenOf (a : string).

Definition loop_count (ctx : context) (i : string) : option expr :=
  match List.find (fun b => String.eqb (binder_name b) i) ctx with
  | Some (Loop _ n) => Some n
  | _ => None
  end.

(** An index is below [below e]: a literal [k] is below [k + 1], the index
    of [repeat (i: n)] is below [n], of [repeat (i: a.len)] below the
    length of [a], and a sum is below the sum of the two less one. *)
Fixpoint below (ctx : context) (e : expr) : option extent :=
  match e with
  | ENum lit => (fun k => Known (S k)) <$> natural lit
  | EParen e1 => below ctx e1
  | EVar i =>
      match loop_count ctx i with
      | Some (ENum lit) => Known <$> natural lit
      | Some (EField (EVar a) "len") =>
          if free_in ctx a then Some (LenOf a) else None
      | _ => None
      end
  | EBin "+" l r =>
      match below ctx l, below ctx r with
      | Some (Known m), Some (Known n) => Some (Known (m + n - 1))
      | _, _ => None
      end
  | _ => None
  end.

Definition declared_length (t : type) : option nat :=
  match t with
  | TName _ _ [Some n] => natural n
  | _ => None
  end.

Definition find_struct (f : file) (name : string)
  : option (list (string * type)) :=
  (fun d => match d with
            | QStruct _ fields => fields
            | _ => []
            end)
    <$> List.find (fun d => match d with
                            | QStruct n _ => String.eqb n name
                            | _ => false
                            end) f.

Definition field_type (f : file) (t : type) (field : string) : option type :=
  match t with
  | TName n [] [] =>
      fields ← find_struct f n;
      snd <$> List.find (fun ft => String.eqb ft.1 field) fields
  | _ => None
  end.

(** The length of what is indexed: a parameter that is an array, or an
    array field of a parameter that is a struct. *)
Definition length_of (f : file) (ps : list param) (ctx : context) (e : expr)
  : option nat :=
  match e with
  | EVar a =>
      if free_in ctx a then find_param ps a ≫= declared_length else None
  | EField (EVar v) field =>
      if free_in ctx v
      then t ← find_param ps v; ft ← field_type f t field; declared_length ft
      else None
  | _ => None
  end.

Inductive verdict : Type := InBounds | OutOfBounds | Undecided.

Definition index_verdict (f : file) (ps : list param) (s : site)
  : option verdict :=
  match s with
  | (ctx, inl (EIndex base i)) =>
      Some
        match below ctx i, base with
        | Some (LenOf a), EVar b =>
            if String.eqb a b && free_in ctx b then InBounds else Undecided
        | Some (Known m), _ =>
            match length_of f ps ctx base with
            | Some n => if (m <=? n)%nat then InBounds else OutOfBounds
            | None => Undecided
            end
        | _, _ => Undecided
        end
  | _ => None
  end.

Definition index_verdicts (f : file) : list verdict :=
  flat_map (fun pb => omap (index_verdict f pb.1) (body_sites pb.2))
           (functions_of f).

Definition count_verdicts (vs : list verdict) : nat * nat * nat :=
  foldr (fun v '(i, o, u) =>
           match v with
           | InBounds => (S i, o, u)
           | OutOfBounds => (i, S o, u)
           | Undecided => (i, o, S u)
           end) (0, 0, 0)%nat vs.

Definition no_index_out_of_bounds (f : file) : bool :=
  forallb (fun v => match v with
                    | OutOfBounds => false
                    | _ => true
                    end) (index_verdicts f).

(** *** Hamiltonians and state vectors *)

(** The number of Pauli matrices of a term [PauliTerm { pauli=[...], ... }]. *)
Definition pauli_width (e : expr) : option nat :=
  match e with
  | EStruct "PauliTerm" fields =>
      match List.find (fun fe => String.eqb fe.1 "pauli") fields with
      | Some (_, EList ps) => Some (length ps)
      | _ => None
      end
  | _ => None
  end.

(** The widths of the terms of a list of Pauli terms. *)
Definition hamiltonian_widths (s : site) : option (list nat) :=
  match s with
  | (_, inl (EList (t :: ts))) => mapM pauli_width (t :: ts)
  | _ => None
  end.

Definition hamiltonians (f : file) : list (list nat) :=
  flat_map (fun pb => omap hamiltonian_widths (body_sites pb.2))
           (functions_of f).

(** The number of amplitudes or probabilities of each call of
    [prepare_amplitudes] or [prepare_state] with a literal list. *)
Definition state_length (s : site) : option nat :=
  match s with
  | (_, inr (SCall (EVar name) (EList items :: _))) =>
      if mem name ["prepare_amplitudes"; "prepare_state"]
      then Some (length items) else None
  | _ => None
  end.

Definition state_lengths (f : file) : list nat :=
  flat_map (fun pb => omap state_length (body_sites pb.2)) (functions_of f).

(** All terms of every Hamiltonian of the file have one width [w], and
    every state the file prepares has [2 ^ w] entries. *)
Definition hamiltonians_fit (f : file) : bool :=
  forallb (fun ws =>
             forallb (fun w =>
                        forallb (Nat.eqb w) ws
                        && forallb (fun n => (n =? 2 ^ w)%nat)
                                   (state_lengths f)) ws)
          (hamiltonians f).

End QmodLint.

(** ** [high_level_modeling_flexible_qpe.ipynb]: from Pauli strings to a
    Hamiltonian *)

Module Pauli.
Inductive t : Type := I | X | Y | Z.
End Pauli.

Module FlexibleQpe.

(** A dictionary lookup that finds no key raises [KeyError]. *)
Inductive exception : Type :=
  | KeyError (key : ascii).

(** [my_list = {"I": Pauli.I, "X": Pauli.X, "Y": Pauli.Y, "Z": Pauli.Z}] *)
Definition my_list : list (ascii * Pauli.t) :=
  [("I"%char, Pauli.I); ("X"%char, Pauli.X); ("Y"%char, Pauli.Y);
   ("Z"%char, Pauli.Z)].

(** [my_list[s]] *)
Definition getitem (s : ascii) : exception + Pauli.t :=
  match List.find (fun kv => Ascii.eqb kv.1 s) my_list with
  | Some kv => inr kv.2
  | None => inl (KeyError s)
  end.

(** [[my_list[s] for s in pauli]] *)
Fixpoint pauli_str_to_enums (pauli : string) : exception + list Pauli.t :=
  match pauli with
  | EmptyString => inr []
  | String s rest =>
      match getitem s with
      | inl e => inl e
      | inr p =>
          match pauli_str_to_enums rest with
          | inl e => inl e
          | inr ps => inr (p :: ps)
          end
      end
  end.

Section Hamiltonian.
(** The coefficients, complex numbers, and their real part. *)
Context {complex real : Type} (real_part : complex -> real).

Record PauliTerm := { pauli : list Pauli.t; coefficient : real }.

(** [[PauliTerm(pauli=pauli_str_to_enums(pauli),
                coefficient=cast(complex, coeff).real)
      for pauli, coeff in pauli_operator.pauli_list]] *)
Fixpoint pauli_operator_to_hamiltonian (pauli_list : list (string * complex))
  : exception + list PauliTerm :=
  match pauli_list with
  | [] => inr []
  | (pauli, coeff) :: rest =>
      match pauli_str_to_enums pauli with
      | inl e => inl e
      | inr ps =>
          match pauli_operator_to_hamiltonian rest with
          | inl e => inl e
          | inr terms =>
              inr ({| pauli := ps; coefficient := real_part coeff |} :: terms)
          end
      end
  end.

End Hamiltonian.

Definition is_pauli_letter (a : ascii) : bool :=
  existsb (Ascii.eqb a) ["I"; "X"; "Y"; "Z"]%char.

End FlexibleQpe.

(** ** More vocabulary *)

Section MoreVocabulary.
Import Js Script Actions.

(** The text holds [part]. *)
Definition holds (part text : string) : Prop :=
  exists pre post, text = pre +:+ part +:+ post.

(** What is kept of a mantissa [M] once [k] bits are shifted out of it in
    rounding: the bits above, and in [shr_r] the last bit that left. *)
Definition shifted (M k : Z) (mrs : shr_record) : Prop :=
  0 <= shr_m mrs /\
  shr_m mrs * 2 ^ k <= M /\
  (shr_r mrs = true -> 2 ^ k <= 2 * (M - shr_m mrs * 2 ^ k)).

(** The counts [getMessage] has a message of their own for. *)
Definition is_milestone (count : Number) : bool :=
  existsb (strict_eq count) [Num 1; Num 2; Num 3; Num 5; Num 10].

End MoreVocabulary.

(** * Proofs *)

Section RegexFacts.
Import Re PreCommit.

(** ** Matching: what [ends] computes *)

Section Matching.
Context (s : list char).

Lemma ends_not_space i j :
  In j (ends NotSpace s i) <->
  j = S i /\ exists d, s !! i = Some d /\ is_space d = false.
Proof.
  simpl. destruct (s !! i) as [d|] eqn:E.
  - destruct (is_space d) eqn:Hd; simpl.
    + split; [tauto|]. intros (_ & d' & [= <-] & ?). congruence.
    + split.
      * intros [<-|[]]. eauto.
      * intros [-> _]. now left.
  - simpl. split; [tauto|]. intros (_ & d' & [=] & _).
Qed.

Lemma iter_plus_not_space_sound fuel i j :
  In j (iter_plus (ends NotSpace s) fuel i) -> (i < j)%nat /\ no_space_in s i j.
Proof.
  revert i. induction fuel as [|fuel IH]; intros i; simpl iter_plus;
    rewrite in_app_iff.
  - intros [H|[]]. apply ends_not_space in H as (-> & d & Hd & Hs).
    split; [lia|]. intros k Hk. assert (k = i) as -> by lia. eauto.
  - intros [H|H].
    + apply ends_not_space in H as (-> & d & Hd & Hs).
      split; [lia|]. intros k Hk. assert (k = i) as -> by lia. eauto.
    + apply in_flat_map in H as (m & Hm & Hj).
      apply list_elem_of_In, list_elem_of_filter in Hm as [Him Hm].
      apply list_elem_of_In, ends_not_space in Hm as (-> & d & Hd & Hs).
      apply IH in Hj as [Hlt Hns]. split; [lia|].
      intros k Hk. destruct (decide (k = i)) as [->|]; [eauto|].
      apply Hns. lia.
Qed.

Lemma iter_plus_not_space_complete fuel i j :
  (i < j)%nat -> (j <= S fuel + i)%nat -> no_space_in s i j ->
  In j (iter_plus (ends NotSpace s) fuel i).
Proof.
  revert i. induction fuel as [|fuel IH]; intros i Hlt Hle Hns;
    simpl iter_plus; rewrite in_app_iff.
  - left. apply ends_not_space. split; [lia|]. apply Hns. lia.
  - destruct (decide (j = S i)) as [->|Hne].
    + left. apply ends_not_space. split; [done|]. apply Hns. lia.
    + right. apply in_flat_map. exists (S i). split.
      * apply list_elem_of_In, list_elem_of_filter. split; [lia|].
        apply list_elem_of_In, ends_not_space. split; [done|]. apply Hns. lia.
      * apply IH; [lia|lia|]. intros k Hk. apply Hns. lia.
Qed.

Lemma no_space_in_bound i j : (i < j)%nat -> no_space_in s i j -> (j <= length s)%nat.
Proof.
  intros Hlt Hns. destruct (Hns (pred j)) as (d & Hd & _); [lia|].
  apply lookup_lt_Some in Hd. lia.
Qed.

(** [\S+] matches exactly the non-empty runs of characters that are no
    white space. *)
Lemma ends_plus_not_space i j :
  In j (ends (Plus NotSpace) s i) <-> (i < j)%nat /\ no_space_in s i j.
Proof.
  simpl. split.
  - apply iter_plus_not_space_sound.
  - intros [Hlt Hns]. apply iter_plus_not_space_complete; [done| |done].
    pose proof (no_space_in_bound _ _ Hlt Hns). lia.
Qed.

Lemma ends_lit c i j :
  In j (ends (Lit c) s i) <-> j = S i /\ s !! i = Some c.
Proof.
  simpl. destruct (s !! i) as [d|] eqn:E.
  - destruct (N.eqb_spec c d) as [->|Hne]; simpl.
    + split; [intros [<-|[]]; done | intros [-> _]; now left].
    + split; [tauto|]. intros [_ [= ->]]. done.
  - simpl. split; [tauto|]. intros [_ [=]].
Qed.

Lemma lits_at_cons c w i :
  lits_at s (c :: w) i <-> s !! i = Some c /\ lits_at s w (S i).
Proof.
  unfold lits_at. split.
  - intros [rest H].
    assert (s !! i = Some c) as Hc.
    { rewrite <- (Nat.add_0_r i), <- lookup_drop, H. done. }
    split; [done|]. exists rest.
    rewrite (drop_S _ _ _ Hc) in H. by injection H.
  - intros [Hc [rest H]]. exists rest. rewrite (drop_S _ _ _ Hc), H. done.
Qed.

Lemma ends_seq r1 r2 i k :
  In k (ends (Seq r1 r2) s i) <->
  exists j, In j (ends r1 s i) /\ In k (ends r2 s j).
Proof. simpl. apply in_flat_map. Qed.

Lemma ends_word w rs i k :
  In k (ends (seq_of (map Lit w ++ rs)) s i) <->
  lits_at s w i /\ In k (ends (seq_of rs) s (length w + i)).
Proof.
  revert i. induction w as [|c w IH]; intros i.
  - simpl. split; [|tauto]. intros H. split; [|done]. by exists (drop i s).
  - change (seq_of (map Lit (c :: w) ++ rs))
      with (Seq (Lit c) (seq_of (map Lit w ++ rs))).
    rewrite ends_seq, lits_at_cons. split.
    + intros (j & Hj & Hk). apply ends_lit in Hj as [-> Hc].
      apply IH in Hk as [Hw Hk]. split; [done|].
      by replace (length (c :: w) + i)%nat with (length w + S i)%nat
        by (simpl; lia).
    + intros [[Hc Hw] Hk]. exists (S i). split; [by apply ends_lit|].
      apply IH. split; [done|].
      by replace (length w + S i)%nat with (length (c :: w) + i)%nat
        by (simpl; lia).
Qed.

Lemma ends_eps i k : In k (ends Eps s i) <-> k = i.
Proof. simpl. split; [intros [<-|[]]; done | intros ->; by left]. Qed.

Lemma ends_bol i k : In k (ends Bol s i) <-> k = i /\ i = 0%nat.
Proof.
  simpl. destruct (Nat.eqb_spec i 0); simpl.
  - split; [intros [<-|[]]; done | intros [-> _]; by left].
  - split; [tauto | intros [_ ?]; done].
Qed.

(** [$]: nothing is left, or one line feed is. *)
Lemma ends_eol i k :
  In k (ends Eol s i) <->
  k = i /\ (drop i s = [] \/ drop i s = [10%N]) /\ (i <= length s)%nat.
Proof.
  unfold ends, at_end.
  destruct (Nat.eqb_spec i (length s)) as [->|Hne]; cbn [orb andb].
  - rewrite drop_all.
    split; [intros [<-|[]]; auto | intros [-> _]; by left].
  - destruct (Nat.eqb_spec (S i) (length s)) as [HS|HS]; cbn [orb andb].
    + case_bool_decide as Hl.
      * split; [|intros [-> _]; by left].
        intros [Hk|[]]. subst k. split; [done|]. split; [right|lia].
        rewrite (drop_S _ _ _ Hl), drop_ge by lia. done.
      * split; [intros []|]. intros (_ & [Hd|Hd] & Hle).
        -- apply (f_equal length) in Hd. rewrite length_drop in Hd.
           simpl in Hd. lia.
        -- apply Hl. rewrite <- (Nat.add_0_r i), <- lookup_drop, Hd. done.
    + split; [intros []|]. intros (_ & [Hd|Hd] & Hle);
        apply (f_equal length) in Hd; rewrite length_drop in Hd;
        simpl in Hd; lia.
Qed.

End Matching.

Lemma search_true r s :
  search r s = true <-> exists i k, (i <= length s)%nat /\ In k (ends r s i).
Proof.
  unfold search. rewrite existsb_exists. split.
  - intros (i & Hi & Hne). apply in_seq in Hi.
    apply negb_true_iff, bool_decide_eq_false in Hne.
    destruct (ends r s i) as [|k l] eqn:E; [done|].
    exists i, k. split; [lia|]. rewrite E. by left.
  - intros (i & k & Hi & Hk). exists i. split; [apply in_seq; lia|].
    apply negb_true_iff, bool_decide_eq_false. intros E. by rewrite E in Hk.
Qed.

Lemma ends_alt_seq s a b r i k :
  In k (ends (Seq (Alt a b) r) s i) <->
  In k (ends (Seq a r) s i) \/ In k (ends (Seq b r) s i).
Proof.
  rewrite !ends_seq. simpl. split.
  - intros (j & Hj & Hk). apply in_app_iff in Hj as [Hj|Hj]; eauto.
  - intros [(j & Hj & Hk)|(j & Hj & Hk)]; exists j;
      (split; [apply in_app_iff; auto | done]).
Qed.

Lemma ends_seq_of_app s xs ys i k :
  In k (ends (Seq (seq_of xs) (seq_of ys)) s i) <->
  In k (ends (seq_of (xs ++ ys)) s i).
Proof.
  revert i. induction xs as [|x xs IH]; intros i.
  - rewrite ends_seq. simpl. split.
    + intros (j & [<-|[]] & Hk). done.
    + intros Hk. exists i. split; [by left | done].
  - change (seq_of ((x :: xs) ++ ys)) with (Seq x (seq_of (xs ++ ys))).
    change (seq_of (x :: xs)) with (Seq x (seq_of xs)).
    rewrite !ends_seq. split.
    + intros (j & Hj & Hk). apply ends_seq in Hj as (m & Hm & Hj).
      exists m. split; [done|]. apply IH, ends_seq. eauto.
    + intros (m & Hm & Hk). apply IH, ends_seq in Hk as (j & Hj & Hk).
      exists j. split; [|done]. apply ends_seq. eauto.
Qed.

(** ** Paths *)

Lemma no_space_in_take s j :
  (j <= length s)%nat -> no_space_in s 0 j <-> Forall no_space (take j s).
Proof.
  intros Hj. rewrite Forall_lookup. split.
  - intros H k c Hk. apply lookup_take_Some in Hk as [Hk Hlt].
    destruct (H k) as (d & Hd & Hs); [lia|]. congruence.
  - intros H k [_ Hk].
    destruct (lookup_lt_is_Some_2 s k) as [d Hd]; [lia|].
    exists d. split; [done|]. apply (H k). by rewrite lookup_take_lt.
Qed.

Lemma shape_of_positions s w j :
  (0 < j)%nat -> no_space_in s 0 j -> lits_at s w j ->
  (drop (length w + j) s = [] \/ drop (length w + j) s = [10%N]) ->
  run_then w s.
Proof.
  intros Hj Hns [rest Hw] Htail.
  pose proof (no_space_in_bound _ _ _ Hj Hns) as Hle.
  exists (take j s), rest. split; [|split; [|split]].
  - by rewrite <- Hw, take_drop.
  - intros E. apply (f_equal length) in E. rewrite length_take in E.
    simpl in E. lia.
  - by apply no_space_in_take.
  - assert (rest = drop (length w + j) s) as ->; [|done].
    rewrite Nat.add_comm, <- drop_drop, Hw, drop_app_length. done.
Qed.

Lemma positions_of_shape s w :
  run_then w s ->
  exists j, (0 < j)%nat /\ no_space_in s 0 j /\ lits_at s w j /\
            (drop (length w + j) s = [] \/ drop (length w + j) s = [10%N]) /\
            (length w + j <= length s)%nat.
Proof.
  intros (pre & tail & -> & Hne & Hns & Htail).
  exists (length pre). split; [|split; [|split; [|split]]].
  - destruct pre; [done | simpl; lia].
  - apply no_space_in_take; [rewrite length_app; lia|].
    by rewrite take_app_length.
  - exists tail. by rewrite drop_app_length.
  - rewrite Nat.add_comm, <- drop_drop, drop_app_length, drop_app_length.
    done.
  - rewrite !length_app. lia.
Qed.

(** What [re.search] finds for a pattern [^\S+<w>$]. *)
Lemma search_run_then w s :
  search (seq_of ([Bol; Plus NotSpace] ++ map Lit w ++ [Eol])) s = true <->
  run_then w s.
Proof.
  rewrite search_true.
  change (seq_of ([Bol; Plus NotSpace] ++ map Lit w ++ [Eol]))
    with (Seq Bol (Seq (Plus NotSpace) (seq_of (map Lit w ++ [Eol])))).
  split.
  - intros (i & k & _ & Hk).
    apply ends_seq in Hk as (i' & Hi & Hk). apply ends_bol in Hi as [-> ->].
    apply ends_seq in Hk as (j & Hj & Hk).
    apply ends_plus_not_space in Hj as [Hj Hns].
    apply ends_word in Hk as [Hw Hk].
    change (seq_of [Eol]) with (Seq Eol Eps) in Hk.
    apply ends_seq in Hk as (m & Hm & _). apply ends_eol in Hm as (_ & Ht & _).
    by apply shape_of_positions with j.
  - intros H. apply positions_of_shape in H as (j & Hj & Hns & Hw & Ht & Hle).
    exists 0%nat, (length w + j)%nat. split; [lia|].
    apply ends_seq. exists 0%nat. split; [by apply ends_bol|].
    apply ends_seq. exists j. split; [by apply ends_plus_not_space|].
    apply ends_word. split; [done|].
    change (seq_of [Eol]) with (Seq Eol Eps).
    apply ends_seq. exists (length w + j)%nat.
    split; [by apply ends_eol | by apply ends_eps].
Qed.

Lemma ends_timeouts_files s i k :
  In k (ends timeouts_files s i) <->
  In k (ends qmod_files s i) \/ In k (ends ipynb_files s i) \/
  In k (ends (seq_of ([Bol; Plus NotSpace] ++ word ".yaml" ++ [Eol])) s i).
Proof.
  assert (forall w j,
    In k (ends (Seq (seq_of (word w)) (seq_of [Eol])) s (S j)) /\ s !! j = Some 46%N
    <-> In k (ends (seq_of (word ("." +:+ w) ++ [Eol])) s j)) as Hw.
  { intros w j. rewrite ends_seq_of_app.
    change (seq_of (word ("." +:+ w) ++ [Eol]))
      with (Seq (Lit 46%N) (seq_of (word w ++ [Eol]))).
    rewrite ends_seq. split.
    - intros [Hk Hj]. exists (S j). split; [by apply ends_lit | done].
    - intros (m & Hm & Hk). apply ends_lit in Hm as [-> Hm]. done. }
  pose proof (Hw "qmod") as Hq. pose proof (Hw "ipynb") as Hi.
  pose proof (Hw "yaml") as Hy. clear Hw.
  unfold timeouts_files, qmod_files, ipynb_files.
  cbn [app seq_of word chars_of list_ascii_of_string map] in *.
  rewrite !ends_seq. split.
  - intros (i0 & H0 & Hk). apply ends_seq in Hk as (j & Hj & Hk).
    apply ends_seq in Hk as (d & Hd & Hk). apply ends_lit in Hd as [-> Hd].
    apply ends_alt_seq in Hk as [Hk|Hk]; [|apply ends_alt_seq in Hk as [Hk|Hk]].
    + left. exists i0. split; [done|]. apply ends_seq. exists j.
      split; [done|]. by apply Hq.
    + right; left. exists i0. split; [done|]. apply ends_seq. exists j.
      split; [done|]. by apply Hi.
    + right; right. exists i0. split; [done|]. apply ends_seq. exists j.
      split; [done|]. by apply Hy.
  - intros [H|[H|H]]; destruct H as (i0 & H0 & Hk);
      apply ends_seq in Hk as (j & Hj & Hk);
      exists i0; (split; [done|]); apply ends_seq; exists j; (split; [done|]).
    + apply Hq in Hk as [Hk Hd]. apply ends_seq. exists (S j).
      split; [by apply ends_lit|]. apply ends_alt_seq. by left.
    + apply Hi in Hk as [Hk Hd]. apply ends_seq. exists (S j).
      split; [by apply ends_lit|]. apply ends_alt_seq. right.
      apply ends_alt_seq. by left.
    + apply Hy in Hk as [Hk Hd]. apply ends_seq. exists (S j).
      split; [by apply ends_lit|]. apply ends_alt_seq. right.
      apply ends_alt_seq. by right.
Qed.

(** The default [exclude], [^$], is found in the empty name and in the
    name that is one line feed. *)
Lemma search_exclude_default s :
  search exclude_default s = true <-> s = [] \/ s = [10%N].
Proof.
  rewrite search_true. unfold exclude_default.
  change (seq_of [Bol; Eol]) with (Seq Bol (Seq Eol Eps)). split.
  - intros (i & k & _ & Hk). apply ends_seq in Hk as (j & Hj & Hk).
    apply ends_bol in Hj as [-> ->].
    apply ends_seq in Hk as (m & Hm & _).
    apply ends_eol in Hm as (_ & Ht & _). by rewrite drop_0 in Ht.
  - intros Hs. exists 0%nat, 0%nat. split; [lia|].
    apply ends_seq. exists 0%nat. split; [by apply ends_bol|].
    apply ends_seq. exists 0%nat. split; [|by apply ends_eps].
    apply ends_eol. rewrite drop_0. split; [done|]. split; [done|lia].
Qed.

Lemma run_then_not_excluded w s :
  run_then w s -> search exclude_default s = false.
Proof.
  intros (pre & tail & -> & Hne & Hns & Htail).
  apply not_true_iff_false. rewrite search_exclude_default.
  destruct pre as [|c pre]; [done|]. intros [H|H]; [done|].
  injection H as -> H. apply app_eq_nil in H as [-> _].
  apply Forall_cons in Hns as [Hc _]. done.
Qed.

(** ** The local hooks *)

Lemma run_then_extension ext p :
  run_then (chars_of ext) p -> has_extension_lf ext p.
Proof.
  intros (pre & tail & -> & _ & _ & [->| ->]).
  - left. exists pre. by rewrite app_nil_r.
  - right. by exists pre.
Qed.

Lemma triggers_files r h p :
  files h = Some r ->
  triggers h p = true <-> search r p = true /\ search exclude_default p = false.
Proof.
  intros Hf. unfold triggers. rewrite Hf. simpl.
  rewrite andb_true_iff, negb_true_iff. done.
Qed.

Lemma triggers_ipynb h p :
  files h = Some ipynb_files ->
  triggers h p = true <-> run_then (chars_of ".ipynb") p.
Proof.
  intros Hf. rewrite (triggers_files _ _ _ Hf).
  unfold ipynb_files, word. rewrite search_run_then. split; [tauto|].
  intros H. split; [done|]. by apply run_then_not_excluded in H.
Qed.

Lemma triggers_qmod h p :
  files h = Some qmod_files ->
  triggers h p = true <-> run_then (chars_of ".qmod") p.
Proof.
  intros Hf. rewrite (triggers_files _ _ _ Hf).
  unfold qmod_files, word. rewrite search_run_then. split; [tauto|].
  intros H. split; [done|]. by apply run_then_not_excluded in H.
Qed.

Lemma search_timeouts_files p :
  search timeouts_files p = true <->
  run_then (chars_of ".qmod") p \/ run_then (chars_of ".ipynb") p \/
  run_then (chars_of ".yaml") p.
Proof.
  rewrite <- !search_run_then, !search_true. split.
  - intros (i & k & Hi & Hk).
    apply ends_timeouts_files in Hk as [Hk|[Hk|Hk]]; eauto 10.
  - intros [H|[H|H]]; destruct H as (i & k & Hi & Hk); exists i, k;
      (split; [done|]); apply ends_timeouts_files; auto.
Qed.

Lemma triggers_timeouts h p :
  files h = Some timeouts_files ->
  triggers h p = true <->
  run_then (chars_of ".qmod") p \/ run_then (chars_of ".ipynb") p \/
  run_then (chars_of ".yaml") p.
Proof.
  intros Hf. rewrite (triggers_files _ _ _ Hf), search_timeouts_files.
  split; [tauto|]. intros H. split; [done|].
  destruct H as [H|[H|H]]; by apply run_then_not_excluded in H.
Qed.

Lemma local_hooks_eq :
  local_hooks pre_commit_config =
  [notebook_pre_commit; qmod_pre_commit; clean_demo_timeouts; auto_add_tests].
Proof. reflexivity. Qed.

Lemma elem_of_local_hooks h :
  h ∈ local_hooks pre_commit_config ->
  h = notebook_pre_commit \/ h = qmod_pre_commit \/
  h = clean_demo_timeouts \/ h = auto_add_tests.
Proof.
  rewrite local_hooks_eq, !elem_of_cons, elem_of_nil. tauto.
Qed.

(** A path that ends in a letter and holds a white space is of none of the
    shapes the patterns describe. *)
Lemma run_then_no_space w x ext p :
  Forall no_space w -> x <> 10%N ->
  (ext ++ [x]) `suffix_of` p -> has_space p -> ~ run_then w p.
Proof.
  intros Hw Hx [stem Hp] Hsp (pre & tail & Hq & _ & Hpre & Htail).
  destruct Htail as [-> | ->].
  - rewrite app_nil_r in Hq. subst p.
    apply Exists_exists in Hsp as (c & Hc & Hs). rewrite Hq in Hc.
    apply elem_of_app in Hc as [Hc|Hc].
    + rewrite Forall_forall in Hpre. apply Hpre in Hc.
      unfold no_space in Hc. congruence.
    + rewrite Forall_forall in Hw. apply Hw in Hc.
      unfold no_space in Hc. congruence.
  - assert (last p = Some x) as Hl1.
    { rewrite Hp, app_assoc. apply last_snoc. }
    assert (last p = Some 10%N) as Hl2.
    { rewrite Hq, !app_assoc. apply last_snoc. }
    congruence.
Qed.

Lemma trigger_shapes h p :
  h ∈ local_hooks pre_commit_config -> triggers h p = true ->
  (id h = "notebook-pre-commit" \/ id h = "auto-add-tests" ->
   run_then (chars_of ".ipynb") p) /\
  (id h = "qmod-pre-commit" -> run_then (chars_of ".qmod") p) /\
  (run_then (chars_of ".qmod") p \/ run_then (chars_of ".ipynb") p \/
   run_then (chars_of ".yaml") p).
Proof.
  intros Hh Ht. apply elem_of_local_hooks in Hh as [-> | [-> | [-> | ->]]].
  - apply triggers_ipynb in Ht; [|done]. split; [done|].
    split; [intros [=] | auto].
  - apply triggers_qmod in Ht; [|done]. split; [intros [[=]|[=]]|].
    split; [done | auto].
  - apply triggers_timeouts in Ht; [|done]. split; [intros [[=]|[=]]|].
    split; [intros [=] | done].
  - apply triggers_ipynb in Ht; [|done]. split; [done|].
    split; [intros [=] | auto].
Qed.

(** C3, as amended: the local hooks are the four of the claim, with the
    patterns of the claim, and a path that triggers one of them ends in
    the extension of its pattern, or in that extension and one final line
    feed ([$] also holds just before a line feed that ends the string). *)
Theorem local_hooks_trigger_on_extensions (h : hook) (p : list char) :
  h ∈ local_hooks pre_commit_config -> triggers h p = true ->
  map (fun h => (id h, pattern <$> files h)) (local_hooks pre_commit_config) =
    [("notebook-pre-commit", Some "^\S+\.ipynb$");
     ("qmod-pre-commit", Some "^\S+\.qmod$");
     ("clean-demo-timeouts", Some "^\S+\.(qmod|ipynb|yaml)$");
     ("auto-add-tests", Some "^\S+\.ipynb$")] /\
  (id h = "notebook-pre-commit" \/ id h = "auto-add-tests" ->
   has_extension_lf ".ipynb" p) /\
  (id h = "qmod-pre-commit" -> has_extension_lf ".qmod" p) /\
  (has_extension_lf ".ipynb" p \/ has_extension_lf ".qmod" p \/
   has_extension_lf ".yaml" p).
Proof.
  intros Hh Ht. split; [reflexivity|].
  destruct (trigger_shapes h p Hh Ht) as (Hi & Hq & Hany).
  split; [|split].
  - intros H. by apply run_then_extension, Hi.
  - intros H. by apply run_then_extension, Hq.
  - destruct Hany as [H|[H|H]]; apply run_then_extension in H; auto.
Qed.

Lemma local_hooks_trigger_on_extensions_witness :
  clean_demo_timeouts ∈ local_hooks pre_commit_config /\
  triggers clean_demo_timeouts (chars_of ".internal/timeouts.yaml") = true /\
  (has_extension_lf ".ipynb" (chars_of ".internal/timeouts.yaml") \/
   has_extension_lf ".qmod" (chars_of ".internal/timeouts.yaml") \/
   has_extension_lf ".yaml" (chars_of ".internal/timeouts.yaml")).
Proof.
  assert (clean_demo_timeouts ∈ local_hooks pre_commit_config) as Hh
    by (vm_compute; repeat constructor).
  assert (triggers clean_demo_timeouts (chars_of ".internal/timeouts.yaml")
          = true) as Ht by (vm_compute; reflexivity).
  split; [exact Hh|]. split; [exact Ht|].
  destruct (local_hooks_trigger_on_extensions _ _ Hh Ht) as (_ & _ & _ & H).
  exact H.
Defined.

Lemma suffix_snoc_last (e q : list char) (x y : char) :
  (e ++ [x]) `suffix_of` (q ++ [y]) -> x = y.
Proof.
  intros [k Hk]. rewrite app_assoc in Hk.
  by apply app_inj_tail in Hk as [_ ?].
Qed.

(** C3, as stated, fails: the notebook hook is triggered by a path whose
    last character is a line feed, which has none of the three
    extensions. *)
Lemma extension_claim_fails_at_final_line_feed :
  notebook_pre_commit ∈ local_hooks pre_commit_config /\
  triggers notebook_pre_commit (chars_of "a.ipynb" ++ [10%N]) = true /\
  ~ has_extension ".ipynb" (chars_of "a.ipynb" ++ [10%N]) /\
  ~ has_extension ".qmod" (chars_of "a.ipynb" ++ [10%N]) /\
  ~ has_extension ".yaml" (chars_of "a.ipynb" ++ [10%N]).
Proof.
  split; [vm_compute; repeat constructor|].
  split; [vm_compute; reflexivity|].
  split; [|split]; intros H.
  - by apply (suffix_snoc_last (chars_of ".ipyn") (chars_of "a.ipynb")) in H.
  - by apply (suffix_snoc_last (chars_of ".qmo") (chars_of "a.ipynb")) in H.
  - by apply (suffix_snoc_last (chars_of ".yam") (chars_of "a.ipynb")) in H.
Qed.

(** C9: the pattern of every local hook starts with [^\S+\.], and a path
    that ends in one of the three extensions and holds a white space
    character triggers no local hook. *)
Theorem whitespace_paths_trigger_no_hook (h : hook) (p : list char) (ext : string) :
  h ∈ local_hooks pre_commit_config ->
  ext ∈ [".ipynb"; ".qmod"; ".yaml"] ->
  has_extension ext p -> has_space p ->
  (exists rest,
     files h = Some (seq_of ([Bol; Plus NotSpace] ++ word "." ++ rest))) /\
  triggers h p = false.
Proof.
  intros Hh Hext Hp Hsp. split.
  - apply elem_of_local_hooks in Hh as [-> | [-> | [-> | ->]]]; eexists; reflexivity.
  - apply not_true_iff_false. intros Ht.
    destruct (trigger_shapes h p Hh Ht) as (_ & _ & Hany).
    assert (exists e x, chars_of ext = e ++ [x] /\ x <> 10%N)
      as (e & x & He & Hx).
    { rewrite !elem_of_cons, elem_of_nil in Hext.
      destruct Hext as [-> | [-> | [-> | []]]].
      - by exists (chars_of ".ipyn"), 98%N.
      - by exists (chars_of ".qmo"), 100%N.
      - by exists (chars_of ".yam"), 108%N. }
    unfold has_extension in Hp. rewrite He in Hp.
    assert (forall w, Forall no_space (chars_of w) -> ~ run_then (chars_of w) p)
      as Hno by (intros w Hw; by apply run_then_no_space with x e).
    destruct Hany as [H|[H|H]]; revert H; apply Hno;
      vm_compute; repeat constructor.
Qed.

Lemma whitespace_paths_trigger_no_hook_witness :
  Forall (fun h => triggers h (chars_of "tutorials/my notebook.ipynb") = false)
         (local_hooks pre_commit_config).
Proof.
  apply Forall_forall. intros h Hh.
  apply (whitespace_paths_trigger_no_hook h _ ".ipynb" Hh).
  - vm_compute. repeat constructor.
  - exists (chars_of "tutorials/my notebook"). vm_compute. reflexivity.
  - apply Exists_exists. exists 32%N. split; [|reflexivity].
    vm_compute. repeat constructor.
Defined.

End RegexFacts.

Section WorkflowFacts.
Import Js Script Actions.

(** ** Strings *)

Lemma string_app_cons a (s1 s2 : string) :
  String a s1 +:+ s2 = String a (s1 +:+ s2).
Proof. reflexivity. Qed.

Lemma string_app_nil_r (s : string) : s +:+ "" = s.
Proof.
  induction s as [|a s IH]; [done|]. by rewrite string_app_cons, IH.
Qed.

Lemma string_app_assoc (s1 s2 s3 : string) :
  (s1 +:+ s2) +:+ s3 = s1 +:+ s2 +:+ s3.
Proof.
  induction s1 as [|a s1 IH]; [done|]. by rewrite !string_app_cons, IH.
Qed.

(** ** Decimal numerals: [parseInt] reads back what [String] prints *)

Ltac eval_digit :=
  match goal with
  | |- context [digit_value ?r ?a] =>
      let v := eval vm_compute in (digit_value r a) in
      change (digit_value r a) with v
  end.

Lemma scan_digits_acc (d : uint) (acc : positive) :
  scan_digits 10 (NilEmpty.string_of_uint d) (Some (Z.pos acc)) =
  Some (Z.pos (Pos.of_uint_acc d acc)).
Proof.
  revert acc.
  induction d; intros acc; cbn [NilEmpty.string_of_uint scan_digits];
    [done|..]; eval_digit;
    cbn [Pos.of_uint_acc default from_option id]; rewrite <- IHd;
    do 2 f_equal; lia.
Qed.

Lemma scan_digits_zero (d : uint) :
  scan_digits 10 (NilEmpty.string_of_uint d) (Some 0) =
  Some (Z.of_N (Pos.of_uint d)).
Proof.
  induction d; cbn [NilEmpty.string_of_uint scan_digits]; [done|..];
    eval_digit; cbn [Pos.of_uint default from_option id Z.of_N];
    [exact IHd|..]; apply (scan_digits_acc d).
Qed.

Ltac eval_white :=
  match goal with
  | |- context [is_white ?a] =>
      let v := eval vm_compute in (is_white a) in
      change (is_white a) with v
  end.

Ltac eval_acc :=
  match goal with
  | |- context [scan_digits _ _ (Some ?e)] =>
      let v := eval vm_compute in e in
      change e with v
  end.

(** Nothing is skipped before an ASCII character that is no white
    space. *)
Lemma trim_start_ascii (a : ascii) (s : string) :
  is_white a = false -> (N_of_ascii a < 128)%N ->
  trim_start (String a s) = String a s.
Proof.
  intros Hw Ha. cbn [trim_start]. rewrite Hw.
  destruct s as [|b [|c s]]; [done|..]; unfold is_white2, is_white3;
    cbn zeta;
    repeat match goal with
           | |- context [(N_of_ascii a =? ?n)%N] =>
               destruct (N.eqb_spec (N_of_ascii a) n) as [?|_]; [lia|]
           end; reflexivity.
Qed.

Ltac unfold_parseInt :=
  unfold parseInt;
  cbn [tpl default from_option id NilEmpty.string_of_uint];
  rewrite trim_start_ascii by (vm_compute; reflexivity);
  cbn iota beta zeta; cbn [scan_digits];
  repeat eval_digit; cbn [default from_option id].

(** [parseInt] reads a numeral as [Pos.of_uint] does, also behind a sign:
    the numeral holds digits only, so that neither white space nor a
    hexadecimal prefix is found. *)
Lemma parseInt_string_of_uint (d : uint) :
  parseInt (Some (NilZero.string_of_uint d)) = Num (Z.of_N (Pos.of_uint d)) /\
  parseInt (Some (String "-" (NilZero.string_of_uint d))) =
    Num (- Z.of_N (Pos.of_uint d)).
Proof.
  destruct d as [|d|d|d|d|d|d|d|d|d|d]; [done|..].
  1: destruct d as [|d|d|d|d|d|d|d|d|d|d]; [done|..].
  all: split; unfold NilZero.string_of_uint; unfold_parseInt; eval_acc;
    first [rewrite scan_digits_acc | rewrite scan_digits_zero];
    cbn [Pos.of_uint]; f_equal; lia.
Qed.

Lemma parseInt_number_to_string (z : Z) :
  parseInt (Some (number_to_string (Num z))) = Num z.
Proof.
  unfold number_to_string.
  destruct z as [|p|p]; [done|..]; cbn [Z.to_int NilZero.string_of_int].
  - destruct (parseInt_string_of_uint (Pos.to_uint p)) as [-> _].
    by rewrite DecimalPos.Unsigned.of_to.
  - destruct (parseInt_string_of_uint (Pos.to_uint p)) as [_ ->].
    by rewrite DecimalPos.Unsigned.of_to.
Qed.

(** [PR_COUNT] not set: [parseInt(undefined)] is [NaN]. *)
Lemma parseInt_undefined : parseInt None = NaN.
Proof. reflexivity. Qed.

(** ** The environment file *)

Lemma split_lines_one_line (v rest : string) :
  one_line v = true ->
  split_lines (v +:+ LF +:+ rest) = v :: split_lines rest.
Proof.
  induction v as [|a v IH]; intros Hv; [done|].
  cbn [one_line] in Hv. apply andb_true_iff in Hv as [Ha Hv].
  rewrite string_app_cons. cbn [split_lines].
  apply negb_true_iff in Ha. by rewrite Ha, (IH Hv).
Qed.

Lemma one_line_app (s1 s2 : string) :
  one_line (s1 +:+ s2) = one_line s1 && one_line s2.
Proof.
  induction s1 as [|a s1 IH]; [done|].
  rewrite string_app_cons. cbn [one_line]. by rewrite IH, andb_assoc.
Qed.

Lemma parse_env_file_three (a r o : string) :
  one_line a = true -> one_line r = true -> one_line o = true ->
  parse_env_file
    ((("" +:+ ("AUTHOR=" +:+ a +:+ "") +:+ LF)
        +:+ ("REPO=" +:+ r +:+ "") +:+ LF)
       +:+ ("OWNER=" +:+ o +:+ "") +:+ LF) =
  Some [("AUTHOR", a); ("REPO", r); ("OWNER", o)].
Proof.
  intros Ha Hr Ho. unfold parse_env_file.
  rewrite !string_app_nil_r, !string_app_assoc.
  change ("" +:+ ?s) with s.
  rewrite <- (string_app_assoc "AUTHOR=" a).
  rewrite split_lines_one_line by (by rewrite one_line_app, Ha).
  rewrite <- (string_app_assoc "REPO=" r).
  rewrite split_lines_one_line by (by rewrite one_line_app, Hr).
  replace ("OWNER=" +:+ o +:+ LF) with (("OWNER=" +:+ o) +:+ LF +:+ "")
    by (by rewrite string_app_assoc).
  rewrite split_lines_one_line by (by rewrite one_line_app, Ho).
  cbn [split_lines].
  rewrite !filter_cons_True by done. rewrite filter_cons_False by (by intros []).
  rewrite filter_nil. reflexivity.
Qed.

Lemma run_set_environment_variables w ev st :
  well_formed ev = true ->
  run_step w ev set_environment_variables st =
  (Success, State (env_of ev (env st)) (log st)).
Proof.
  intros Hwf. unfold well_formed in Hwf.
  apply andb_true_iff in Hwf as [Hwf Ho].
  apply andb_true_iff in Hwf as [Ha Hr].
  unfold run_step, set_environment_variables. cbn [body].
  cbn [run_commands foldl file_var words String.eqb Ascii.eqb Bool.eqb].
  unfold expand. cbn [foldr set_all foldl fst snd].
  rewrite lookup_insert_ne by done. rewrite lookup_insert_ne by done.
  rewrite lookup_insert_eq. rewrite lookup_insert_ne by done.
  rewrite !lookup_insert_eq. cbn [default from_option id].
  by rewrite parse_env_file_three.
Qed.

(** ** The two scripts *)

Section ScriptFacts.
Context (w : world) (env : gmap string string).

Lemma filter_merged_pr_items items l :
  Forall pr_item items ->
  filter_merged items l = (inr (filter merged_at_set items), l).
Proof.
  induction 1 as [|it items (links & Hl & Hne) _ IH]; [done|].
  cbn [filter_merged]. rewrite Hl.
  unfold mbind, script_bind, bind. rewrite IH. unfold ret.
  assert (truthy (merged_at links) = merged_at_set it) as ->.
  { unfold merged_at_set. rewrite Hl.
    destruct (merged_at links) as [[|a t]|]; [by destruct Hne|..].
    - symmetry. apply bool_decide_eq_true_2. eexists; reflexivity.
    - symmetry. apply bool_decide_eq_false_2. intros [? [=]]. }
  destruct (merged_at_set it) eqn:E.
  - rewrite filter_cons_True by (by rewrite E). done.
  - rewrite filter_cons_False by (rewrite E; intros []). done.
Qed.

(** Whatever the items, the filter logs nothing. *)
Lemma filter_merged_log items l :
  snd (filter_merged items l) = l.
Proof.
  induction items as [|it items IH]; [done|].
  cbn [filter_merged]. destruct (Script.pull_request it); [|done].
  unfold mbind, script_bind, bind.
  destruct (filter_merged items l) as [[e|kept] l'] eqn:E; by simpl in *.
Qed.

(** The try block of the counting step: one request, then either the
    export or an error. *)
Lemma count_merged_body_cases :
  (exists e, run (count_merged_body w env) =
             (inl e, [SearchIssuesAndPullRequests (count_query env) 1000])) \/
  (exists v, run (count_merged_body w env) =
             (inr tt, [SearchIssuesAndPullRequests (count_query env) 1000;
                       ExportVariable "PR_COUNT" v])).
Proof.
  unfold run, count_merged_body, search_issuesAndPullRequests, exportVariable.
  fold (count_query env).
  unfold mbind, script_bind, bind, emit, lift. cbn [app].
  destruct (search_response w (count_query env) 1000) as [e|items]; [left; by eexists|].
  unfold ret.
  pose proof (filter_merged_log items
                [SearchIssuesAndPullRequests (count_query env) 1000]) as Hl.
  destruct (filter_merged items _) as [[e|kept] l]; simpl in Hl; subst l.
  - left. by eexists.
  - right. by eexists.
Qed.

Lemma count_merged_body_ok items :
  search_response w (count_query env) 1000 = inr items ->
  Forall pr_item items ->
  run (count_merged_body w env) =
  (inr tt,
   [SearchIssuesAndPullRequests (count_query env) 1000;
    ExportVariable "PR_COUNT"
      (number_to_string
         (Num (Z.of_nat (length (filter merged_at_set items)))))]).
Proof.
  intros Hs Hi.
  unfold run, count_merged_body, search_issuesAndPullRequests, exportVariable.
  fold (count_query env).
  unfold mbind, script_bind, bind, emit, lift. cbn [app].
  rewrite Hs. unfold ret. by rewrite filter_merged_pr_items.
Qed.

Lemma count_merged_catch :
  run (count_merged_pull_requests w env) =
  match run (count_merged_body w env) with
  | (inl e, l) =>
      (inr tt,
       l ++ [SetFailed ("Error counting merged pull requests: "
                        +:+ message e)])
  | r => r
  end.
Proof.
  unfold run, count_merged_pull_requests, try_catch.
  by destruct (count_merged_body w env []) as [[e|[]] l].
Qed.

Lemma comment_body_cases n :
  let c := IssuesCreateComment (env !! "OWNER") (env !! "REPO") n
             (getMessage (env !! "AUTHOR") (env !! "REPO") (math_random w)
                         (parseInt (env !! "PR_COUNT"))) in
  (exists e, run (comment_body w env n) = (inl e, [c])) \/
  run (comment_body w env n) = (inr tt, [c]).
Proof.
  unfold run, comment_body, issues_createComment.
  unfold mbind, script_bind, bind, emit, lift. cbn [app].
  destruct (create_comment_response w _ _ _ _) as [e|[]];
    [left; by eexists | by right].
Qed.

Lemma comment_catch n :
  run (comment_on_the_merged_pull_request w env n) =
  match run (comment_body w env n) with
  | (inl e, l) =>
      (inr tt, l ++ [SetFailed ("Error creating comment: " +:+ message e)])
  | r => r
  end.
Proof.
  unfold run, comment_on_the_merged_pull_request, try_catch.
  by destruct (comment_body w env n []) as [[e|[]] l].
Qed.

End ScriptFacts.

(** ** The job *)

Lemma env_of_lookups ev env :
  env_of ev env !! "OWNER" = Some (owner_login (repository ev)) /\
  env_of ev env !! "REPO" = Some (repo_name (repository ev)) /\
  env_of ev env !! "AUTHOR" = Some (user_login (pull_request ev)).
Proof. unfold env_of. by simplify_map_eq. Qed.

Lemma count_query_env_of ev env :
  count_query (env_of ev env) = query_of ev.
Proof.
  unfold count_query.
  destruct (env_of_lookups ev env) as (-> & -> & ->). reflexivity.
Qed.

Lemma run_job_skipped w ev :
  merged (pull_request ev) = false ->
  run_job w ev comment_on_merged_pull_request = (Skipped, initial).
Proof. intros Hm. unfold run_job. cbn [job_if comment_on_merged_pull_request]. by rewrite Hm. Qed.

Lemma run_checkout_repository w ev st :
  run_step w ev checkout_repository st =
  (match checkout_response w with inr _ => Success | inl _ => Failure end,
   State (env st)
         (log st ++ [Fetch (owner_login (repository ev))
                           (repo_name (repository ev))])).
Proof. reflexivity. Qed.

Lemma run_count_step w ev st :
  run_step w ev count_step st =
  let rc := run (count_merged_pull_requests (api w) (env st)) in
  (script_outcome rc.1 rc.2,
   State (exports rc.2 (env st)) (log st ++ map Api rc.2)).
Proof.
  unfold run_step. cbn [body count_step].
  by destruct (run (count_merged_pull_requests (api w) (env st))).
Qed.

Lemma run_comment_step w ev st :
  run_step w ev comment_step st =
  let rc := run (comment_on_the_merged_pull_request (api w) (env st)
                   (number (pull_request ev))) in
  (script_outcome rc.1 rc.2,
   State (exports rc.2 (env st)) (log st ++ map Api rc.2)).
Proof.
  unfold run_step. cbn [body comment_step].
  by destruct (run (comment_on_the_merged_pull_request _ _ _)).
Qed.

Section JobRuns.
Context (w : runner_world) (ev : event).
Context (Hwf : well_formed ev = true).
Context (Hmerged : merged (pull_request ev) = true).

Let o := owner_login (repository ev).
Let r := repo_name (repository ev).
Let a := user_login (pull_request ev).
Let n := number (pull_request ev).
Let E := env_of ev ∅.
Let search := SearchIssuesAndPullRequests (query_of ev) 1000.

(** The runs of the job on a merged pull request: the checkout fails; or
    the counting step fails after its search; or it exports [PR_COUNT]
    and the comment step sends its one request, which fails or not. *)
Lemma job_runs :
  (exists e, checkout_response w = inl e /\
     run_job w ev comment_on_merged_pull_request =
     (Failed, State ∅ [Fetch o r]))
  \/ (exists msg,
        checkout_response w = inr tt /\
        (exists e, run (count_merged_body (api w) E) = (inl e, [search])) /\
        run_job w ev comment_on_merged_pull_request =
        (Failed, State E [Fetch o r; Api search; Api (SetFailed msg)]))
  \/ (exists v,
        checkout_response w = inr tt /\
        run (count_merged_body (api w) E) =
          (inr tt, [search; ExportVariable "PR_COUNT" v]) /\
        let E' := <["PR_COUNT" := v]> E in
        let c := IssuesCreateComment (Some o) (Some r) n
                   (getMessage (Some a) (Some r) (math_random (api w))
                               (parseInt (Some v))) in
        ((exists e,
            create_comment_response (api w) (Some o) (Some r) n
              (getMessage (Some a) (Some r) (math_random (api w))
                          (parseInt (Some v))) = inl e /\
            run_job w ev comment_on_merged_pull_request =
            (Failed,
             State E' [Fetch o r; Api search;
                       Api (ExportVariable "PR_COUNT" v); Api c;
                       Api (SetFailed ("Error creating comment: "
                                       +:+ message e))]))
         \/ (create_comment_response (api w) (Some o) (Some r) n
              (getMessage (Some a) (Some r) (math_random (api w))
                          (parseInt (Some v))) = inr tt /\
             run_job w ev comment_on_merged_pull_request =
             (Succeeded,
              State E' [Fetch o r; Api search;
                        Api (ExportVariable "PR_COUNT" v); Api c])))).
Proof.
  subst search.
  unfold run_job. cbn [job_if steps comment_on_merged_pull_request].
  rewrite Hmerged. cbn [Bool.eqb run_steps].
  rewrite run_checkout_repository. cbn [env log initial app].
  destruct (checkout_response w) as [e|[]]; [left; by exists e|right].
  rewrite run_set_environment_variables by done. cbn [env log]. fold E.
  rewrite run_count_step. cbn [env log].
  rewrite count_merged_catch.
  pose proof (count_query_env_of ev ∅) as Hq. fold E in Hq.
  destruct (count_merged_body_cases (api w) E) as [[e He]|[v Hv]].
  - rewrite Hq in He.
    left. rewrite He.
    cbn [app existsb is_set_failed orb map exports foldl script_outcome fst snd].
    eexists. split; [done|]. split; [by exists e|]. reflexivity.
  - rewrite Hq in Hv.
    right. rewrite Hv.
    cbn [app existsb is_set_failed orb map exports foldl script_outcome fst snd].
    exists v. split; [done|]. split; [done|]. cbn zeta.
    rewrite run_comment_step. cbn [env log]. fold n.
    rewrite comment_catch.
    assert (<["PR_COUNT":=v]> E !! "OWNER" = Some o /\
            <["PR_COUNT":=v]> E !! "REPO" = Some r /\
            <["PR_COUNT":=v]> E !! "AUTHOR" = Some a /\
            <["PR_COUNT":=v]> E !! "PR_COUNT" = Some v) as (Ho & Hr & Ha & Hc).
    { unfold E, env_of. by simplify_map_eq. }
    unfold run, comment_body, issues_createComment.
    unfold mbind, script_bind, bind, emit, lift. cbn [app].
    rewrite Ho, Hr, Ha, Hc.
    destruct (create_comment_response _ _ _ _ _) as [e|[]].
    + left. exists e. split; [done|]. reflexivity.
    + right. split; [done|]. reflexivity.
Qed.

End JobRuns.

(** ** Messages *)

Ltac mention pre :=
  exists pre; eexists; rewrite string_app_assoc; reflexivity.


Lemma message_not_empty (e : option string) (rest : string) :
  tpl e +:+ String " " rest <> "".
Proof. by destruct (tpl e). Qed.

Lemma getMessage_not_empty author repo rnd count :
  getMessage author repo rnd count <> "".
Proof.
  unfold getMessage.
  repeat match goal with |- context [if ?b then _ else _] => destruct b end;
    apply message_not_empty.
Qed.

(** The seven templates differ at the first letter after the emoji. *)
Lemma messages_distinct emoji author repo count :
  NoDup [message_1 emoji author repo; message_2 emoji author;
         message_3 emoji author; message_5 emoji author repo;
         message_10 emoji author repo;
         message_above_10 emoji author repo count;
         message_default emoji author repo count].
Proof.
  repeat (apply NoDup_cons; split;
    [rewrite ?elem_of_cons, elem_of_nil; intros H;
     repeat (destruct H as [H|H]; [apply (inj (String.append _)) in H;
                                    discriminate H|]);
     exact H|]).
  apply NoDup_nil_2.
Qed.

(** ** The workflow *)

Lemma run_workflow_closed w ev :
  closed_pull_request ev ->
  run_workflow w ev notification_developers_onboarding =
  Some [(job_name, run_job w ev comment_on_merged_pull_request)].
Proof.
  intros [Hn Ha]. unfold run_workflow, triggered.
  cbn [on notification_developers_onboarding existsb jobs map].
  rewrite Hn, Ha. reflexivity.
Qed.

Lemma run_workflow_inv w ev results :
  run_workflow w ev notification_developers_onboarding = Some results ->
  results = [(job_name, run_job w ev comment_on_merged_pull_request)].
Proof.
  unfold run_workflow. destruct (triggered _ _); [|done].
  by intros [= <-].
Qed.

(** C7: the job carries the guard [merged == true]; on a closed pull
    request that was not merged the job is skipped: no step runs, nothing
    is logged, no comment is created. *)
Theorem unmerged_pull_request_gets_no_comment (w : runner_world) (ev : event) :
  closed_pull_request ev ->
  merged (pull_request ev) = false ->
  job_if comment_on_merged_pull_request ev =
    Bool.eqb (merged (pull_request ev)) true /\
  run_workflow w ev notification_developers_onboarding =
    Some [(job_name, (Skipped, State ∅ []))] /\
  effects w ev notification_developers_onboarding = [].
Proof.
  intros Hc Hm. split; [reflexivity|].
  assert (run_workflow w ev notification_developers_onboarding =
          Some [(job_name, (Skipped, State ∅ []))]) as Hr.
  { rewrite run_workflow_closed by done. by rewrite run_job_skipped. }
  split; [done|]. unfold effects. by rewrite Hr.
Qed.

(** C1: on a closed and merged pull request, once the checkout succeeded,
    the counting step sends the search for the closed pull requests of the
    author in the repository of the event, and when the search returns
    items, [PR_COUNT] is exported as the number of those whose
    [pull_request.merged_at] is set. *)
Theorem pr_count_is_number_of_merged_items
    (w : runner_world) (ev : event) (items : list item) :
  closed_pull_request ev ->
  merged (pull_request ev) = true ->
  well_formed ev = true ->
  checkout_response w = inr tt ->
  search_response (api w) (query_of ev) 1000 = inr items ->
  Forall pr_item items ->
  exists c st,
    run_workflow w ev notification_developers_onboarding =
      Some [(job_name, (c, st))] /\
    Api (SearchIssuesAndPullRequests (query_of ev) 1000) ∈ log st /\
    Api (ExportVariable "PR_COUNT"
           (number_to_string
              (Num (Z.of_nat (length (filter merged_at_set items))))))
      ∈ log st /\
    parseInt (env st !! "PR_COUNT") =
      Num (Z.of_nat (length (filter merged_at_set items))).
Proof.
  intros Hc Hm Hwf Hco Hs Hi.
  rewrite run_workflow_closed by done.
  pose proof (count_merged_body_ok (api w) (env_of ev ∅) items) as Hok.
  rewrite count_query_env_of in Hok. specialize (Hok Hs Hi).
  destruct (job_runs w ev Hwf Hm) as [(e & He & _)|[(msg & _ & (e & He) & _)|H]].
  - congruence.
  - rewrite Hok in He. discriminate He.
  - destruct H as (v & _ & Hv & H). cbn zeta in H.
    rewrite Hok in Hv. injection Hv as <-.
    destruct H as [(e & _ & ->)|(_ & ->)]; do 2 eexists;
      (split; [reflexivity|]); cbn [log env];
      (split; [set_solver|]); (split; [set_solver|]);
      rewrite lookup_insert_eq; apply parseInt_number_to_string.
Qed.


(** C6: the permissions of the workflow are [pull-requests: write] alone,
    and of all it does in a run only one request changes anything on
    GitHub: the comment on the pull request of the event. *)
Theorem only_mutation_is_the_comment (w : runner_world) (ev : event) :
  well_formed ev = true ->
  permissions notification_developers_onboarding =
    [("pull-requests", AccessWrite)] /\
  (filter mutates (effects w ev notification_developers_onboarding) = [] \/
   exists body,
     filter mutates (effects w ev notification_developers_onboarding) =
       [Api (IssuesCreateComment (Some (owner_login (repository ev)))
                                 (Some (repo_name (repository ev)))
                                 (number (pull_request ev)) body)]).
Proof.
  intros Hwf. split; [reflexivity|]. unfold effects.
  destruct (run_workflow _ _ _) as [results|] eqn:Hr; [|by left].
  apply run_workflow_inv in Hr as ->. cbn [flat_map snd]. rewrite app_nil_r.
  destruct (merged (pull_request ev)) eqn:Hm;
    [|rewrite run_job_skipped by done; by left].
  destruct (job_runs w ev Hwf Hm)
    as [(e & _ & ->)|[(msg & _ & _ & ->)|(v & _ & _ & H)]];
    [by left..|].
  cbn zeta in H. destruct H as [(e & _ & ->)|(_ & ->)]; right; by eexists.
Qed.

(** C4: no error leaves either script; when the try block of a script
    throws, the script has sent one request and none again, and ends with
    [core.setFailed] on a message that holds the message of the error. *)
Theorem script_steps_report_failure
    (w : world) (env : gmap string string) (prNumber : Z) :
  (run (count_merged_pull_requests w env)).1 = inr tt /\
  (run (comment_on_the_merged_pull_request w env prNumber)).1 = inr tt /\
  (forall e l,
     run (count_merged_body w env) = (inl e, l) ->
     run (count_merged_pull_requests w env) =
       (inr tt,
        l ++ [SetFailed ("Error counting merged pull requests: "
                         +:+ message e)]) /\
     length (filter is_request l) = 1%nat) /\
  (forall e l,
     run (comment_body w env prNumber) = (inl e, l) ->
     run (comment_on_the_merged_pull_request w env prNumber) =
       (inr tt, l ++ [SetFailed ("Error creating comment: " +:+ message e)]) /\
     length (filter is_request l) = 1%nat).
Proof.
  rewrite count_merged_catch, comment_catch.
  destruct (count_merged_body_cases w env) as [[e1 H1]|[v H1]];
    destruct (comment_body_cases w env prNumber) as [[e2 H2]|H2];
    cbn zeta in H2; rewrite H1, H2; cbn [fst];
    (split; [done|]); (split; [done|]);
    split; intros e l [= <- <-]; split; reflexivity.
Qed.

Lemma script_steps_report_failure_witness :
  let w := {| search_response := fun _ _ => inl (Error "API rate limit exceeded");
              create_comment_response := fun _ _ _ _ => inl (Error "Not Found");
              math_random := S754_zero false |} in
  let env : gmap string string :=
    <["OWNER" := "Classiq"]> (<["REPO" := "classiq-library"]>
      (<["AUTHOR" := "octocat"]> (<["PR_COUNT" := "4"]> ∅))) in
  run (count_merged_pull_requests w env) =
    (inr tt,
     [SearchIssuesAndPullRequests
        "repo:Classiq/classiq-library type:pr state:closed author:octocat" 1000;
      SetFailed "Error counting merged pull requests: API rate limit exceeded"])
  /\ (run (comment_on_the_merged_pull_request w env 17)).2 =
     [IssuesCreateComment (Some "Classiq") (Some "classiq-library") 17
        (getMessage (Some "octocat") (Some "classiq-library")
                    (S754_zero false) (Num 4));
      SetFailed "Error creating comment: Not Found"].
Proof.
  intros w env.
  destruct (script_steps_report_failure w env 17) as (_ & _ & Hcount & Hcomment).
  split.
  - apply (Hcount (Error "API rate limit exceeded")
             [SearchIssuesAndPullRequests
                "repo:Classiq/classiq-library type:pr state:closed author:octocat"
                1000]).
    vm_compute. reflexivity.
  - destruct (Hcomment (Error "Not Found")
                [IssuesCreateComment (Some "Classiq") (Some "classiq-library") 17
                   (getMessage (Some "octocat") (Some "classiq-library")
                               (S754_zero false) (Num 4))]) as [-> _].
    + vm_compute. reflexivity.
    + reflexivity.
Defined.

(** C8: [getMessage] is total; 1, 2, 3, 5 and 10 have a message each,
    every count above 10 has the message of [count > 10], and every other
    number, [NaN] included, has the default one; the seven messages differ
    from one another and none is empty.  [NaN] is what [parseInt] gives
    when [PR_COUNT] is not set. *)
Theorem getMessage_milestones
    (author repo : option string) (random : Double.t) (count : Number) :
  let emoji := getRandomEmoji random in
  let msg := getMessage author repo random count in
  (count = Num 1 -> msg = message_1 emoji author repo) /\
  (count = Num 2 -> msg = message_2 emoji author) /\
  (count = Num 3 -> msg = message_3 emoji author) /\
  (count = Num 5 -> msg = message_5 emoji author repo) /\
  (count = Num 10 -> msg = message_10 emoji author repo) /\
  (forall z, count = Num z -> 10 < z ->
     msg = message_above_10 emoji author repo count) /\
  (count = NaN \/
   (exists z, count = Num z /\ z <= 10 /\
              z <> 1 /\ z <> 2 /\ z <> 3 /\ z <> 5 /\ z <> 10) ->
   msg = message_default emoji author repo count) /\
  NoDup [message_1 emoji author repo; message_2 emoji author;
         message_3 emoji author; message_5 emoji author repo;
         message_10 emoji author repo;
         message_above_10 emoji author repo count;
         message_default emoji author repo count] /\
  msg <> "" /\
  parseInt None = NaN.
Proof.
  intros emoji msg.
  repeat (split; [by intros ->|]).
  split.
  { intros z -> Hz. subst msg. unfold getMessage. cbn [strict_eq gt].
    repeat match goal with
           | |- context [(?x =? ?y)%Z] =>
               destruct (Z.eqb_spec x y) as [?|?]; [lia|]
           end.
    destruct (Z.ltb_spec 10 z); [reflexivity|lia]. }
  split.
  { intros [->|(z & -> & Hle & H1 & H2 & H3 & H5 & H10)]; [reflexivity|].
    subst msg. unfold getMessage. cbn [strict_eq gt].
    repeat match goal with
           | |- context [(?x =? ?y)%Z] =>
               destruct (Z.eqb_spec x y) as [?|?]; [done|]
           end.
    destruct (Z.ltb_spec 10 z); [lia|reflexivity]. }
  split; [apply messages_distinct|].
  split; [apply getMessage_not_empty | reflexivity].
Qed.

Lemma getMessage_milestones_witness :
  getMessage (Some "octocat") (Some "classiq-library") sample_random
             (Num 11) =
    message_above_10 (Some "👏") (Some "octocat") (Some "classiq-library")
                     (Num 11) /\
  getMessage (Some "octocat") (Some "classiq-library") sample_random
             (parseInt None) =
    message_default (Some "👏") (Some "octocat") (Some "classiq-library") NaN /\
  getMessage (Some "octocat") (Some "classiq-library") sample_random
             (Num 4) =
    message_default (Some "👏") (Some "octocat") (Some "classiq-library")
                    (Num 4).
Proof.
  split; [|split].
  - destruct (getMessage_milestones (Some "octocat") (Some "classiq-library")
                sample_random (Num 11)) as (_ & _ & _ & _ & _ & H & _).
    apply (H 11); [reflexivity | lia].
  - destruct (getMessage_milestones (Some "octocat") (Some "classiq-library")
                sample_random (parseInt None))
      as (_ & _ & _ & _ & _ & _ & H & _).
    apply H. left. reflexivity.
  - destruct (getMessage_milestones (Some "octocat") (Some "classiq-library")
                sample_random (Num 4)) as (_ & _ & _ & _ & _ & _ & H & _).
    apply H. right. exists 4. repeat split; lia.
Defined.

Lemma unmerged_pull_request_gets_no_comment_witness :
  run_workflow sample_world (sample_event false)
    notification_developers_onboarding =
    Some [(job_name, (Skipped, State ∅ []))] /\
  effects sample_world (sample_event false)
    notification_developers_onboarding = [].
Proof.
  destruct (unmerged_pull_request_gets_no_comment
              sample_world (sample_event false)) as (_ & Hrun & Heff).
  - split; reflexivity.
  - reflexivity.
  - split; [exact Hrun | exact Heff].
Defined.

Lemma pr_count_is_number_of_merged_items_witness :
  exists c st,
    run_workflow sample_world (sample_event true)
      notification_developers_onboarding = Some [(job_name, (c, st))] /\
    Api (ExportVariable "PR_COUNT" "2") ∈ log st /\
    parseInt (env st !! "PR_COUNT") = Num 2.
Proof.
  destruct (pr_count_is_number_of_merged_items
              sample_world (sample_event true) sample_items)
    as (c & st & Hrun & _ & Hexport & Hcount).
  - split; reflexivity.
  - reflexivity.
  - vm_compute. reflexivity.
  - reflexivity.
  - vm_compute. reflexivity.
  - repeat constructor; eexists; (split; [reflexivity | discriminate]).
  - exists c, st. split; [exact Hrun|]. split; [exact Hexport | exact Hcount].
Defined.


Lemma only_mutation_is_the_comment_witness :
  permissions notification_developers_onboarding =
    [("pull-requests", AccessWrite)] /\
  (filter mutates (effects sample_world (sample_event true)
                     notification_developers_onboarding) = [] \/
   exists body,
     filter mutates (effects sample_world (sample_event true)
                       notification_developers_onboarding) =
       [Api (IssuesCreateComment (Some "Classiq") (Some "classiq-library") 17
                                 body)]).
Proof.
  apply (only_mutation_is_the_comment sample_world (sample_event true)).
  vm_compute. reflexivity.
Defined.

End WorkflowFacts.

Section QmodFacts.
Import Qmod.

(** ** The Qmod files *)

Lemma trees_match_texts :
  Forall (fun tf => tokenize tf.1 = file_tokens tf.2) repository_files.
Proof. repeat constructor; vm_compute; reflexivity. Qed.

(** C5, as amended: the text of each of the four Qmod files is that of its
    declarations, quantum structs, quantum functions and at most one
    [cscope] block, and such a block holds one execution directive and
    nothing else; the three models that notebooks write to Qmod files are
    one quantum function each, with the text of its Python function, and
    hold no [cscope] block.  In all seven one of the functions is [main],
    and the first statement of [main] that mentions a quantum variable
    initialises it, as [allocate], [prepare_state], [prepare_amplitudes] or
    a function with an [output] parameter does, as a bind [->] does for its
    targets, or as a numeric assignment [=] does for its target. *)
Theorem qmod_files_are_models :
  Forall (fun tf =>
            tokenize tf.1 = file_tokens tf.2 /\
            declares_main tf.2 = true /\
            check_main tf.2 true true = Some [] /\
            (length (List.filter is_cscope tf.2) <= 1)%nat /\
            Forall only_directs tf.2)
         repository_files /\
  Forall (fun nf =>
            python_tokens nf.2 = Some (tokenize (strip_comments nf.1 false)) /\
            declares_main nf.2 = true /\
            check_main nf.2 true true = Some [] /\
            List.filter is_cscope nf.2 = [])
         written_models.
Proof.
  assert (forall f, List.filter is_cscope f = [] -> Forall only_directs f)
    as Hnone.
  { intros f Hf. apply List.Forall_forall. intros d Hd code ->.
    assert (In (CScope code) (List.filter is_cscope f)) as Hin
      by (by apply filter_In).
    by rewrite Hf in Hin. }
  split.
  - repeat (apply List.Forall_cons;
            [split; [vm_compute; reflexivity|];
             split; [vm_compute; reflexivity|];
             split; [vm_compute; reflexivity|];
             split; [vm_compute; lia|]|]);
      try apply List.Forall_nil.
    1-3: apply Hnone; vm_compute; reflexivity.
    repeat (apply List.Forall_cons; [intros code Hd; try discriminate Hd|]);
      try apply List.Forall_nil.
    injection Hd as <-.
    exists (Directive "run" "sample" [("t", "4")]).
    split; vm_compute; reflexivity.
  - repeat (apply List.Forall_cons; [repeat split|]); try apply List.Forall_nil.
    all: vm_compute; reflexivity.
Qed.

(** C5, as stated, fails twice.  [main] of the third file hands its
    outputs [x_variable] and [y_variable] to no initialising call: they
    are still pending before its last statement, a bind, which is what
    initialises them.  And [main] of the model of [design.ipynb] hands its
    output [y] to no initialising call: it is still pending before its
    last statement, a numeric assignment, which is what initialises it. *)
Lemma bind_and_assignment_initialise_outputs_of_main :
  (In (unnamed_part_001_text, unnamed_part_001) repository_files /\
   check_main unnamed_part_001 false false = None /\
   check_main unnamed_part_001 false true = None /\
   exists ps body,
     find_qfunc unnamed_part_001 "main" = Some (ps, body) /\
     last body =
       Some (SBind (EVar "xy_variable")
                   [EVar "x_variable"; EVar "y_variable"]) /\
     check_block_with (check_stmt unnamed_part_001 false false)
       (removelast body) (param_name <$> List.filter is_output ps) =
       Some ["x_variable"; "y_variable"]) /\
  (In (design_source, design) written_models /\
   check_main design false false = None /\
   check_main design true false = None /\
   exists ps body,
     find_qfunc design "main" = Some (ps, body) /\
     last body =
       Some (SAssign (EVar "y")
                     (EBin "+" (EBin "**" (EVar "x") (ENum "2")) (ENum "1"))) /\
     check_block_with (check_stmt design false false)
       (removelast body) (param_name <$> List.filter is_output ps) =
       Some ["y"]).
Proof.
  split.
  - split; [right; right; left; reflexivity|].
    split; [vm_compute; reflexivity|].
    split; [vm_compute; reflexivity|].
    do 2 eexists. split; [reflexivity|].
    split; vm_compute; reflexivity.
  - split; [left; reflexivity|].
    split; [vm_compute; reflexivity|].
    split; [vm_compute; reflexivity|].
    do 2 eexists. split; [reflexivity|].
    split; vm_compute; reflexivity.
Qed.

End QmodFacts.

Section MoreHookFacts.
Import Re PreCommit Classifier.

(** ** More on the local hooks *)

Lemma elem_of_filenames_for_hook (h : hook) (names : list tagged) (f : tagged) :
  f ∈ filenames_for_hook h names <->
  f ∈ names /\ "file" ∈ tags f /\ triggers h (filename f) = true.
Proof.
  unfold filenames_for_hook. rewrite !list_elem_of_In, !filter_In.
  unfold by_types, default_types, default_types_or, default_exclude_types, has.
  cbn [forallb existsb]. rewrite !andb_true_r, andb_true_iff.
  assert (existsb (String.eqb "file") (tags f) = true <-> In "file" (tags f))
    as Hfile.
  { rewrite existsb_exists. split.
    - intros (t & Ht & Heq). apply String.eqb_eq in Heq. by subst t.
    - intros Ht. exists "file". split; [done|]. apply String.eqb_refl. }
  assert (negb (existsb (fun _ : string => false) (tags f)) = true) as Hnone.
  { clear Hfile. induction (tags f) as [|t ts IH]; [done|exact IH]. }
  rewrite Hfile, Hnone. tauto.
Qed.

(** X1: the three hooks with one extension are run on exactly the regular
    files whose name is a non-empty run of characters that are no white
    space, the extension, and at most one final line feed: the notebook
    hook and the test hook on the same files, those in [.ipynb], the Qmod
    hook on those in [.qmod].  A symbolic link or a directory of such a
    name is handed to no hook. *)
Theorem single_extension_hooks_trigger_exactly
    (names : list tagged) (f : tagged) :
  let regular ext :=
    f ∈ names /\ "file" ∈ tags f /\ run_then (chars_of ext) (filename f) in
  (f ∈ filenames_for_hook notebook_pre_commit names <-> regular ".ipynb") /\
  (f ∈ filenames_for_hook auto_add_tests names <-> regular ".ipynb") /\
  (f ∈ filenames_for_hook qmod_pre_commit names <-> regular ".qmod").
Proof.
  cbn zeta. rewrite !elem_of_filenames_for_hook.
  rewrite (triggers_ipynb notebook_pre_commit) by done.
  rewrite (triggers_ipynb auto_add_tests) by done.
  rewrite (triggers_qmod qmod_pre_commit) by done. tauto.
Qed.

(** X2: the timeouts hook is run on exactly the regular files of that
    shape with one of the three extensions, so that it is run on every
    file any other local hook is run on. *)
Theorem timeouts_hook_covers_the_other_hooks
    (h : hook) (names : list tagged) (f : tagged) :
  (f ∈ filenames_for_hook clean_demo_timeouts names <->
   f ∈ names /\ "file" ∈ tags f /\
   (run_then (chars_of ".qmod") (filename f) \/
    run_then (chars_of ".ipynb") (filename f) \/
    run_then (chars_of ".yaml") (filename f))) /\
  (h ∈ local_hooks pre_commit_config ->
   f ∈ filenames_for_hook h names ->
   f ∈ filenames_for_hook clean_demo_timeouts names).
Proof.
  rewrite !elem_of_filenames_for_hook.
  rewrite (triggers_timeouts clean_demo_timeouts) by done.
  split; [tauto|]. intros Hh (Hn & Hf & Ht).
  destruct (trigger_shapes h (filename f) Hh Ht) as (_ & _ & H). tauto.
Qed.

Lemma timeouts_hook_covers_the_other_hooks_witness :
  let model :=
    Tagged (chars_of "algorithms/qpe/qpe_for_matrix.qmod")
           ["file"; "non-executable"; "text"] in
  let link := Tagged (chars_of "latest.qmod") ["symlink"] in
  filenames_for_hook qmod_pre_commit [model; link] = [model] /\
  model ∈ filenames_for_hook clean_demo_timeouts [model; link].
Proof.
  intros model link.
  assert (filenames_for_hook qmod_pre_commit [model; link] = [model]) as Hq
    by (vm_compute; reflexivity).
  split; [exact Hq|].
  apply (timeouts_hook_covers_the_other_hooks qmod_pre_commit).
  - vm_compute. repeat constructor.
  - rewrite Hq. constructor.
Defined.

Lemma run_then_last (e : list char) (x : char) (p : list char) :
  x <> 10%N -> run_then (e ++ [x]) p ->
  exists q, p = q ++ [x] \/ p = q ++ [x; 10%N].
Proof.
  intros Hx (pre & tail & -> & _ & _ & [-> | ->]).
  - exists (pre ++ e). left. by rewrite app_nil_r, app_assoc.
  - exists (pre ++ e). right. by rewrite <- !app_assoc.
Qed.

(** X3: no path runs both the notebook hook and the Qmod hook. *)
Theorem notebook_and_qmod_hooks_are_disjoint (p : list char) :
  triggers notebook_pre_commit p = true ->
  triggers qmod_pre_commit p = false.
Proof.
  intros Hn. apply not_true_iff_false. intros Hq.
  apply triggers_ipynb in Hn; [|done]. apply triggers_qmod in Hq; [|done].
  apply (run_then_last (chars_of ".ipyn") 98%N) in Hn as [q1 H1]; [|done].
  apply (run_then_last (chars_of ".qmo") 100%N) in Hq as [q2 H2]; [|done].
  destruct H1 as [-> | ->], H2 as [H2|H2].
  - by apply app_inj_tail in H2 as [_ ?].
  - change [100%N; 10%N] with ([100%N] ++ [10%N]) in H2.
    rewrite app_assoc in H2. by apply app_inj_tail in H2 as [_ ?].
  - change [98%N; 10%N] with ([98%N] ++ [10%N]) in H2.
    rewrite app_assoc in H2. by apply app_inj_tail in H2 as [_ ?].
  - change [98%N; 10%N] with ([98%N] ++ [10%N]) in H2.
    change [100%N; 10%N] with ([100%N] ++ [10%N]) in H2.
    rewrite !app_assoc in H2. apply app_inj_tail in H2 as [H2 _].
    by apply app_inj_tail in H2 as [_ ?].
Qed.

Lemma notebook_and_qmod_hooks_are_disjoint_witness :
  triggers qmod_pre_commit
    (chars_of "tutorials/classiq_101/design/design.ipynb") = false.
Proof.
  apply notebook_and_qmod_hooks_are_disjoint. vm_compute. reflexivity.
Defined.

End MoreHookFacts.

Section MoreWorkflowFacts.
Import Js Script Actions.

(** ** More on the workflow *)

(** X4: the workflow runs for a [pull_request_target] event of type [closed]
    and for no other event. *)
Theorem workflow_runs_on_closed_pull_requests_only
    (w : runner_world) (ev : event) :
  (closed_pull_request ev <->
   is_Some (run_workflow w ev notification_developers_onboarding)) /\
  (~ closed_pull_request ev ->
   effects w ev notification_developers_onboarding = []).
Proof.
  assert (triggered notification_developers_onboarding ev = true
          <-> closed_pull_request ev) as Ht.
  { unfold triggered, closed_pull_request.
    cbn [on notification_developers_onboarding existsb].
    rewrite !orb_false_r, andb_true_iff, !String.eqb_eq.
    split; intros [H1 H2]; split; congruence. }
  unfold effects, run_workflow.
  destruct (triggered _ _) eqn:E.
  - split; [|intros H; destruct H; by apply Ht].
    split; [by eexists | intros _; by apply Ht].
  - split; [|done]. split.
    + intros H. apply Ht in H. discriminate H.
    + intros [? [=]].
Qed.

Lemma workflow_runs_on_closed_pull_requests_only_witness :
  let opened :=
    {| event_name := "pull_request_target"; action := "opened";
       pull_request := pull_request (sample_event true);
       repository := repository (sample_event true) |} in
  is_Some (run_workflow sample_world (sample_event true)
             notification_developers_onboarding) /\
  effects sample_world opened notification_developers_onboarding = [].
Proof.
  intros opened. split.
  - apply (workflow_runs_on_closed_pull_requests_only
             sample_world (sample_event true)).
    split; reflexivity.
  - apply (workflow_runs_on_closed_pull_requests_only sample_world opened).
    intros [_ H]. vm_compute in H. discriminate H.
Defined.

(** X5: for an event whose names hold no line break, "Set Environment
    Variables" succeeds, sets [AUTHOR], [REPO] and [OWNER] to the login of
    the author, the name of the repository and the login of its owner,
    leaves every other variable as it was and logs nothing. *)
Theorem environment_step_sets_three_variables
    (w : runner_world) (ev : event) (st : state) :
  well_formed ev = true ->
  exists st',
    run_step w ev set_environment_variables st = (Success, st') /\
    env st' !! "AUTHOR" = Some (user_login (pull_request ev)) /\
    env st' !! "REPO" = Some (repo_name (repository ev)) /\
    env st' !! "OWNER" = Some (owner_login (repository ev)) /\
    (forall k, k <> "AUTHOR" -> k <> "REPO" -> k <> "OWNER" ->
               env st' !! k = env st !! k) /\
    log st' = log st.
Proof.
  intros Hwf. eexists. split; [by apply run_set_environment_variables|].
  cbn [env log]. destruct (env_of_lookups ev (env st)) as (Ho & Hr & Ha).
  repeat (split; [done|]). split; [|done].
  intros k H1 H2 H3. unfold env_of. by rewrite !lookup_insert_ne.
Qed.

Lemma environment_step_sets_three_variables_witness :
  exists st',
    run_step sample_world (sample_event true) set_environment_variables
             (State (<["PR_COUNT" := "3"]> ∅) []) = (Success, st') /\
    env st' !! "AUTHOR" = Some "octocat" /\
    env st' !! "PR_COUNT" = Some "3".
Proof.
  destruct (environment_step_sets_three_variables sample_world
              (sample_event true) (State (<["PR_COUNT" := "3"]> ∅) []))
    as (st' & Hrun & Ha & _ & _ & Hframe & _).
  - vm_compute. reflexivity.
  - exists st'. split; [exact Hrun|]. split; [exact Ha|].
    rewrite Hframe by discriminate. reflexivity.
Defined.

Lemma run_job_checkout_ok (w : runner_world) (ev : event) :
  merged (pull_request ev) = true ->
  well_formed ev = true ->
  checkout_response w = inr tt ->
  run_job w ev comment_on_merged_pull_request =
  match run_steps w ev [count_step; comment_step]
          (State (env_of ev ∅)
                 [Fetch (owner_login (repository ev))
                        (repo_name (repository ev))]) with
  | (Success, st) => (Succeeded, st)
  | (Failure, st) => (Failed, st)
  end.
Proof.
  intros Hm Hwf Hc. unfold run_job.
  cbn [job_if steps comment_on_merged_pull_request]. rewrite Hm.
  cbn [Bool.eqb run_steps]. rewrite run_checkout_repository, Hc.
  cbn [env log initial app].
  by rewrite run_set_environment_variables.
Qed.

Lemma run_count_step_throws (w : runner_world) (ev : event) (st : state) e l :
  run (count_merged_body (api w) (env st)) = (inl e, l) ->
  exports l (env st) = env st ->
  run_step w ev count_step st =
  (Failure,
   State (env st)
         (log st ++ map Api
            (l ++ [SetFailed ("Error counting merged pull requests: "
                              +:+ message e)]))).
Proof.
  intros Hb Hx. rewrite run_count_step, count_merged_catch, Hb.
  cbn zeta. cbn [fst snd script_outcome].
  rewrite existsb_app. cbn [existsb is_set_failed]. rewrite orb_true_r.
  f_equal. f_equal. unfold exports in *. rewrite foldl_app. cbn [foldl].
  exact Hx.
Qed.

Lemma count_merged_body_search_fails (w : world) (env : gmap string string) e :
  search_response w (count_query env) 1000 = inl e ->
  run (count_merged_body w env) =
  (inl e, [SearchIssuesAndPullRequests (count_query env) 1000]).
Proof.
  intros Hs.
  unfold run, count_merged_body, search_issuesAndPullRequests.
  fold (count_query env).
  unfold mbind, script_bind, bind, emit, lift. cbn [app]. by rewrite Hs.
Qed.

(** X6: when the search fails, the counting step reports it through
    [core.setFailed], the job fails, [PR_COUNT] is not exported and the
    comment step does not run: no comment request is sent. *)
Theorem failed_search_posts_no_comment
    (w : runner_world) (ev : event) (e : error) :
  closed_pull_request ev ->
  merged (pull_request ev) = true ->
  well_formed ev = true ->
  checkout_response w = inr tt ->
  search_response (api w) (query_of ev) 1000 = inl e ->
  run_workflow w ev notification_developers_onboarding =
  Some [(job_name,
         (Failed,
          State (env_of ev ∅)
            [Fetch (owner_login (repository ev)) (repo_name (repository ev));
             Api (SearchIssuesAndPullRequests (query_of ev) 1000);
             Api (SetFailed ("Error counting merged pull requests: "
                             +:+ message e))]))].
Proof.
  intros Hc Hm Hwf Hco Hs.
  rewrite run_workflow_closed by done.
  rewrite run_job_checkout_ok by done. cbn [run_steps].
  rewrite <- (count_query_env_of ev ∅) in Hs.
  rewrite (run_count_step_throws w ev _ e
             [SearchIssuesAndPullRequests (count_query (env_of ev ∅)) 1000]).
  - cbn [env log app map]. by rewrite count_query_env_of.
  - by apply count_merged_body_search_fails.
  - reflexivity.
Qed.

Lemma failed_search_posts_no_comment_witness :
  let w := {| api := {| search_response := fun _ _ => inl (Error "Bad credentials");
                        create_comment_response := fun _ _ _ _ => inr tt;
                        math_random := S754_zero false |};
              checkout_response := inr tt |} in
  filter mutates (effects w (sample_event true)
                    notification_developers_onboarding) = [].
Proof.
  intros w. unfold effects.
  rewrite (failed_search_posts_no_comment w (sample_event true)
             (Error "Bad credentials")).
  - reflexivity.
  - split; reflexivity.
  - reflexivity.
  - vm_compute. reflexivity.
  - reflexivity.
  - reflexivity.
Defined.

Lemma filter_merged_throws (items : list item) (l : list call) :
  Exists (fun it => Script.pull_request it = None) items ->
  exists e, filter_merged items l = (inl e, l).
Proof.
  induction items as [|it items IH]; intros H; [by apply Exists_nil in H|].
  cbn [filter_merged]. destruct (Script.pull_request it) eqn:E.
  - apply Exists_cons in H as [H|H]; [congruence|].
    destruct (IH H) as [e He]. exists e.
    unfold mbind, script_bind, bind. by rewrite He.
  - by eexists.
Qed.

(** X7: when the search returns an item that is no pull request, one with
    no [pull_request] key, the filter of the counting step throws; the
    step reports it, the job fails, and neither [PR_COUNT] nor a comment
    follows. *)
Theorem issue_among_items_fails_the_count
    (w : runner_world) (ev : event) (items : list item) :
  closed_pull_request ev ->
  merged (pull_request ev) = true ->
  well_formed ev = true ->
  checkout_response w = inr tt ->
  search_response (api w) (query_of ev) 1000 = inr items ->
  Exists (fun it => Script.pull_request it = None) items ->
  exists msg,
    run_workflow w ev notification_developers_onboarding =
    Some [(job_name,
           (Failed,
            State (env_of ev ∅)
              [Fetch (owner_login (repository ev)) (repo_name (repository ev));
               Api (SearchIssuesAndPullRequests (query_of ev) 1000);
               Api (SetFailed ("Error counting merged pull requests: "
                               +:+ msg))]))].
Proof.
  intros Hc Hm Hwf Hco Hs Hi.
  rewrite run_workflow_closed by done.
  rewrite run_job_checkout_ok by done. cbn [run_steps].
  rewrite <- (count_query_env_of ev ∅) in Hs.
  destruct (filter_merged_throws items
              [SearchIssuesAndPullRequests (count_query (env_of ev ∅)) 1000] Hi)
    as [e He].
  exists (message e).
  rewrite (run_count_step_throws w ev _ e
             [SearchIssuesAndPullRequests (count_query (env_of ev ∅)) 1000]).
  - cbn [env log app map]. by rewrite count_query_env_of.
  - cbn [env].
    unfold run, count_merged_body, search_issuesAndPullRequests.
    fold (count_query (env_of ev ∅)).
    unfold mbind, script_bind, bind, emit, lift. cbn [app].
    rewrite Hs. unfold ret. by rewrite He.
  - reflexivity.
Qed.

Lemma issue_among_items_fails_the_count_witness :
  let w := {| api := {| search_response := fun _ _ =>
                          inr [sample_item None; {| Script.pull_request := None |}];
                        create_comment_response := fun _ _ _ _ => inr tt;
                        math_random := S754_zero false |};
              checkout_response := inr tt |} in
  exists st,
    run_workflow w (sample_event true) notification_developers_onboarding =
      Some [(job_name, (Failed, st))] /\
    env st !! "PR_COUNT" = None.
Proof.
  intros w.
  destruct (issue_among_items_fails_the_count w (sample_event true)
              [sample_item None; {| Script.pull_request := None |}])
    as [msg Hrun].
  - split; reflexivity.
  - reflexivity.
  - vm_compute. reflexivity.
  - reflexivity.
  - reflexivity.
  - right. left. reflexivity.
  - eexists. split; [exact Hrun|]. vm_compute. reflexivity.
Defined.

(** X8: when the checkout fails the job fails at once: the fetch is its
    only effect, no variable is set and no request is sent. *)
Theorem failed_checkout_stops_the_job
    (w : runner_world) (ev : event) (e : error) :
  closed_pull_request ev ->
  merged (pull_request ev) = true ->
  checkout_response w = inl e ->
  run_workflow w ev notification_developers_onboarding =
  Some [(job_name,
         (Failed,
          State ∅ [Fetch (owner_login (repository ev))
                         (repo_name (repository ev))]))].
Proof.
  intros Hc Hm Hco. rewrite run_workflow_closed by done.
  unfold run_job. cbn [job_if steps comment_on_merged_pull_request].
  rewrite Hm. cbn [Bool.eqb run_steps].
  by rewrite run_checkout_repository, Hco.
Qed.

Lemma failed_checkout_stops_the_job_witness :
  let w := {| api := api sample_world;
              checkout_response := inl (Error "repository not found") |} in
  effects w (sample_event true) notification_developers_onboarding =
  [Fetch "Classiq" "classiq-library"].
Proof.
  intros w. unfold effects.
  rewrite (failed_checkout_stops_the_job w (sample_event true)
             (Error "repository not found")).
  - reflexivity.
  - split; reflexivity.
  - reflexivity.
  - reflexivity.
Defined.

(** X9: end to end.  On a merged pull request, when the checkout succeeds,
    the search returns pull requests and the comment is accepted, the job
    succeeds and its effects are, in this order, the fetch, the search,
    the export of the count and one comment; the comment is the message of
    [getMessage] for the number of returned items that were merged. *)
Theorem merged_pull_request_is_congratulated
    (w : runner_world) (ev : event) (items : list item) :
  closed_pull_request ev ->
  merged (pull_request ev) = true ->
  well_formed ev = true ->
  checkout_response w = inr tt ->
  search_response (api w) (query_of ev) 1000 = inr items ->
  Forall pr_item items ->
  (forall body,
     create_comment_response (api w)
       (Some (owner_login (repository ev)))
       (Some (repo_name (repository ev)))
       (number (pull_request ev)) body = inr tt) ->
  let count := Num (Z.of_nat (length (filter merged_at_set items))) in
  run_workflow w ev notification_developers_onboarding =
  Some [(job_name,
         (Succeeded,
          State (<["PR_COUNT" := number_to_string count]> (env_of ev ∅))
            [Fetch (owner_login (repository ev)) (repo_name (repository ev));
             Api (SearchIssuesAndPullRequests (query_of ev) 1000);
             Api (ExportVariable "PR_COUNT" (number_to_string count));
             Api (IssuesCreateComment
                    (Some (owner_login (repository ev)))
                    (Some (repo_name (repository ev)))
                    (number (pull_request ev))
                    (getMessage (Some (user_login (pull_request ev)))
                                (Some (repo_name (repository ev)))
                                (math_random (api w)) count))]))].
Proof.
  intros Hc Hm Hwf Hco Hs Hi Hcomment count.
  rewrite run_workflow_closed by done.
  pose proof (count_merged_body_ok (api w) (env_of ev ∅) items) as Hok.
  rewrite count_query_env_of in Hok. specialize (Hok Hs Hi).
  destruct (job_runs w ev Hwf Hm) as [(e & He & _)|[(msg & _ & (e & He) & _)|H]].
  - congruence.
  - rewrite Hok in He. discriminate He.
  - destruct H as (v & _ & Hv & H). cbn zeta in H.
    rewrite Hok in Hv.
    assert (v = number_to_string count) as -> by (by injection Hv).
    subst count. rewrite parseInt_number_to_string in H.
    destruct H as [(e & He & _)|(_ & ->)]; [|reflexivity].
    rewrite Hcomment in He. discriminate He.
Qed.

Lemma merged_pull_request_is_congratulated_witness :
  exists st,
    run_workflow sample_world (sample_event true)
      notification_developers_onboarding =
      Some [(job_name, (Succeeded, st))] /\
    filter mutates (log st) =
      [Api (IssuesCreateComment (Some "Classiq") (Some "classiq-library") 17
              (message_2 (Some "👏") (Some "octocat")))].
Proof.
  eexists. split.
  - apply (merged_pull_request_is_congratulated
             sample_world (sample_event true) sample_items).
    + split; reflexivity.
    + reflexivity.
    + vm_compute. reflexivity.
    + reflexivity.
    + vm_compute. reflexivity.
    + repeat constructor; eexists; (split; [reflexivity | discriminate]).
    + reflexivity.
  - vm_compute. reflexivity.
Defined.

(** X10: whatever the API answers, each script sends exactly one request:
    the counting step its search, and no second page of it; the comment
    step its comment. *)
Theorem each_script_sends_one_request
    (w : world) (env : gmap string string) (prNumber : Z) :
  filter is_request (run (count_merged_pull_requests w env)).2 =
    [SearchIssuesAndPullRequests (count_query env) 1000] /\
  filter is_request
    (run (comment_on_the_merged_pull_request w env prNumber)).2 =
    [IssuesCreateComment (env !! "OWNER") (env !! "REPO") prNumber
       (getMessage (env !! "AUTHOR") (env !! "REPO") (math_random w)
                   (parseInt (env !! "PR_COUNT")))].
Proof.
  rewrite count_merged_catch, comment_catch.
  destruct (count_merged_body_cases w env) as [[e1 H1]|[v H1]];
    destruct (comment_body_cases w env prNumber) as [[e2 H2]|H2];
    cbn zeta in H2; rewrite H1, H2; split; reflexivity.
Qed.

(** *** Doubles: what rounding keeps of a product *)

(** The number of binary digits of a mantissa. *)
Lemma digits2_pos_bounds (m : positive) :
  2 ^ (Zpos (digits2_pos m) - 1) <= Zpos m < 2 ^ Zpos (digits2_pos m).
Proof.
  induction m as [m IH|m IH|]; cbn [digits2_pos]; [| |done];
    rewrite Pos2Z.inj_succ;
    replace (Z.succ (Zpos (digits2_pos m)) - 1)
      with (Zpos (digits2_pos m) - 1 + 1) by lia;
    rewrite Z.pow_succ_r by lia; rewrite Z.pow_add_r by lia; lia.
Qed.

Lemma Zdigits2_le (M k : Z) :
  0 <= M -> 0 <= k -> M < 2 ^ k -> Zdigits2 M <= k.
Proof.
  intros HM Hk Hlt. destruct M as [|m|m]; cbn [Zdigits2]; [done| |lia].
  pose proof (digits2_pos_bounds m) as [Hl _].
  destruct (Z.le_gt_cases (Zpos (digits2_pos m)) k) as [|Hgt]; [done|].
  assert (2 ^ k <= 2 ^ (Zpos (digits2_pos m) - 1)); [|lia].
  apply Z.pow_le_mono_r; lia.
Qed.

Lemma shifted_shr_1 M k mrs :
  0 <= k -> shifted M k mrs -> shifted M (k + 1) (shr_1 mrs).
Proof.
  intros Hk (Hm & Hle & Hr). unfold shifted.
  rewrite Z.pow_add_r, Z.pow_1_r by lia.
  assert (0 < 2 ^ k) by (apply Z.pow_pos_nonneg; lia).
  destruct mrs as [m r s]. cbn [shr_m shr_r] in *.
  destruct m as [|[p|p|]|p]; cbn [shr_1 shr_m shr_r]; lia.
Qed.

Lemma shifted_iter_pos M (p : positive) : forall k mrs,
  0 <= k -> shifted M k mrs ->
  shifted M (k + Zpos p) (SpecFloat.iter_pos shr_1 p mrs).
Proof.
  induction p as [p IH|p IH|]; intros k mrs Hk H; cbn [SpecFloat.iter_pos].
  - replace (k + Zpos p~1) with (k + 1 + Zpos p + Zpos p) by lia.
    apply IH; [lia|]. apply IH; [lia|]. by apply shifted_shr_1.
  - replace (k + Zpos p~0) with (k + Zpos p + Zpos p) by lia.
    apply IH; [lia|]. by apply IH.
  - by apply shifted_shr_1.
Qed.

Lemma shifted_shr (m e n : Z) :
  0 <= m ->
  let '(mrs, e') := shr (shr_record_of_loc m loc_Exact) e n in
  e' = e + Z.max 0 n /\ shifted m (Z.max 0 n) mrs.
Proof.
  intros Hm. unfold shr.
  assert (shifted m 0 (shr_record_of_loc m loc_Exact)) as H0.
  { unfold shifted. cbn. split; [done|]. split; [lia|done]. }
  destruct n as [|p|p]; cbn [Z.max]; rewrite ?Z.add_0_r.
  - done.
  - replace (Z.max 0 (Zpos p)) with (0 + Zpos p) by lia.
    split; [lia|]. by apply shifted_iter_pos.
  - replace (Z.max 0 (Zneg p)) with 0 by lia. split; [lia|done].
Qed.

(** Rounding to nearest adds one only when the bit that left last was
    set. *)
Lemma round_nearest_even_bounds m r s :
  0 <= m ->
  let m' := round_nearest_even m (loc_of_shr_record (Build_shr_record m r s)) in
  m <= m' /\ m' <= m + (if r then 1 else 0).
Proof.
  intros Hm. destruct r, s; cbn; try lia. destruct (Z.even m); lia.
Qed.

(** The two roundings of [binary_round_aux] on an exact product: [k1]
    bits are shifted out and the rest is rounded to [M1], then [k2] more
    are when rounding carried into a new bit. *)
Lemma binary_round_aux_exact sx (M E : Z) :
  0 <= M ->
  let k1 := Z.max 0 (fexp Double.prec Double.emax (Zdigits2 M + E) - E) in
  exists M1 m2,
    let k2 := Z.max 0 (fexp Double.prec Double.emax (Zdigits2 M1 + (E + k1))
                       - (E + k1)) in
    0 <= M1 /\ 2 * (M1 * 2 ^ k1) <= 2 * M + 2 ^ k1 /\
    0 <= m2 /\ m2 * 2 ^ k2 <= M1 /\
    binary_round_aux Double.prec Double.emax sx M E loc_Exact =
      match m2 with
      | 0 => S754_zero sx
      | Zpos m =>
          if (E + k1 + k2 <=? Double.emax - Double.prec)%Z
          then S754_finite sx m (E + k1 + k2) else S754_infinity sx
      | Zneg _ => S754_nan
      end.
Proof.
  intros HM k1. unfold binary_round_aux, shr_fexp.
  pose proof (shifted_shr M E
                (fexp Double.prec Double.emax (Zdigits2 M + E) - E) HM) as H1.
  destruct (shr _ E _) as [mrs1 e1]. destruct H1 as [-> (Hm1 & Hle1 & Hr1)].
  fold k1 in Hle1, Hr1 |- *.
  destruct mrs1 as [m1 r1 s1]. cbn [shr_m shr_r] in *.
  pose proof (round_nearest_even_bounds m1 r1 s1 Hm1) as [Hlo Hhi].
  set (M1 := round_nearest_even m1 _) in *.
  assert (0 <= M1) as HM1 by lia.
  pose proof (shifted_shr M1 (E + k1)
                (fexp Double.prec Double.emax (Zdigits2 M1 + (E + k1))
                 - (E + k1)) HM1) as H2.
  destruct (shr _ (E + k1) _) as [mrs2 e2]. destruct H2 as [-> (Hm2 & Hle2 & _)].
  exists M1, (shr_m mrs2). cbn zeta.
  assert (0 < 2 ^ k1) by (apply Z.pow_pos_nonneg; lia).
  split; [done|]. split.
  { destruct r1; [specialize (Hr1 eq_refl)|]; nia. }
  split; [done|]. split; [done|].
  destruct (shr_m mrs2); reflexivity.
Qed.

(** The product of ten and a double below one, rounded, is below ten: the
    largest such double is [1 - 2 ^ -53], and ten times it lies nearer to
    the double before ten than to ten. *)
Lemma floor_mul_ten (m : positive) (e : Z) :
  Zpos m < 2 ^ 53 -> -1074 <= e <= -52 -> Zpos m < 2 ^ (- e) ->
  exists z,
    Double.floor (Double.mul (S754_finite false m e) (Double.of_nat 10)) =
      Some z /\
    0 <= z < 10.
Proof.
  intros Hm He Hlt.
  change (Double.of_nat 10) with (S754_finite false 5629499534213120 (-49)).
  unfold Double.mul, SFmul. cbn [xorb]. rewrite Pos2Z.inj_mul.
  set (M := Zpos m * 5629499534213120). set (E := e + -49).
  assert (0 <= M) as HM by lia.
  destruct (binary_round_aux_exact false M E HM)
    as (M1 & m2 & HM1 & Hle1 & Hm2 & Hle2 & ->).
  set (k1 := Z.max 0 (fexp Double.prec Double.emax (Zdigits2 M + E) - E)) in *.
  set (k2 := Z.max 0 (fexp Double.prec Double.emax (Zdigits2 M1 + (E + k1))
                      - (E + k1))) in *.
  assert (Zdigits2 M <= 106) as Hd.
  { apply Zdigits2_le; [done|lia|].
    change (2 ^ 106) with (2 ^ 53 * 2 ^ 53). subst M. nia. }
  assert (0 <= k1 <= 53) as Hk1.
  { subst k1 E. unfold fexp, emin, Double.prec, Double.emax. lia. }
  assert (0 < 2 ^ k1 <= 2 ^ 53) as Hp1.
  { split; [apply Z.pow_pos_nonneg; lia|apply Z.pow_le_mono_r; lia]. }
  assert (Zdigits2 M1 <= 107) as Hd1.
  { apply Zdigits2_le; [done|lia|].
    change (2 ^ 107) with (2 * (2 ^ 53 * 2 ^ 53)).
    change (2 ^ 53) with 9007199254740992 in *. subst M. nia. }
  assert (0 <= k2 /\ E + k1 + k2 <= 6) as Hk2.
  { subst k2 E. unfold fexp, emin, Double.prec, Double.emax. lia. }
  assert (0 < 2 ^ k2) as Hp2 by (apply Z.pow_pos_nonneg; lia).
  set (a := - e) in *.
  assert (0 < 2 ^ a) as Hpa by (apply Z.pow_pos_nonneg; lia).
  assert (m2 * 2 ^ (k1 + k2) < 10 * 2 ^ (a + 49)) as Hb.
  { rewrite !Z.pow_add_r by lia.
    change (2 ^ 49) with 562949953421312.
    change (2 ^ 53) with 9007199254740992 in *. subst M. nia. }
  destruct m2 as [|p|p]; [| |lia].
  { exists 0. done. }
  destruct (Z.leb_spec (E + k1 + k2) (Double.emax - Double.prec)) as [_|Hbad];
    [|unfold Double.emax, Double.prec in Hbad; lia].
  cbn [Double.floor cond_Zopp]. eexists. split; [reflexivity|].
  set (e2 := E + k1 + k2) in *.
  destruct (Z.le_gt_cases 0 e2) as [Hpos|Hneg].
  - rewrite Z.shiftl_mul_pow2 by done.
    assert (0 < 2 ^ e2) by (apply Z.pow_pos_nonneg; lia).
    split; [lia|].
    replace (k1 + k2) with (e2 + (a + 49)) in Hb by (subst e2 E a; lia).
    rewrite (Z.pow_add_r 2 e2) in Hb by lia.
    assert (0 < 2 ^ (a + 49)) by (apply Z.pow_pos_nonneg; lia).
    apply (Z.mul_lt_mono_pos_r (2 ^ (a + 49))); [done|]. lia.
  - rewrite Z.shiftl_div_pow2 by lia.
    assert (0 < 2 ^ (- e2)) by (apply Z.pow_pos_nonneg; lia).
    split; [apply Z.div_pos; lia|].
    apply Z.div_lt_upper_bound; [done|].
    replace (a + 49) with (- e2 + (k1 + k2)) in Hb by (subst e2 E a; lia).
    rewrite (Z.pow_add_r 2 (- e2)) in Hb by lia.
    assert (0 < 2 ^ (k1 + k2)) by (apply Z.pow_pos_nonneg; lia).
    apply (Z.mul_lt_mono_pos_r (2 ^ (k1 + k2))); [done|]. lia.
Qed.

(** What [Math.random] returns is a zero, or a mantissa of at most 53 bits
    at an exponent that keeps it below one. *)
Lemma is_random_cases (x : Double.t) :
  Double.is_random x = true ->
  (exists s, x = S754_zero s) \/
  exists m e, x = S754_finite false m e /\
              Zpos m < 2 ^ 53 /\ -1074 <= e <= -52 /\ Zpos m < 2 ^ (- e).
Proof.
  unfold Double.is_random. intros H.
  apply andb_prop in H as [H H1]. apply andb_prop in H as [Hv H0].
  destruct x as [s|s| |s m e]; [by left; exists s|..].
  - by destruct s.
  - done.
  - right. destruct s; [done|]. exists m, e. split; [done|].
    change (Double.of_nat 1)
      with (S754_finite false 4503599627370496 (-52)) in H1.
    unfold valid_binary, bounded, canonical_mantissa in Hv.
    apply andb_prop in Hv as [Hc _]. apply Z.eqb_eq in Hc.
    unfold fexp, emin, Double.prec, Double.emax in Hc.
    pose proof (digits2_pos_bounds m) as [_ Hd].
    assert (Zpos (digits2_pos m) <= 53) as Hd53 by lia.
    assert (2 ^ Zpos (digits2_pos m) <= 2 ^ 53) as Hp
      by (apply Z.pow_le_mono_r; lia).
    split; [lia|].
    unfold SFltb, SFcompare in H1.
    destruct (Z.compare_spec e (-52)) as [->|Hlt|Hgt]; [| |done].
    + split; [lia|]. change (2 ^ (- -52)) with 4503599627370496.
      by destruct (Pos.compare_cont Eq m 4503599627370496) eqn:Hcmp.
    + split; [lia|].
      assert (2 ^ 53 <= 2 ^ (- e)) by (apply Z.pow_le_mono_r; lia). lia.
Qed.

(** [Math.floor(0.7 * 10)] is 7 and not 6: the double written [0.7] is
    below 7/10, and ten times it lies half way between 7 and the double
    before 7, of which 7 has the even mantissa. *)
Lemma getRandomEmoji_rounds_the_product :
  getRandomEmoji sample_random = emojis !! 7%nat.
Proof. vm_compute. reflexivity. Qed.

(** X11: [Math.random] returns a double from 0 up to but not including 1;
    for every such double [getRandomEmoji] returns one of the ten emojis,
    and never [undefined]: the product with ten, rounded to a double as
    JavaScript rounds it, stays below ten. *)
Theorem getRandomEmoji_in_emojis (random : Double.t) :
  Double.is_random random = true ->
  exists emoji, getRandomEmoji random = Some emoji /\ emoji ∈ emojis.
Proof.
  intros Hr. unfold getRandomEmoji.
  change (length emojis) with 10%nat.
  assert (exists z, Double.floor (Double.mul random (Double.of_nat 10)) = Some z
                    /\ 0 <= z < 10)
    as (z & -> & Hz).
  { destruct (is_random_cases random Hr)
      as [[s ->]|(m & e & -> & Hm & He & Hlt)].
    - exists 0. split; [reflexivity|lia].
    - by apply floor_mul_ten. }
  cbn [mbind option_bind]. unfold index.
  destruct (Z.ltb_spec z 0) as [?|_]; [lia|].
  destruct (lookup_lt_is_Some_2 emojis (Z.to_nat z)) as [emoji He].
  { change (length emojis) with 10%nat. lia. }
  exists emoji. split; [done|]. by eapply list_elem_of_lookup_2.
Qed.

(** At the largest double below one, [1 - 2 ^ -53]. *)
Lemma getRandomEmoji_in_emojis_witness :
  exists emoji,
    getRandomEmoji (S754_finite false 9007199254740991 (-53)) = Some emoji /\
    emoji ∈ emojis.
Proof. apply getRandomEmoji_in_emojis. vm_compute. reflexivity. Defined.

(** X12: for every count that is no milestone the message names the count
    with the suffix [th], whatever its last digit, and for [NaN] too. *)
Theorem other_counts_get_the_suffix_th
    (author repo : option string) (random : Double.t) (count : Number) :
  is_milestone count = false ->
  holds (number_to_string count +:+ "th PR!")
        (getMessage author repo random count).
Proof.
  unfold is_milestone. cbn [existsb]. rewrite !orb_false_iff.
  intros (H1 & H2 & H3 & H5 & H10 & _).
  unfold getMessage. rewrite H1, H2, H3, H5, H10.
  set (emoji := getRandomEmoji random).
  destruct (gt count (Num 10)).
  - unfold message_above_10.
    exists (tpl emoji +:+ " **Incredible, @" +:+ tpl author
              +:+ "!** You've merged your ").
    eexists. rewrite !string_app_assoc. reflexivity.
  - unfold message_default.
    exists (tpl emoji +:+ " **Great job, @" +:+ tpl author
              +:+ "!** You've merged your ").
    eexists. rewrite !string_app_assoc. reflexivity.
Qed.

Lemma other_counts_get_the_suffix_th_witness :
  holds "21th PR!"
        (getMessage (Some "octocat") (Some "classiq-library") sample_random
                    (Num 21)) /\
  holds "NaNth PR!"
        (getMessage (Some "octocat") (Some "classiq-library") sample_random
                    (parseInt None)).
Proof.
  split.
  - apply (other_counts_get_the_suffix_th _ _ _ (Num 21)). reflexivity.
  - apply (other_counts_get_the_suffix_th _ _ _ (parseInt None)). reflexivity.
Defined.

(** X13: the count the counting step exports is the count the comment step
    reads: for every integer that JavaScript holds exactly, up to [2 ^ 53]
    in absolute value, as every length of an array is, [parseInt] of the
    exported text is that integer. *)
Theorem exported_count_is_read_back (env : gmap string string) (z : Z) :
  Z.abs z <= 2 ^ 53 ->
  parseInt
    (exports [ExportVariable "PR_COUNT" (number_to_string (Num z))] env
       !! "PR_COUNT") = Num z.
Proof.
  intros _. unfold exports. cbn [foldl]. rewrite lookup_insert_eq.
  apply parseInt_number_to_string.
Qed.

Lemma exported_count_is_read_back_witness :
  parseInt
    (exports [ExportVariable "PR_COUNT" (number_to_string (Num 1000))] ∅
       !! "PR_COUNT") = Num 1000.
Proof. apply exported_count_is_read_back. vm_compute. discriminate. Defined.

(** X14: when the API rejects the comment, the comment step reports it and
    the job fails; the count stays exported, and the one comment request
    is not sent again. *)
Theorem rejected_comment_fails_the_job
    (w : runner_world) (ev : event) (items : list item) (e : error) :
  closed_pull_request ev ->
  merged (pull_request ev) = true ->
  well_formed ev = true ->
  checkout_response w = inr tt ->
  search_response (api w) (query_of ev) 1000 = inr items ->
  Forall pr_item items ->
  (forall body,
     create_comment_response (api w)
       (Some (owner_login (repository ev)))
       (Some (repo_name (repository ev)))
       (number (pull_request ev)) body = inl e) ->
  let count := Num (Z.of_nat (length (filter merged_at_set items))) in
  run_workflow w ev notification_developers_onboarding =
  Some [(job_name,
         (Failed,
          State (<["PR_COUNT" := number_to_string count]> (env_of ev ∅))
            [Fetch (owner_login (repository ev)) (repo_name (repository ev));
             Api (SearchIssuesAndPullRequests (query_of ev) 1000);
             Api (ExportVariable "PR_COUNT" (number_to_string count));
             Api (IssuesCreateComment
                    (Some (owner_login (repository ev)))
                    (Some (repo_name (repository ev)))
                    (number (pull_request ev))
                    (getMessage (Some (user_login (pull_request ev)))
                                (Some (repo_name (repository ev)))
                                (math_random (api w)) count));
             Api (SetFailed ("Error creating comment: " +:+ message e))]))].
Proof.
  intros Hc Hm Hwf Hco Hs Hi Hcomment count.
  rewrite run_workflow_closed by done.
  pose proof (count_merged_body_ok (api w) (env_of ev ∅) items) as Hok.
  rewrite count_query_env_of in Hok. specialize (Hok Hs Hi).
  destruct (job_runs w ev Hwf Hm) as [(e' & He & _)|[(msg & _ & (e' & He) & _)|H]].
  - congruence.
  - rewrite Hok in He. discriminate He.
  - destruct H as (v & _ & Hv & H). cbn zeta in H.
    rewrite Hok in Hv.
    assert (v = number_to_string count) as -> by (by injection Hv).
    subst count. rewrite parseInt_number_to_string in H.
    destruct H as [(e' & He & ->)|(He & _)].
    + rewrite Hcomment in He. by injection He as <-.
    + rewrite Hcomment in He. discriminate He.
Qed.

Lemma rejected_comment_fails_the_job_witness :
  let w := {| api := {| search_response := search_response (api sample_world);
                        create_comment_response := fun _ _ _ _ =>
                          inl (Error "Resource not accessible by integration");
                        math_random := S754_zero false |};
              checkout_response := inr tt |} in
  exists st,
    run_workflow w (sample_event true) notification_developers_onboarding =
      Some [(job_name, (Failed, st))] /\
    env st !! "PR_COUNT" = Some "2" /\
    last (log st) =
      Some (Api (SetFailed
        "Error creating comment: Resource not accessible by integration")).
Proof.
  intros w. eexists. split.
  - apply (rejected_comment_fails_the_job w (sample_event true) sample_items
             (Error "Resource not accessible by integration")).
    + split; reflexivity.
    + reflexivity.
    + vm_compute. reflexivity.
    + reflexivity.
    + vm_compute. reflexivity.
    + repeat constructor; eexists; (split; [reflexivity | discriminate]).
    + reflexivity.
  - split; vm_compute; reflexivity.
Defined.

End MoreWorkflowFacts.

Section MoreQmodFacts.
Import Qmod QmodLint.

(** ** More on the Qmod files *)

(** X15: in every function of the four files, not in [main] alone, the
    first statement that mentions an [output] parameter or a declared
    variable initialises it, and every [output] parameter is initialised
    when the function ends. *)
Theorem every_function_initialises_its_outputs :
  Forall (fun tf => functions_initialise tf.2 = true) repository_files.
Proof. repeat constructor. Qed.

(** X16: the calls agree with the declarations: a call of a function of the
    file, of a parameter of a function type or of an element of an array
    of functions passes as many arguments as are declared, and a lambda
    passed for a parameter of a function type takes as many parameters as
    that type has.  Fourteen calls are of these kinds. *)
Theorem calls_agree_with_declarations :
  Forall (fun tf => Forall (fun ok => ok = true) (checked_calls tf.2))
         repository_files /\
  length (flat_map (fun tf => checked_calls tf.2) repository_files) = 14%nat.
Proof. split; [repeat constructor | reflexivity]. Qed.

(** X17: no index is out of bounds: wherever the length of what is indexed
    is declared, for a parameter that is an array or for an array field of
    a parameter that is a struct, the index stays below it, the index of
    a [repeat] taken at its largest; and the index of a [repeat] over the
    length of an array stays below the length of that array.  Of the 54
    indices of the files, 53 are decided so, the 50 of [set_cover.qmod]
    among them; the one left, by a parameter into an array of no declared
    length, is not decided. *)
Theorem indices_stay_in_bounds :
  Forall (fun tf => no_index_out_of_bounds tf.2 = true) repository_files /\
  (fun tf => count_verdicts (index_verdicts tf.2)) <$> repository_files =
  [(50, 0, 0); (0, 0, 0); (2, 0, 0); (1, 0, 1)]%nat.
Proof. split; [repeat constructor | vm_compute; reflexivity]. Qed.

(** X18: in every list of Pauli terms of a file all terms have the same
    number [w] of Pauli matrices, and every state the file prepares from
    a literal list has [2 ^ w] entries: 2 and 4 for the ten terms of
    [qpe_for_matrix.qmod], 6 and 64 for the sixteen terms of the third
    file. *)
Theorem hamiltonians_fit_their_states :
  Forall (fun tf => hamiltonians_fit tf.2 = true) repository_files /\
  (fun tf => (hamiltonians tf.2, state_lengths tf.2)) <$> repository_files =
  [([], []);
   ([replicate 10 2%nat], [4%nat]);
   ([replicate 16 6%nat], [64%nat]);
   ([], [4%nat])].
Proof. split; [repeat constructor | vm_compute; reflexivity]. Qed.

End MoreQmodFacts.

Section NotebookFacts.
Import FlexibleQpe.

(** ** The notebook functions *)

Lemma getitem_letter (a : ascii) :
  (is_pauli_letter a = true -> exists p, getitem a = inr p) /\
  (is_pauli_letter a = false -> getitem a = inl (KeyError a)).
Proof.
  unfold is_pauli_letter, getitem. cbn [existsb List.find my_list fst snd].
  rewrite !(Ascii.eqb_sym a).
  repeat match goal with
         | |- context [Ascii.eqb ?c a] => destruct (Ascii.eqb c a)
         end; split; intros H; try discriminate H; eauto.
Qed.

Lemma getitem_inj (a b : ascii) (p : Pauli.t) :
  getitem a = inr p -> getitem b = inr p -> a = b.
Proof.
  unfold getitem. cbn [List.find my_list fst snd].
  repeat match goal with
         | |- context [Ascii.eqb ?c ?x] =>
             destruct (Ascii.eqb_spec c x) as [<-|?]
         end; intros [= <-] [=]; reflexivity.
Qed.

(** X19: [pauli_str_to_enums] returns a list exactly when every character
    of the string is one of I, X, Y, Z, and raises [KeyError] otherwise;
    the list is as long as the string, and two strings with the same list
    are the same string. *)
Theorem pauli_str_to_enums_letters (s : string) :
  (forallb is_pauli_letter (list_ascii_of_string s) = true <->
   exists ps, pauli_str_to_enums s = inr ps) /\
  (forall ps, pauli_str_to_enums s = inr ps ->
     length ps = String.length s /\
     forall s', pauli_str_to_enums s' = inr ps -> s' = s).
Proof.
  induction s as [|a s [IHiff IHlen]].
  - split; [split; [by eexists | done]|].
    intros ps [= <-]. split; [done|].
    intros [|a' s']; [done|]. cbn [pauli_str_to_enums].
    destruct (getitem a'); [done|]. by destruct (pauli_str_to_enums s').
  - cbn [list_ascii_of_string forallb pauli_str_to_enums String.length].
    destruct (getitem_letter a) as [Hyes Hno].
    destruct (is_pauli_letter a) eqn:Ea.
    + destruct (Hyes eq_refl) as [p Hp]. rewrite Hp. cbn [andb]. split.
      * rewrite IHiff. split.
        -- intros [ps ->]. by eexists.
        -- intros [ps H]. destruct (pauli_str_to_enums s); [done|by eexists].
      * intros ps H.
        destruct (pauli_str_to_enums s) as [e|qs] eqn:Es; [done|].
        injection H as <-. destruct (IHlen qs eq_refl) as [Hl Hinj].
        split; [cbn; by rewrite Hl|].
        intros [|a' s']; [done|]. cbn [pauli_str_to_enums].
        destruct (getitem a') as [e|p'] eqn:Hp'; [done|].
        destruct (pauli_str_to_enums s') as [e|qs'] eqn:Es'; [done|].
        intros [= -> ->]. f_equal; [by eapply getitem_inj | by apply Hinj].
    + rewrite (Hno eq_refl). cbn [andb].
      split; [split; [done | by intros [ps [=]]] | by intros ps [=]].
Qed.

Lemma pauli_str_to_enums_letters_witness :
  pauli_str_to_enums "XZ" = inr [Pauli.X; Pauli.Z] /\
  length [Pauli.X; Pauli.Z] = String.length "XZ" /\
  pauli_str_to_enums "IQ" = inl (KeyError "Q").
Proof.
  assert (pauli_str_to_enums "XZ" = inr [Pauli.X; Pauli.Z]) as H
    by reflexivity.
  split; [exact H|]. split; [|reflexivity].
  destruct (pauli_str_to_enums_letters "XZ") as [_ Hlen].
  exact (proj1 (Hlen _ H)).
Defined.

(** X20: [pauli_operator_to_hamiltonian] keeps the terms in their order: when
    it returns, there is one term for each pair, with the enums of the
    string of the pair and the real part of its coefficient; it raises
    [KeyError] as soon as one string holds a character that is none of I,
    X, Y, Z. *)
Theorem pauli_operator_to_hamiltonian_terms
    {complex real : Type} (real_part : complex -> real)
    (pauli_list : list (string * complex)) :
  (forall terms,
     pauli_operator_to_hamiltonian real_part pauli_list = inr terms ->
     length terms = length pauli_list /\
     inr <$> (pauli <$> terms) = pauli_str_to_enums <$> (fst <$> pauli_list) /\
     coefficient <$> terms = real_part <$> (snd <$> pauli_list)) /\
  (Forall (fun pc => forallb is_pauli_letter (list_ascii_of_string pc.1) = true)
          pauli_list <->
   exists terms, pauli_operator_to_hamiltonian real_part pauli_list = inr terms).
Proof.
  induction pauli_list as [|[s c] l [IHt IHiff]].
  - split; [by intros terms [= <-]|]. split; [by eexists | constructor].
  - cbn [pauli_operator_to_hamiltonian].
    destruct (pauli_str_to_enums_letters s) as [Hs _].
    destruct (pauli_str_to_enums s) as [e|ps] eqn:Es.
    + split; [by intros terms [=]|]. split.
      * intros H. apply Forall_cons in H as [H _]. cbn [fst] in H.
        apply Hs in H as [? [=]].
      * by intros [terms [=]].
    + destruct (pauli_operator_to_hamiltonian real_part l) as [e|ts] eqn:El.
      * split; [by intros terms [=]|]. split.
        -- intros H. apply Forall_cons in H as [_ H].
           apply IHiff in H as [? [=]].
        -- by intros [terms [=]].
      * split.
        -- intros terms [= <-]. destruct (IHt ts eq_refl) as (Hl & Hp & Hc).
           cbn [length fmap list_fmap pauli coefficient fst snd].
           split; [by rewrite Hl|].
           split; [rewrite Es; f_equal; exact Hp | f_equal; exact Hc].
        -- split; [by eexists|]. intros _. constructor.
           ++ cbn [fst]. apply Hs. by eexists.
           ++ apply IHiff. by eexists.
Qed.

Lemma pauli_operator_to_hamiltonian_terms_witness :
  exists terms,
    pauli_operator_to_hamiltonian (fun c : Z * Z => c.1)
      [("II", (4, 0)); ("IZ", (-5, 0)); ("XX", (-16, 0))] = inr terms /\
    length terms = 3%nat.
Proof.
  destruct (pauli_operator_to_hamiltonian_terms (fun c : Z * Z => c.1)
              [("II", (4, 0)); ("IZ", (-5, 0)); ("XX", (-16, 0))])
    as [Hterms Hiff].
  destruct (proj1 Hiff) as [terms Ht].
  - repeat constructor.
  - exists terms. split; [exact Ht|]. exact (proj1 (Hterms terms Ht)).
Defined.

End NotebookFacts.
